(** * Structural indexing and patch post-processing: a shallow embedding

    The Python sources embedded here are

    - [agentless/util/parse_global_var_for_java.py]
      ([JavaGlobalVariableVisitor], [parse_global_var_from_java_code]),
    - [get_repo_structure/get_repo_structure.py]
      ([parse_python_file], [parse_java_file], [is_bugswarm_artifact_name]),
    - [agentless/util/compress_file_java.py]
      ([CompressTransformerJava]),
    - [agentless/repair/repair.py]
      ([_post_process_multifile_repair], [construct_topn_file_context],
      [post_process_raw_output]),
    - [agentless/util/utils.py]
      ([get_errors_from_logs], [get_errors_from_logs_python],
      [get_exception_informations]).

    Python [str] values are modelled as [string]; every character stands
    for one code point below 256.  Python [int] is [Z].  A Python call that
    may raise is modelled by a function into [option] (or into an explicit
    outcome type) whose failure value stands for the raised exception.
    The handlers of these sources are [except Exception] (and one
    [except JavaSyntaxError]); an exit or an interrupt of the interpreter,
    which is no [Exception], is outside the model. *)

From Stdlib Require Import ZArith Lia Ascii String List Bool.
From stdpp Require Import base option list strings gmap.

Set Warnings "-register-all".

Local Open Scope Z_scope.
Local Open Scope string_scope.
Local Open Scope list_scope.

(** ** Python string and sequence primitives *)

Module Py.

(** Code point of a character. *)
Definition ord (c : ascii) : N := N_of_ascii c.

(** [str.splitlines] line boundaries among the code points below 256:
    LF, VT, FF, CR, FS, GS, RS and NEL.  (CR followed by LF is one
    boundary; see [splitlines_from].) *)
Definition is_linebreak (c : ascii) : bool :=
  let n := ord c in
  (n =? 10)%N || (n =? 11)%N || (n =? 12)%N || (n =? 13)%N
  || (n =? 28)%N || (n =? 29)%N || (n =? 30)%N || (n =? 133)%N.

Definition is_cr (c : ascii) : bool := (ord c =? 13)%N.
Definition is_lf (c : ascii) : bool := (ord c =? 10)%N.

(** The scan of [str.splitlines()]: [cur] is the text of the line being
    read.  A last line without a terminator is kept when it is not
    empty, so a trailing line break opens no further line. *)
Fixpoint splitlines_from (cur : string) (s : string) : list string :=
  match s with
  | EmptyString => if decide (cur = "") then [] else [cur]
  | String c rest =>
      if is_cr c then
        match rest with
        | String d rest' =>
            if is_lf d then cur :: splitlines_from "" rest'
            else cur :: splitlines_from "" rest
        | EmptyString => [cur]
        end
      else if is_linebreak c then cur :: splitlines_from "" rest
      else splitlines_from (cur +:+ String c EmptyString) rest
  end.

Definition splitlines (s : string) : list string := splitlines_from "" s.

(** [len(l)] *)
Definition len {A} (l : list A) : Z := Z.of_nat (length l).

(** [l[i]] with Python's negative indices; [None] is [IndexError]. *)
Definition index {A} (l : list A) (i : Z) : option A :=
  if decide (0 <= i) then l !! Z.to_nat i
  else if decide (0 <= len l + i) then l !! Z.to_nat (len l + i)
  else None.

(** [range(a, b)] *)
Definition range (a b : Z) : list Z := seqZ a (b - a).

(** Slice bound normalisation of [l[a:b]] for a sequence of length [n]. *)
Definition clamp (n i : Z) : Z :=
  if decide (i < 0) then Z.max (n + i) 0 else Z.min i n.

(** [l[a:b]] *)
Definition slice {A} (l : list A) (a b : Z) : list A :=
  let lo := clamp (len l) a in
  let hi := clamp (len l) b in
  take (Z.to_nat (hi - lo)) (drop (Z.to_nat lo) l).

(** [l[a:]] *)
Definition slice_from {A} (l : list A) (a : Z) : list A :=
  drop (Z.to_nat (clamp (len l) a)) l.

(** [s.count(c)] for a one-character needle. *)
Fixpoint count (c : ascii) (s : string) : Z :=
  match s with
  | EmptyString => 0
  | String d rest => (if decide (d = c) then 1 else 0) + count c rest
  end.

(** [s[-1]]; [None] is the [IndexError] of an empty string. *)
Fixpoint last_char (s : string) : option ascii :=
  match s with
  | EmptyString => None
  | String c EmptyString => Some c
  | String _ rest => last_char rest
  end.

(** [sep.join(parts)] *)
Fixpoint join (sep : string) (parts : list string) : string :=
  match parts with
  | [] => ""
  | [p] => p
  | p :: rest => p +:+ sep +:+ join sep rest
  end.

(** The line feed character and the one-character string of it. *)
Definition LF : string := String "010" EmptyString.

(** [s.startswith(p)] *)
Fixpoint startswith (p s : string) : bool :=
  match p, s with
  | EmptyString, _ => true
  | String a p', String b s' => bool_decide (a = b) && startswith p' s'
  | String _ _, EmptyString => false
  end.

(** [s.replace(old, new)] for a non-empty [old]: the occurrences of
    [old] are replaced from left to right without overlap.  [skip]
    counts the characters of an occurrence still to be dropped. *)
Fixpoint replace_from (old new : string) (skip : nat) (s : string) : string :=
  match s with
  | EmptyString => EmptyString
  | String c s' =>
      match skip with
      | S k => replace_from old new k s'
      | O =>
          if startswith old s
          then new +:+ replace_from old new (String.length old - 1) s'
          else String c (replace_from old new O s')
      end
  end.

Definition replace (old new s : string) : string := replace_from old new O s.

(** White space of [str.strip()] on code points below 256. *)
Definition is_space (c : ascii) : bool :=
  let n := ord c in
  ((9 <=? n) && (n <=? 13))%N || ((28 <=? n) && (n <=? 32))%N
  || (n =? 133)%N || (n =? 160)%N.

(** [s.strip() == ""] *)
Fixpoint is_blank (s : string) : bool :=
  match s with
  | EmptyString => true
  | String c s' => is_space c && is_blank s'
  end.

End Py.

(** ** [parse_global_var_for_java.py]: the end line of a field declaration *)

Module JavaGlobalVar.

(** The body of the [for] loop of [calculate_end_line], over the
    remaining indices of [range(start_line - 1, len(lines))].  The
    result [None] is an [IndexError]. *)
Fixpoint scan (lines : list string) (idxs : list Z)
    (open_braces close_braces end_line : Z) : option Z :=
  match idxs with
  | [] => Some end_line
  | i :: idxs' =>
      match Py.index lines i with
      | None => None
      | Some line =>
          if decide (line = "") then
            scan lines idxs' open_braces close_braces end_line
          else
            let open_braces := open_braces + Py.count "("%char line in
            let close_braces := close_braces + Py.count ")"%char line in
            if decide (open_braces = close_braces) then
              match Py.last_char line with
              | None => None
              | Some c =>
                  if decide (c = ";"%char) then Some (i + 1)
                  else scan lines idxs' open_braces close_braces end_line
              end
            else scan lines idxs' open_braces close_braces end_line
      end
  end.

Definition calculate_end_line (codes : string) (start_line : Z) : option Z :=
  let lines := Py.splitlines codes in
  scan lines (Py.range (start_line - 1) (Py.len lines)) 0 0 start_line.

(** *** Reference definitions for the statements below *)

(** Occurrences of [c] in the lines [a0 .. a - 1] (0-based). *)
Definition upto (c : ascii) (lines : list string) (a0 a : nat) : Z :=
  foldr Z.add 0 (Py.count c <$> take (a - a0) (drop a0 lines)).

(** Number of occurrences of [c] in lines [a .. i] (0-based, inclusive). *)
Definition total (c : ascii) (lines : list string) (a i : nat) : Z :=
  upto c lines a (S i).

(** The stopping condition of the loop at 0-based index [i] when the
    scan started at index [a]. *)
Definition stops_at (lines : list string) (a i : nat) : bool :=
  match lines !! i with
  | None => false
  | Some line =>
      bool_decide (line ≠ "")
      && bool_decide (total "(" lines a i = total ")" lines a i)
      && bool_decide (Py.last_char line = Some ";"%char)
  end.

(** The scan as the specification words it: the first line at or after
    [start_line] at which the accumulated count of opening delimiters
    equals the accumulated count of closing ones ([None]: no such
    line). *)
Fixpoint first_balanced (lines : list string) (i : Z) (opens closes : Z)
    : option Z :=
  match lines with
  | [] => None
  | line :: rest =>
      let opens := opens + Py.count "("%char line in
      let closes := closes + Py.count ")"%char line in
      if decide (opens = closes) then Some i
      else first_balanced rest (i + 1) opens closes
  end.

Definition first_balanced_line (codes : string) (start_line : Z) : option Z :=
  first_balanced (drop (Z.to_nat (start_line - 1)) (Py.splitlines codes))
    start_line 0 0.

(** A field declaration whose first line has balanced parentheses but
    ends on the next line. *)
Definition two_line_field : string :=
  "static int x = f(1)" +:+ Py.LF +:+ "    + 2;".

End JavaGlobalVar.

(** ** A backtracking matcher for the regular expressions of [re]

    [run r s caps] lists, in the order Python's backtracking search tries
    them, the ways [r] matches a prefix of [s]: the text left over and the
    groups captured.  [re.match] takes the first. *)

Module Re.

Inductive regex :=
| Eps
| Lit (s : string)
| Seq (r1 r2 : regex)
| Alt (r1 r2 : regex)
| Opt (r : regex)                     (* r?  *)
| Star (p : ascii -> bool)            (* [p]* *)
| Plus (p : ascii -> bool)            (* [p]+ *)
| Group (n : nat) (r : regex).        (* (r), numbered [n] *)

Definition captures := list (nat * string).

(** The concatenation of [rs]. *)
Definition Seqs (rs : list regex) : regex := foldr Seq Eps rs.
(** [r|r1|...|rn], the alternatives tried from left to right. *)
Definition Alts (r : regex) (rs : list regex) : regex := foldl Alt r rs.

Fixpoint strip_prefix (p s : string) : option string :=
  match p, s with
  | EmptyString, _ => Some s
  | String a p', String b s' => if decide (a = b) then strip_prefix p' s' else None
  | String _ _, EmptyString => None
  end.

(** Greedy repetition of a character class: longest run first. *)
Fixpoint star_runs (p : ascii -> bool) (s : string) (caps : captures)
    : list (string * captures) :=
  match s with
  | String c s' =>
      if p c then star_runs p s' caps ++ [(s, caps)] else [(s, caps)]
  | EmptyString => [(s, caps)]
  end.

(** The text of [s] consumed when [s'] is what is left of it. *)
Definition consumed (s s' : string) : string :=
  substring 0 (String.length s - String.length s') s.

Fixpoint run (r : regex) (s : string) (caps : captures)
    : list (string * captures) :=
  match r with
  | Eps => [(s, caps)]
  | Lit l =>
      match strip_prefix l s with
      | Some s' => [(s', caps)]
      | None => []
      end
  | Seq r1 r2 => flat_map (fun sc => run r2 sc.1 sc.2) (run r1 s caps)
  | Alt r1 r2 => run r1 s caps ++ run r2 s caps
  | Opt r1 => run r1 s caps ++ [(s, caps)]
  | Star p => star_runs p s caps
  | Plus p =>
      match s with
      | String c s' => if p c then star_runs p s' caps else []
      | EmptyString => []
      end
  | Group n r1 =>
      (fun sc => (sc.1, (n, consumed s sc.1) :: sc.2)) <$> run r1 s caps
  end.

(** [re.match(r, s)]: the groups of the first match ([None]: no match). *)
Definition re_match (r : regex) (s : string) : option captures :=
  snd <$> head (run r s []).

(** [m.group(n)] of a group that took part in the match. *)
Fixpoint group (n : nat) (caps : captures) : option string :=
  match caps with
  | [] => None
  | (k, v) :: rest => if decide (k = n) then Some v else group n rest
  end.

(** [\s] on code points below 256: TAB..CR, FS..US, space, NEL, NBSP. *)
Definition space (c : ascii) : bool :=
  let n := Py.ord c in
  ((9 <=? n) && (n <=? 13))%N || ((28 <=? n) && (n <=? 32))%N
  || (n =? 133)%N || (n =? 160)%N.

(** [\w] on code points below 256: the alphanumeric ones and [_]. *)
Definition word (c : ascii) : bool :=
  let n := Py.ord c in
  ((48 <=? n) && (n <=? 57))%N || ((65 <=? n) && (n <=? 90))%N
  || ((97 <=? n) && (n <=? 122))%N || (n =? 95)%N
  || (n =? 170)%N || (n =? 178)%N || (n =? 179)%N || (n =? 181)%N
  || (n =? 185)%N || (n =? 186)%N || ((188 <=? n) && (n <=? 190))%N
  || ((192 <=? n) && (n <=? 214))%N || ((216 <=? n) && (n <=? 246))%N
  || ((248 <=? n) && (n <=? 255))%N.

End Re.

(** ** [get_repo_structure.py] *)

Module RepoStructure.

(** *** [parse_java_file] *)

Record java_class := JavaClass {
  jc_name : string;
  jc_start_line : Z;
  jc_end_line : Z;
  jc_text : list string
}.

(** A method entry has a name ([m.group(3)], which is [None] for a group
    that took no part in the match), a start line and the text of that
    line; the source gives it neither an end line nor a class. *)
Record java_method := JavaMethod {
  jm_name : option string;
  jm_start_line : Z;
  jm_text : list string
}.

(** The source's [class_pattern]:
    "^\s*(public|protected|private)?\s*(abstract|final)?\s*class\s+(\w+)\s*" *)
Definition class_pattern : Re.regex :=
  Re.Seqs [
    Re.Star Re.space;
    Re.Opt (Re.Group 1 (Re.Alts (Re.Lit "public") [Re.Lit "protected"; Re.Lit "private"]));
    Re.Star Re.space;
    Re.Opt (Re.Group 2 (Re.Alts (Re.Lit "abstract") [Re.Lit "final"]));
    Re.Star Re.space;
    Re.Lit "class";
    Re.Plus Re.space;
    Re.Group 3 (Re.Plus Re.word);
    Re.Star Re.space ].

(** The character class of word characters, angle and square brackets. *)
Definition type_char (c : ascii) : bool :=
  Re.word c
  || bool_decide (c = "<"%char) || bool_decide (c = ">"%char)
  || bool_decide (c = "["%char) || bool_decide (c = "]"%char).

(** Any character but a closing parenthesis. *)
Definition not_rparen (c : ascii) : bool := negb (bool_decide (c = ")"%char)).

(** The source's [method_pattern], anchored at the start of the line:
    optional white space, an optional modifier (group 1), optional white
    space, an optional type followed by white space (group 2), the name
    (group 3, one or more word characters), optional white space, an
    opening parenthesis, the parameters (group 4, any characters but a
    closing parenthesis), a closing parenthesis, optional white space and
    an optional opening brace. *)
Definition method_pattern : Re.regex :=
  Re.Seqs [
    Re.Star Re.space;
    Re.Opt (Re.Group 1 (Re.Alts (Re.Lit "public")
      [Re.Lit "protected"; Re.Lit "private"; Re.Lit "static"; Re.Lit "final";
       Re.Lit "abstract"; Re.Lit "synchronized"]));
    Re.Star Re.space;
    Re.Opt (Re.Group 2 (Re.Seq (Re.Plus type_char) (Re.Plus Re.space)));
    Re.Group 3 (Re.Plus Re.word);
    Re.Star Re.space;
    Re.Lit "(";
    Re.Group 4 (Re.Star not_rparen);
    Re.Lit ")";
    Re.Star Re.space;
    Re.Opt (Re.Lit "{") ].

(** The [file_content] argument: absent, a list of lines, or one string. *)
Inductive java_content :=
| NoContent
| ContentList (l : list string)
| ContentStr (s : string).

(** The local variables of [parse_java_file] that the loop updates. *)
Record java_state := JavaState {
  class_info : list java_class;
  method_info : list java_method;
  current_class : option string;
  class_start_line : option Z
}.

(** Truth value of [current_class]: [None] and the empty string are false. *)
Definition truthy (s : option string) : bool :=
  match s with
  | Some v => bool_decide (v ≠ "")
  | None => false
  end.

(** One iteration of [for i, line in enumerate(lines, start=1)].  [None]
    is the [TypeError] of [class_start_line - 1] on an unset start. *)
Definition java_step (lines : list string) (i : Z) (line : string)
    (st : java_state) : option java_state :=
  match Re.re_match class_pattern line with
  | Some m =>
      saved ←
        (if truthy (current_class st) then
           start ← class_start_line st;
           name ← current_class st;
           Some (class_info st ++
                 [JavaClass name start (i - 1) (Py.slice lines (start - 1) (i - 1))])
         else Some (class_info st));
      Some (JavaState saved (method_info st) (Re.group 3 m) (Some i))
  | None =>
      match Re.re_match method_pattern line with
      | Some m =>
          let method_name := Re.group 3 m in
          Some (JavaState (class_info st)
                  (method_info st ++ [JavaMethod method_name i [line]])
                  (current_class st) (class_start_line st))
      | None => Some st
      end
  end.

Fixpoint java_loop (lines : list string) (todo : list string) (i : Z)
    (st : java_state) : option java_state :=
  match todo with
  | [] => Some st
  | line :: todo' =>
      st' ← java_step lines i line st;
      java_loop lines todo' (i + 1) st'
  end.

Section parse_java_file.
(** [open(file_path).readlines()]; [None] is any exception. *)
Variable readlines : string -> option (list string).

Definition parse_java_file (file_path : string) (file_content : java_content)
    : option (list java_class * list java_method * list string) :=
  let content :=
    match file_content with
    | NoContent => readlines file_path
    | ContentList l => Some l
    | ContentStr s => Some (Py.splitlines s)
    end in
  match content with
  | None => Some ([], [], [])
  | Some lines =>
      st ← java_loop lines lines 1 (JavaState [] [] None None);
      if truthy (current_class st) then
        start ← class_start_line st;
        name ← current_class st;
        Some (class_info st ++
              [JavaClass name start (Py.len lines) (Py.slice_from lines (start - 1))],
              method_info st, lines)
      else Some (class_info st, method_info st, lines)
  end.
End parse_java_file.

(** *** Reference definitions for the statements about [parse_java_file] *)

(** What the loop guarantees of a class entry [c] made from [lines]: its
    start line matches [class_pattern] and gives the name, no later line
    up to its end line matches, and its end line is the last line of the
    file or the line just before the next one that matches. *)
Definition class_ok (lines : list string) (c : java_class) : Prop :=
  1 <= jc_start_line c <= jc_end_line c /\
  jc_end_line c <= Py.len lines /\
  (exists l m, lines !! Z.to_nat (jc_start_line c - 1) = Some l /\
     Re.re_match class_pattern l = Some m /\ Re.group 3 m = Some (jc_name c)) /\
  (forall (j : nat) l, jc_start_line c <= Z.of_nat j < jc_end_line c ->
     lines !! j = Some l -> Re.re_match class_pattern l = None) /\
  (jc_end_line c = Py.len lines \/
   exists l m, lines !! Z.to_nat (jc_end_line c) = Some l /\
     Re.re_match class_pattern l = Some m) /\
  jc_text c = Py.slice lines (jc_start_line c - 1) (jc_end_line c).

(** The loop invariant after [k] lines: the entries made so far are as
    [class_ok] says, and the class being read started at a matching line
    after which no line matched. *)
Definition java_inv (lines : list string) (k : nat) (st : java_state) : Prop :=
  Forall (class_ok lines) (class_info st) /\
  (forall name, current_class st = Some name ->
     exists s l m, class_start_line st = Some s /\ 1 <= s <= Z.of_nat k /\
       lines !! Z.to_nat (s - 1) = Some l /\
       Re.re_match class_pattern l = Some m /\ Re.group 3 m = Some name /\
       (forall (j : nat) l', s <= Z.of_nat j < Z.of_nat k ->
          lines !! j = Some l' -> Re.re_match class_pattern l' = None)).

(** The line of a declaration's closing scope, as the specification words
    it: the first line from [start] on at which as many braces have been
    closed as opened, one at least ([None]: no such line). *)
Fixpoint closing_scope_from (lines : list string) (i : Z) (opened closed : Z)
    : option Z :=
  match lines with
  | [] => None
  | line :: rest =>
      let opened := opened + Py.count "{" line in
      let closed := closed + Py.count "}" line in
      if decide (0 < opened /\ opened = closed) then Some i
      else closing_scope_from rest (i + 1) opened closed
  end.

Definition closing_scope_line (lines : list string) (start : Z) : option Z :=
  closing_scope_from (drop (Z.to_nat (start - 1)) lines) start 0 0.

(** Two classes with a blank line between them. *)
Definition two_classes : list string :=
  ["class A {"; "}"; ""; "class B {"; "}"].

(** An interface with one method. *)
Definition one_interface : list string :=
  ["public interface Foo {"; "    void bar();"; "}"].

(** *** The Python syntax tree of [ast]

    Only what [parse_python_file] inspects is kept: the node class, and
    for class and function definitions the name, the position and the
    statement list [body].  [pre] and [post] hold the child nodes that
    [ast.iter_child_nodes] yields before and after [body] (arguments,
    bases and keywords; decorators and annotations). *)

Inductive ast :=
| Module (body : list ast)
| ClassDef (name : string) (lineno end_lineno : Z) (pre body post : list ast)
| FunctionDef (name : string) (lineno end_lineno : Z) (pre body post : list ast)
| AsyncFunctionDef (name : string) (lineno end_lineno : Z) (pre body post : list ast)
| OtherNode (children : list ast).

(** [ast.iter_child_nodes(node)] *)
Definition iter_child_nodes (node : ast) : list ast :=
  match node with
  | Module body => body
  | ClassDef _ _ _ pre body post
  | FunctionDef _ _ _ pre body post
  | AsyncFunctionDef _ _ _ pre body post => pre ++ body ++ post
  | OtherNode children => children
  end.

(** Number of nodes of a tree. *)
Fixpoint size (node : ast) : nat :=
  let sizes := fix sizes (l : list ast) : nat :=
    match l with
    | [] => O
    | n :: l' => (size n + sizes l')%nat
    end in
  match node with
  | Module body => S (sizes body)
  | ClassDef _ _ _ pre body post
  | FunctionDef _ _ _ pre body post
  | AsyncFunctionDef _ _ _ pre body post =>
      S (sizes pre + (sizes body + sizes post))
  | OtherNode children => S (sizes children)
  end.

(** The loop of [ast.walk]: pop the first node of the queue [todo],
    append its children to the queue, yield it.  One unit of [fuel] per
    node yielded. *)
Fixpoint walk_queue (fuel : nat) (todo : list ast) : list ast :=
  match fuel, todo with
  | S fuel', node :: todo' =>
      node :: walk_queue fuel' (todo' ++ iter_child_nodes node)
  | _, _ => []
  end.

(** [ast.walk(node)]: breadth first, the node itself first. *)
Definition walk (node : ast) : list ast := walk_queue (size node) [node].

Record py_function := PyFunction {
  pf_name : string;
  pf_start_line : Z;
  pf_end_line : Z;
  pf_text : list string
}.

Record py_class := PyClass {
  pc_name : string;
  pc_start_line : Z;
  pc_end_line : Z;
  pc_text : list string;
  pc_methods : list py_function
}.

(** The third component of the result: the source returns a string on
    its error path and a list of lines otherwise. *)
Inductive py_text :=
| Str (s : string)
| Lines (l : list string).

(** The entry made for a function or method node. *)
Definition function_entry (file_content : string) (name : string)
    (lineno end_lineno : Z) : py_function :=
  PyFunction name lineno end_lineno
    (Py.slice (Py.splitlines file_content) (lineno - 1) end_lineno).

(** [methods] of a class: one entry per [FunctionDef] directly in its body. *)
Definition class_methods_of (file_content : string) (body : list ast)
    : list py_function :=
  omap (fun n =>
    match n with
    | FunctionDef name lineno end_lineno _ _ _ =>
        Some (function_entry file_content name lineno end_lineno)
    | _ => None
    end) body.

(** The local variables of [parse_python_file] that the loop updates. *)
Record py_state := PyState {
  py_class_info : list py_class;
  function_names : list py_function;
  class_methods : gset string
}.

(** One iteration of [for node in ast.walk(parsed_data)]. *)
Definition py_step (file_content : string) (st : py_state) (node : ast)
    : py_state :=
  match node with
  | ClassDef name lineno end_lineno _ body _ =>
      let methods := class_methods_of file_content body in
      PyState
        (py_class_info st ++
           [PyClass name lineno end_lineno
              (Py.slice (Py.splitlines file_content) (lineno - 1) end_lineno)
              methods])
        (function_names st)
        (class_methods st ∪ list_to_set (pf_name <$> methods))
  | FunctionDef name lineno end_lineno _ _ _ =>
      if decide (name ∈ class_methods st) then st
      else
        PyState (py_class_info st)
          (function_names st ++ [function_entry file_content name lineno end_lineno])
          (class_methods st)
  | _ => st
  end.

Definition py_loop (file_content : string) (nodes : list ast) (st : py_state)
    : py_state :=
  foldl (py_step file_content) st nodes.

Section parse_python_file.
(** [open(file_path).read()] and [ast.parse]; [None] is any exception. *)
Variable read : string -> option string.
Variable ast_parse : string -> option ast.

Definition parse_python_file (file_path : string) (file_content : option string)
    : list py_class * list py_function * py_text :=
  let content :=
    match file_content with
    | None => read file_path
    | Some c => Some c
    end in
  match content ≫= (fun c => pair c <$> ast_parse c) with
  | None => ([], [], Str "")
  | Some (file_content, parsed_data) =>
      let st := py_loop file_content (walk parsed_data) (PyState [] [] ∅) in
      (py_class_info st, function_names st, Lines (Py.splitlines file_content))
  end.
End parse_python_file.

(** *** Reference definitions for the statements about [parse_python_file] *)

(** The result of [parse_python_file] when the loop visits [nodes]. *)
Definition parse_result (file_content : string) (nodes : list ast)
    : list py_class * list py_function * py_text :=
  let st := py_loop file_content nodes (PyState [] [] ∅) in
  (py_class_info st, function_names st, Lines (Py.splitlines file_content)).

(** Total number of nodes of a list of trees. *)
Definition sizes (l : list ast) : nat := foldr (fun n acc => (size n + acc)%nat) O l.

(** The positions a class or function node must have for the entries
    made from it to be spans: a first line not after the last line, and
    for a class the functions directly in its body inside its lines. *)
Definition node_ok (node : ast) : Prop :=
  match node with
  | ClassDef _ lineno end_lineno _ body _ =>
      lineno <= end_lineno /\
      Forall (fun n =>
        match n with
        | FunctionDef _ l e _ _ _ => lineno <= l /\ l <= e /\ e <= end_lineno
        | _ => True
        end) body
  | FunctionDef _ lineno end_lineno _ _ _ => lineno <= end_lineno
  | _ => True
  end.

(** A class entry is a span, and its method entries are spans within it. *)
Definition class_span_ok (c : py_class) : Prop :=
  pc_start_line c <= pc_end_line c /\
  Forall (fun m => pf_start_line m <= pf_end_line m /\
                   pc_start_line c <= pf_start_line m /\
                   pf_end_line m <= pc_end_line c) (pc_methods c).

(** A parser given by a finite table from texts to trees; a text that is
    not in the table does not parse. *)
Fixpoint table_parse (table : list (string * ast)) (text : string) : option ast :=
  match table with
  | [] => None
  | (t, tree) :: table' => if decide (t = text) then Some tree else table_parse table' text
  end.

(** A file system without files. *)
Definition no_file : string -> option string := fun _ => None.

(** A module whose top-level function [run] follows a class with a
    method [run]. *)
Definition shadow_text : string :=
  Py.join Py.LF
    ["class Job:"; "    def run(self):"; "        return 1"; "";
     "def run():"; "    return Job().run()"].

Definition shadow_tree : ast :=
  Module
    [ClassDef "Job" 1 3 [] [FunctionDef "run" 2 3 [OtherNode []] [OtherNode []] []] [];
     FunctionDef "run" 5 6 [OtherNode []] [OtherNode []] []].

(** A text with a syntax error. *)
Definition broken_text : string := "def (".

(** A module whose top-level function [run] follows a class with a
    method [run] defined with [async def]. *)
Definition async_text : string :=
  Py.join Py.LF
    ["class Job:"; "    async def run(self):"; "        return 1"; "";
     "def run():"; "    return 2"].

Definition async_tree : ast :=
  Module
    [ClassDef "Job" 1 3 []
       [AsyncFunctionDef "run" 2 3 [OtherNode [OtherNode []]]
          [OtherNode [OtherNode []]] []] [];
     FunctionDef "run" 5 6 [OtherNode []] [OtherNode [OtherNode []]] []].

End RepoStructure.


(** ** [compress_file_java.py] *)

Module CompressJava.

(** The syntax tree of [javalang], as far as the compressor inspects it.
    [pre] and [post] hold the child nodes that come before and after
    [body] in the node's attribute order. *)
Inductive jnode :=
| ClassDeclaration (name : string) (pre body post : list jnode)
| MethodDeclaration (name : string) (children : list jnode)
| FieldDeclaration (pre declarators : list jnode)
| VariableDeclarator (name : string) (children : list jnode)
| OtherNode (children : list jnode).

(** The exceptions that matter to [transform]. *)
Inductive exn :=
| JavaSyntaxError
| LexerError
| IndexError
| AttributeError.

Inductive outcome (A : Type) :=
| Return (a : A)
| Raise (e : exn).
Arguments Return {A} a.
Arguments Raise {A} e.

Definition bind {A B} (x : outcome A) (f : A -> outcome B) : outcome B :=
  match x with
  | Return a => f a
  | Raise e => Raise e
  end.

(** The nodes of a tree in the order [tree.filter] meets them: a node,
    then its children from left to right, each with its own subtree. *)
Fixpoint preorder (n : jnode) : list jnode :=
  let all := fix all (l : list jnode) : list jnode :=
    match l with
    | [] => []
    | c :: l' => preorder c ++ all l'
    end in
  n :: match n with
       | ClassDeclaration _ pre body post => all pre ++ all body ++ all post
       | MethodDeclaration _ children => all children
       | FieldDeclaration pre declarators => all pre ++ all declarators
       | VariableDeclarator _ children => all children
       | OtherNode children => all children
       end.

Definition is_class (n : jnode) : bool :=
  match n with
  | ClassDeclaration _ _ _ _ => true
  | _ => false
  end.

Definition replacement_string : string := "...".

(** [member.declarators[0].name] *)
Definition first_declarator_name (declarators : list jnode) : outcome string :=
  match declarators with
  | [] => Raise IndexError
  | VariableDeclarator name _ :: _ => Return name
  | _ :: _ => Raise AttributeError
  end.

Section transformer.
(** [self.keep_constant] *)
Variable keep_constant : bool.

(** The lines one member of a class body adds to [transformed_body]. *)
Definition transform_member (member : jnode) : outcome (list string) :=
  match member with
  | MethodDeclaration name _ =>
      Return ["    " +:+ name +:+ "() { " +:+ replacement_string +:+ " }"]
  | FieldDeclaration _ declarators =>
      if keep_constant then
        bind (first_declarator_name declarators) (fun name =>
          Return ["    " +:+ name +:+ " = " +:+ replacement_string +:+ ";"])
      else Return []
  | _ => Return []
  end.

(** The loop of [transform_class] over [class_node.body]. *)
Fixpoint transform_body (members : list jnode) (transformed_body : list string)
    : outcome (list string) :=
  match members with
  | [] => Return transformed_body
  | member :: members' =>
      bind (transform_member member) (fun stub =>
        transform_body members' (transformed_body ++ stub))
  end.

(** [transform_class]: the pair of the entries [name] and [body]. *)
Definition transform_class (class_node : jnode) : outcome (string * list string) :=
  match class_node with
  | ClassDeclaration name _ body _ =>
      bind (transform_body body []) (fun transformed_body =>
        Return (name, transformed_body))
  | _ => Raise AttributeError
  end.

(** [class_code] of one class in the loop of [transform]. *)
Definition class_code (transformed_class : string * list string) : string :=
  let indent := "    " in
  let body_code := Py.join Py.LF ((fun line => indent +:+ line) <$> transformed_class.2) in
  "class " +:+ transformed_class.1 +:+ " {" +:+ Py.LF +:+ body_code +:+ Py.LF +:+ "}".

Fixpoint transform_classes (nodes : list jnode) (transformed_code : list string)
    : outcome (list string) :=
  match nodes with
  | [] => Return transformed_code
  | node :: nodes' =>
      bind (transform_class node) (fun transformed_class =>
        transform_classes nodes' (transformed_code ++ [class_code transformed_class]))
  end.

(** [javalang.parse.parse] *)
Variable javalang_parse : string -> outcome jnode.

Definition transform (java_code : string) : outcome string :=
  match javalang_parse java_code with
  | Raise JavaSyntaxError => Return java_code
  | Raise e => Raise e
  | Return tree =>
      bind (transform_classes (filter (fun n => is_class n = true) (preorder tree)) [])
        (fun transformed_code =>
           Return (Py.join (Py.LF +:+ Py.LF) transformed_code))
  end.

Definition get_skeleton_code_java (java_code : string) : outcome string :=
  transform java_code.
End transformer.

(** *** Reference definitions for the statements about the compressor *)

(** The members of a class body that get a stub line. *)
Definition has_stub (keep_constant : bool) (member : jnode) : bool :=
  match member with
  | MethodDeclaration _ _ => true
  | FieldDeclaration _ _ => keep_constant
  | _ => false
  end.

Definition is_method (member : jnode) : bool :=
  match member with
  | MethodDeclaration _ _ => true
  | _ => false
  end.

Definition is_field (member : jnode) : bool :=
  match member with
  | FieldDeclaration _ _ => true
  | _ => false
  end.

(** The stub line [line] is the one of the member [member]. *)
Definition stub_of (member : jnode) (line : string) : Prop :=
  match member with
  | MethodDeclaration name _ => line = "    " +:+ name +:+ "() { ... }"
  | FieldDeclaration _ (VariableDeclarator name _ :: _) =>
      line = "    " +:+ name +:+ " = ...;"
  | _ => False
  end.

(** What the parser guarantees of a member: a field declaration declares
    one variable at least. *)
Definition member_ok (member : jnode) : Prop :=
  match member with
  | FieldDeclaration _ declarators =>
      exists name children rest, declarators = VariableDeclarator name children :: rest
  | _ => True
  end.

(** A parser given by a finite table from texts to outcomes; a text that
    is not in the table has a syntax error. *)
Fixpoint table_parse (table : list (string * outcome jnode)) (text : string)
    : outcome jnode :=
  match table with
  | [] => Raise JavaSyntaxError
  | (t, r) :: table' => if decide (t = text) then r else table_parse table' text
  end.

(** A class with one static field and two methods. *)
Definition counter_text : string :=
  Py.join Py.LF
    ["public class Counter {";
     "    static int total = 0;";
     "    void add(int n) { total += n; }";
     "    int get() { return total; }";
     "}"].

Definition counter_class : jnode :=
  ClassDeclaration "Counter" []
    [FieldDeclaration [OtherNode []] [VariableDeclarator "total" [OtherNode []]];
     MethodDeclaration "add" [OtherNode []; OtherNode []];
     MethodDeclaration "get" [OtherNode []; OtherNode []]]
    [].

Definition counter_tree : jnode := OtherNode [counter_class].

(** A text with a character that is no Java token: the tokenizer of
    [javalang] raises [LexerError] on it. *)
Definition hash_text : string := "class A { int x = 1 # 2; }".

Definition demo_parse : string -> outcome jnode :=
  table_parse [(counter_text, Return counter_tree); (hash_text, Raise LexerError)].

End CompressJava.

(** ** [repair.py]: post-processing of a model response *)

Module Repair.

(** The functions that [repair.py] imports from
    [agentless.util.postprocess_data].  [None] stands for a raised
    exception. *)
Class PostprocessData := {
  extract_python_blocks : string -> list string;
  extract_java_blocks : string -> list string;
  split_edit_multifile_commands :
    list string -> bool -> option (list (string * list string));
  parse_diff_edit_commands :
    list string -> string -> list (Z * Z) -> option string;
  parse_edit_commands : list string -> string -> option string;
  fake_git_repo : string -> string -> string -> string -> option (string * string);
  check_syntax : string -> option bool;
  lint_code : string -> string -> string -> string -> option bool
}.

(** Modelled from the spec: [check_code_differ_by_just_empty_lines] of
    [agentless.util.postprocess_data], which is not among the sources.
    The two contents are compared after their blank lines are stripped;
    contents that are identical after stripping differ by blank lines
    only. *)
Definition remove_empty_lines (code : string) : list string :=
  filter (fun line => Py.is_blank line = false) (Py.splitlines code).

(** Modelled from the spec: the comparison itself, of the same missing
    module; [true] says the two contents differ by blank lines at most. *)
Definition check_code_differ_by_just_empty_lines (code prev_code : string) : bool :=
  bool_decide (remove_empty_lines code = remove_empty_lines prev_code).

(** A Python value as far as the code tells values apart: a string, or
    anything else. *)
Inductive pyval :=
| VStr (s : string)
| VOther.

(** [d[key]] on a dict held as its items in insertion order. *)
Fixpoint dict_get {V} (d : list (string * V)) (key : string) : option V :=
  match d with
  | [] => None
  | (k, v) :: d' => if decide (k = key) then Some v else dict_get d' key
  end.

Section repair.
Context `{PostprocessData}.
(** The builtin [eval] on the file key.  [None] is a raised exception of
    class [Exception], the ones that [except Exception] catches.  An exit
    or an interrupt raised while the key is evaluated ([SystemExit],
    [KeyboardInterrupt]) is no [Exception]: it is caught by no function
    of this module, and such keys are outside the model. *)
Variable py_eval : string -> option pyval.

(** The blocks of the response by language; with any other language
    [edit_multifile_commands] stays unbound and its first use raises. *)
Definition extract_blocks (language raw_output : string) : option (list string) :=
  if decide (language = "python") then Some (extract_python_blocks raw_output)
  else if decide (language = "java") then Some (extract_java_blocks raw_output)
  else None.

Definition _post_process_multifile_repair (raw_output : string)
    (file_contents : gmap string string)
    (file_loc_intervals : gmap string (list (Z * Z)))
    (language : string) (diff_format : bool) : pyval * string :=
  let edit_multifile_commands := extract_blocks language raw_output in
  let failed (edited_file : pyval) := (edited_file, "") in
  match edit_multifile_commands ≫= (fun c => split_edit_multifile_commands c diff_format) with
  | None => failed (VStr "")
  | Some file_to_commands =>
      (* Let's only edit the first file in the edit commands. *)
      match head (fst <$> file_to_commands) with
      | None => failed (VStr "")
      | Some edited_file_key =>
          match dict_get file_to_commands edited_file_key with
          | None => failed (VStr "")
          | Some edit_commands =>
              match py_eval edited_file_key with
              | None => failed (VStr "")
              | Some VOther => failed VOther
              | Some (VStr edited_file) =>
                  match file_contents !! edited_file with
                  | None => failed (VStr edited_file)
                  | Some content =>
                      let new_content :=
                        if diff_format then
                          file_loc_intervals !! edited_file ≫=
                            parse_diff_edit_commands edit_commands content
                        else parse_edit_commands edit_commands content in
                      match new_content with
                      | None => failed (VStr edited_file)
                      | Some new_content => (VStr edited_file, new_content)
                      end
                  end
              end
          end
      end
  end.

Definition no_newline_marker : string := "\ No newline at end of file" +:+ Py.LF.

(** The result is [(git_diffs, raw_git_diffs, content)]. *)
Definition post_process_raw_output (raw_output_text : string)
    (file_contents : gmap string string)
    (file_loc_intervals : gmap string (list (Z * Z)))
    (language : string) (diff_format : bool) : string * string * string :=
  let '(edited_file, new_content) :=
    _post_process_multifile_repair raw_output_text file_contents
      file_loc_intervals language diff_format in
  match edited_file with
  | VOther => ("", "", "")
  | VStr edited_file =>
      match file_contents !! edited_file with
      | None => ("", "", "")
      | Some content =>
          match fake_git_repo "playground" edited_file content new_content with
          | None => ("", "", content)
          | Some (git_diff, f_path) =>
              let raw_git_diffs :=
                "" +:+ Py.LF +:+ Py.replace no_newline_marker "" git_diff in
              match check_syntax new_content with
              | None => ("", raw_git_diffs, content)
              | Some syntax_success =>
                  match lint_code "playground" "test.py" new_content content with
                  | None => ("", raw_git_diffs, content)
                  | Some lint_success =>
                      let differ_by_empty_lines :=
                        check_code_differ_by_just_empty_lines new_content content in
                      if syntax_success && negb differ_by_empty_lines
                      then (raw_git_diffs, raw_git_diffs, content)
                      else ("", raw_git_diffs, content)
                  end
              end
          end
      end
  end.
End repair.

(** *** Reference definitions for the statements about [repair.py] *)

(** The functions of [P] with [split_edit_multifile_commands] replaced by
    one that returns the single file key [key] with the commands [cmds]. *)
Definition only_first (P : PostprocessData) (key : string) (cmds : list string)
    : PostprocessData := {|
  extract_python_blocks := @extract_python_blocks P;
  extract_java_blocks := @extract_java_blocks P;
  split_edit_multifile_commands := fun _ _ => Some [(key, cmds)];
  parse_diff_edit_commands := @parse_diff_edit_commands P;
  parse_edit_commands := @parse_edit_commands P;
  fake_git_repo := @fake_git_repo P;
  check_syntax := @check_syntax P;
  lint_code := @lint_code P
|}.

(** [eval] on a string literal in single quotes without quote or
    backslash inside; anything else is taken to raise. *)
Definition eval_literal (s : string) : option pyval :=
  match s with
  | String q rest =>
      if decide (q = "'"%char) then
        match Py.last_char rest with
        | Some q' =>
            let inner := substring 0 (String.length rest - 1) rest in
            if decide (q' = "'"%char /\ Py.count "'" inner = 0 /\ Py.count "\" inner = 0)
            then Some (VStr inner) else None
        | None => None
        end
      else None
  | EmptyString => None
  end.

(** An instance for the examples: the response names two files, every
    edit appends a line feed to the content, every check succeeds. *)
Definition demo : PostprocessData := {|
  extract_python_blocks := fun raw => [raw];
  extract_java_blocks := fun raw => [raw];
  split_edit_multifile_commands := fun _ _ =>
    Some [("'a.py'", ["edit 1"; "edit 2"]); ("'b.py'", ["edit 3"])];
  parse_diff_edit_commands := fun _ content _ => Some (content +:+ Py.LF);
  parse_edit_commands := fun _ content => Some (content +:+ Py.LF);
  fake_git_repo := fun _ f _ _ => Some ("+", f);
  check_syntax := fun _ => Some true;
  lint_code := fun _ _ _ _ => Some true
|}.

Definition demo_files : gmap string string :=
  {[ "a.py" := "x = 1" +:+ Py.LF; "b.py" := "y = 2" +:+ Py.LF ]}.

End Repair.

(** ** Reference definitions for further statements about the compressor *)

Module SkeletonRef.
Import CompressJava.

(** The class declarations of a tree, nested ones included, in the order
    [tree.filter] yields them. *)
Definition classes_of (tree : jnode) : list jnode :=
  filter (fun n => is_class n = true) (preorder tree).

(** Every member of the class is as the parser makes it. *)
Definition class_members_ok (n : jnode) : Prop :=
  match n with
  | ClassDeclaration _ _ body _ => Forall member_ok body
  | _ => True
  end.

(** [block] is the text emitted for the class [n]: its header, one stub
    line per member that has one, in order, and the closing brace. *)
Definition block_of (keep_constant : bool) (n : jnode) (block : string) : Prop :=
  match n with
  | ClassDeclaration name _ body _ =>
      exists stubs,
        Forall2 stub_of (filter (fun m => has_stub keep_constant m = true) body) stubs /\
        block = "class " +:+ name +:+ " {" +:+ Py.LF
                +:+ Py.join Py.LF ((fun line => "    " +:+ line) <$> stubs)
                +:+ Py.LF +:+ "}"
  | _ => False
  end.

(** An interface with one method and no class. *)
Definition interface_text : string :=
  Py.join Py.LF ["public interface Shape {"; "    double area();"; "}"].

Definition interface_tree : jnode :=
  OtherNode [OtherNode [MethodDeclaration "area" [OtherNode []]]].

(** A class with a nested class. *)
Definition nested_text : string :=
  Py.join Py.LF
    ["class Outer {"; "    int f() { return 1; }";
     "    static class Inner {"; "        int g() { return 2; }"; "    }"; "}"].

Definition nested_tree : jnode :=
  OtherNode
    [ClassDeclaration "Outer" []
       [MethodDeclaration "f" [OtherNode []];
        ClassDeclaration "Inner" [] [MethodDeclaration "g" [OtherNode []]] []]
       []].

Definition more_parse : string -> outcome jnode :=
  table_parse [(interface_text, Return interface_tree);
               (nested_text, Return nested_tree)].

End SkeletonRef.

(** ** Reference definitions for further statements about [parse_java_file] *)

Module JavaRef.
Import RepoStructure.

(** The regular expression [r] has no group numbered [n]. *)
Fixpoint no_group (n : nat) (r : Re.regex) : bool :=
  match r with
  | Re.Eps | Re.Lit _ | Re.Star _ | Re.Plus _ => true
  | Re.Seq a b | Re.Alt a b => no_group n a && no_group n b
  | Re.Opt a => no_group n a
  | Re.Group k a => negb (k =? n)%nat && no_group n a
  end.

(** Every match of [r] goes through a group numbered [n] that holds one
    character at least, and through no group [n] after it. *)
Fixpoint sets_group (n : nat) (r : Re.regex) : bool :=
  match r with
  | Re.Seq a b => sets_group n b || (sets_group n a && no_group n b)
  | Re.Group k (Re.Plus _) => (k =? n)%nat
  | _ => false
  end.

(** A line that opens a class, and a line that is entered as a method. *)
Definition is_class_line (line : string) : bool :=
  bool_decide (is_Some (Re.re_match class_pattern line)).

Definition is_method_line (line : string) : bool :=
  negb (is_class_line line)
  && bool_decide (is_Some (Re.re_match method_pattern line)).

(** The loop invariant for the class entries after [k] lines: they are
    named, each starts on the line after the end of the one before, every
    class line read so far starts one of them or the class being read,
    and the class being read starts on the line after the last entry. *)
Definition tiling_inv (lines : list string) (k : nat) (st : java_state) : Prop :=
  (forall i c1 c2, class_info st !! i = Some c1 -> class_info st !! S i = Some c2 ->
     jc_start_line c2 = jc_end_line c1 + 1) /\
  Forall (fun c => jc_name c <> "") (class_info st) /\
  (forall (j : nat) l, (j < k)%nat -> lines !! j = Some l -> is_class_line l = true ->
     (exists c, c ∈ class_info st /\ jc_start_line c = Z.of_nat j + 1) \/
     class_start_line st = Some (Z.of_nat j + 1)) /\
  (forall c, last (class_info st) = Some c ->
     class_start_line st = Some (jc_end_line c + 1)) /\
  (truthy (current_class st) = false ->
     class_info st = [] /\
     forall (j : nat) l, (j < k)%nat -> lines !! j = Some l -> is_class_line l = false).

(** What the loop guarantees of a method entry. *)
Definition method_ok (lines : list string) (m : java_method) : Prop :=
  exists l caps name,
    1 <= jm_start_line m /\
    lines !! Z.to_nat (jm_start_line m - 1) = Some l /\
    Re.re_match class_pattern l = None /\
    Re.re_match method_pattern l = Some caps /\
    Re.group 3 caps = Some name /\ name <> "" /\
    jm_name m = Some name /\
    jm_text m = [l].

(** The loop invariant for the method entries after [k] lines. *)
Definition methods_inv (lines : list string) (k : nat) (st : java_state) : Prop :=
  Forall (method_ok lines) (method_info st) /\
  Forall (fun m => jm_start_line m <= Z.of_nat k) (method_info st) /\
  (forall i m1 m2, method_info st !! i = Some m1 -> method_info st !! S i = Some m2 ->
     jm_start_line m1 < jm_start_line m2) /\
  (forall (j : nat) l, (j < k)%nat -> lines !! j = Some l -> is_method_line l = true ->
     exists m, m ∈ method_info st /\ jm_start_line m = Z.of_nat j + 1).

(** A file with a constructor, a method, a statement and a second class. *)
Definition shop_lines : list string :=
  ["public class Shop {";
   "    public Shop(int n) {";
   "        this.n = n;";
   "    }";
   "    int size() { return n; }";
   "}";
   "final class Empty {";
   "}"].

End JavaRef.

(** ** Reference definitions for further statements about [parse_python_file] *)

Module PyRef.
Import RepoStructure.

(** The class entry made from a node ([None]: not a class definition). *)
Definition class_entry (file_content : string) (node : ast) : option py_class :=
  match node with
  | ClassDef name lineno end_lineno _ body _ =>
      Some (PyClass name lineno end_lineno
              (Py.slice (Py.splitlines file_content) (lineno - 1) end_lineno)
              (class_methods_of file_content body))
  | _ => None
  end.

(** The name of a node that is a (synchronous) function definition. *)
Definition def_name (node : ast) : option string :=
  match node with
  | FunctionDef name _ _ _ _ _ => Some name
  | _ => None
  end.

(** The names of the functions directly in the body of a class. *)
Definition method_names_of (node : ast) : list string :=
  match node with
  | ClassDef _ _ _ _ body _ => omap def_name body
  | _ => []
  end.

(** The method names of all the classes among [nodes]. *)
Definition all_method_names (nodes : list ast) : list string :=
  nodes ≫= method_names_of.

(** The function entry made from a function definition whose name is not
    in [methods] ([None]: any other node). *)
Definition function_entry_unless (file_content : string) (methods : list string)
    (node : ast) : option py_function :=
  match node with
  | FunctionDef name lineno end_lineno _ _ _ =>
      if decide (name ∈ methods) then None
      else Some (function_entry file_content name lineno end_lineno)
  | _ => None
  end.

(** A module with a class in a function, a function in a function, an
    asynchronous function and a class with one method. *)
Definition nesting_text : string :=
  Py.join Py.LF
    ["def outer():";
     "    def inner():";
     "        pass";
     "    class Local:";
     "        def go(self):";
     "            pass";
     "async def fetch():";
     "    pass";
     "class Top:";
     "    def stop(self):";
     "        pass"].

Definition nesting_tree : ast :=
  Module
    [FunctionDef "outer" 1 6 [OtherNode []]
       [FunctionDef "inner" 2 3 [OtherNode []] [OtherNode []] [];
        ClassDef "Local" 4 6 []
          [FunctionDef "go" 5 6 [OtherNode []] [OtherNode []] []] []]
       [];
     AsyncFunctionDef "fetch" 7 8 [OtherNode []] [OtherNode []] [];
     ClassDef "Top" 9 11 []
       [FunctionDef "stop" 10 11 [OtherNode []] [OtherNode []] []] []].

Definition nesting_parse : string -> option ast :=
  table_parse [(nesting_text, nesting_tree)].

End PyRef.

(** ** [parse_global_var_for_java.py]: the visitor of static fields *)

Module GlobalVarVisitor.
Import CompressJava.

(** The syntax tree of [javalang], as far as the visitor inspects it: of a
    field declaration its modifiers, its position (the line, [None] when
    the node has no position), the child nodes before the declarators and
    the declarators. *)
Inductive jtree :=
| FieldDeclaration (modifiers : list string) (position : option Z)
    (pre declarators : list jtree)
| VariableDeclarator (name : string) (children : list jtree)
| OtherTree (children : list jtree).

(** The nodes in the order [tree.filter] meets them. *)
Fixpoint preorder (n : jtree) : list jtree :=
  let all := fix all (l : list jtree) : list jtree :=
    match l with
    | [] => []
    | c :: l' => preorder c ++ all l'
    end in
  n :: match n with
       | FieldDeclaration _ _ pre declarators => all pre ++ all declarators
       | VariableDeclarator _ children => all children
       | OtherTree children => all children
       end.

Definition is_field (n : jtree) : bool :=
  match n with
  | FieldDeclaration _ _ _ _ => true
  | _ => false
  end.

(** [any(modifier == 'static' for modifier in node.modifiers)] *)
Definition is_static (modifiers : list string) : bool :=
  bool_decide ("static" ∈ modifiers).

(** The body of [for d in node.declarators]: the name of the declarator,
    the line of the declaration, its end line, and the assignment to
    [self.global_assigns[var_name]]. *)
Definition visit_declarator (java_code : string) (position : option Z)
    (global_assigns : gmap string (Z * Z)) (d : jtree)
    : outcome (gmap string (Z * Z)) :=
  match d with
  | VariableDeclarator var_name _ =>
      match position with
      | None => Raise AttributeError
      | Some start_line =>
          match JavaGlobalVar.calculate_end_line java_code start_line with
          | None => Raise IndexError
          | Some end_line =>
              Return (<[var_name := (start_line, end_line)]> global_assigns)
          end
      end
  | _ => Raise AttributeError
  end.

Fixpoint visit_declarators (java_code : string) (position : option Z)
    (declarators : list jtree) (global_assigns : gmap string (Z * Z))
    : outcome (gmap string (Z * Z)) :=
  match declarators with
  | [] => Return global_assigns
  | d :: declarators' =>
      bind (visit_declarator java_code position global_assigns d)
        (visit_declarators java_code position declarators')
  end.

(** The body of [for path, node in tree.filter(FieldDeclaration)]. *)
Definition visit_field (java_code : string) (global_assigns : gmap string (Z * Z))
    (node : jtree) : outcome (gmap string (Z * Z)) :=
  match node with
  | FieldDeclaration modifiers position _ declarators =>
      if is_static modifiers
      then visit_declarators java_code position declarators global_assigns
      else Return global_assigns
  | _ => Return global_assigns
  end.

Fixpoint visit_fields (java_code : string) (nodes : list jtree)
    (global_assigns : gmap string (Z * Z)) : outcome (gmap string (Z * Z)) :=
  match nodes with
  | [] => Return global_assigns
  | node :: nodes' =>
      bind (visit_field java_code global_assigns node)
        (visit_fields java_code nodes')
  end.

Section visitor.
(** [javalang.parse.parse] *)
Variable javalang_parse : string -> outcome jtree.

(** [visit]: the new value of [self.global_assigns]. *)
Definition visit (global_assigns : gmap string (Z * Z)) (java_code : string)
    : outcome (gmap string (Z * Z)) :=
  match javalang_parse java_code with
  | Raise JavaSyntaxError => Return global_assigns
  | Raise e => Raise e
  | Return tree =>
      visit_fields java_code
        (filter (fun n => is_field n = true) (preorder tree)) global_assigns
  end.

Definition parse_global_var_from_java_code (file_content : string)
    : outcome (gmap string (Z * Z)) :=
  visit ∅ file_content.
End visitor.

(** *** Reference definitions *)

Definition declarator_name (d : jtree) : option string :=
  match d with
  | VariableDeclarator name _ => Some name
  | _ => None
  end.

(** The names that the static field declarations among [nodes] declare. *)
Definition static_names_of (node : jtree) : list string :=
  match node with
  | FieldDeclaration modifiers _ _ declarators =>
      if is_static modifiers then omap declarator_name declarators else []
  | _ => []
  end.

Definition static_names (nodes : list jtree) : list string :=
  nodes ≫= static_names_of.

(** What the parser guarantees of a static field declaration: it has a
    position, on line 1 or later, and its declarators are declarators. *)
Definition field_ok (node : jtree) : Prop :=
  match node with
  | FieldDeclaration modifiers position _ declarators =>
      is_static modifiers = true ->
      (exists line, position = Some line /\ 1 <= line) /\
      Forall (fun d => is_Some (declarator_name d)) declarators
  | _ => True
  end.

(** The entry [(s, e)] of [name] comes from a static field declaration
    among [nodes]. *)
Definition entry_from (java_code : string) (nodes : list jtree)
    (name : string) (s e : Z) : Prop :=
  exists modifiers pre declarators children,
    FieldDeclaration modifiers (Some s) pre declarators ∈ nodes /\
    is_static modifiers = true /\
    VariableDeclarator name children ∈ declarators /\
    JavaGlobalVar.calculate_end_line java_code s = Some e.

(** A class with a static field over two lines and an instance field. *)
Definition config_text : string :=
  Py.join Py.LF
    ["class Config {";
     "    static final int[] SIZES = make(1,";
     "        2);";
     "    int count = 0;";
     "}"].

Definition config_tree : jtree :=
  OtherTree
    [OtherTree
       [FieldDeclaration ["static"; "final"] (Some 2) [OtherTree []]
          [VariableDeclarator "SIZES" [OtherTree []]];
        FieldDeclaration [] (Some 4) [OtherTree []]
          [VariableDeclarator "count" [OtherTree []]]]].

Definition config_parse : string -> outcome jtree :=
  fun text => if decide (text = config_text) then Return config_tree
              else Raise JavaSyntaxError.

End GlobalVarVisitor.

(** ** [agentless/util/utils.py]: the problem statement from a build log *)

Module LogUtils.

(** The scan of [s.split('\n')]: [cur] is the text of the piece being
    read.  The result is never empty, and a text that ends in a line feed
    has the empty string as its last piece. *)
Fixpoint split_from (cur : string) (s : string) : list string :=
  match s with
  | EmptyString => [cur]
  | String c rest =>
      if Py.is_lf c then cur :: split_from "" rest
      else split_from (cur +:+ String c EmptyString) rest
  end.

(** [s.split('\n')] *)
Definition split_lines (s : string) : list string := split_from "" s.

(** [c.lower()] on code points below 256: the letters A to Z and the
    capital letters of Latin-1 (192 to 222 but the multiplication sign)
    move up by 32. *)
Definition lower_char (c : ascii) : ascii :=
  let n := Py.ord c in
  if ((65 <=? n) && (n <=? 90))%N
     || ((192 <=? n) && (n <=? 222) && negb (n =? 215))%N
  then ascii_of_N (n + 32) else c.

(** [s.lower()] *)
Fixpoint lower (s : string) : string :=
  match s with
  | EmptyString => EmptyString
  | String c rest => String (lower_char c) (lower rest)
  end.

(** [needle in s] *)
Fixpoint contains (needle s : string) : bool :=
  match s with
  | EmptyString => bool_decide (needle = "")
  | String _ rest => Py.startswith needle s || contains needle rest
  end.

(** The test of [get_errors_from_logs] on a line. *)
Definition is_error_line (line : string) : bool :=
  Py.startswith "[ERROR]" line || Py.startswith "E" line.

(** The test of [get_errors_from_logs_python] on a line. *)
Definition mentions_error (line : string) : bool :=
  contains "error" (lower line).

(** The loop of both functions: [errors] and [count] after the lines. *)
Definition collect (test : string -> bool) (lines : list string) : string * Z :=
  foldl (fun (acc : string * Z) line =>
           if test line then (acc.1 +:+ line +:+ Py.LF, acc.2 + 1) else acc)
    ("", 0) lines.

Definition get_errors_from_logs (log_txt : string) : string :=
  (collect is_error_line (split_lines log_txt)).1.

Definition get_errors_from_logs_python (log_txt : string) : string :=
  (collect mentions_error (split_lines log_txt)).1.

(** The first operand of the test of [get_exception_informations]. *)
Definition mentions_exception (line : string) : bool :=
  contains "exception" (lower line) || contains "error" (lower line).

(** A tab followed by [at], the start of a frame of a Java stack trace. *)
Definition frame_prefix : string := String "009" "at".

(** [trace]: the lines of [exception_trace_list], a line feed after each. *)
Definition trace_of (exception_trace_list : list string) : string :=
  foldl (fun trace line => trace +:+ line +:+ Py.LF) "" exception_trace_list.

(** The loop of [get_exception_informations] at index [i], where [rest]
    is [lines[i:]]: so [lines[i + 1]] is the second element of [rest] (an
    [IndexError], here [None], when there is none) and [lines[i: i + 8]]
    is its first eight elements.  [lines[i + 1]] is read only when the
    first operand of the test is true. *)
Fixpoint exception_loop (rest : list string) (exception_traces : list string)
    : option (list string) :=
  match rest with
  | [] => Some exception_traces
  | line :: rest' =>
      if mentions_exception line then
        match rest' with
        | [] => None
        | next :: _ =>
            if Py.startswith frame_prefix next && negb (Py.startswith frame_prefix line)
            then exception_loop rest' (exception_traces ++ [trace_of (take 8 rest)])
            else exception_loop rest' exception_traces
        end
      else exception_loop rest' exception_traces
  end.

Definition get_exception_informations (log_txt : string) : option (list string) :=
  exception_loop (split_lines log_txt) [].

(** *** Reference definitions *)

(** The lines, a line feed after each. *)
Fixpoint unlines (lines : list string) : string :=
  match lines with
  | [] => ""
  | line :: rest => line +:+ Py.LF +:+ unlines rest
  end.

(** The text has no line feed. *)
Fixpoint no_lf (s : string) : bool :=
  match s with
  | EmptyString => true
  | String c rest => negb (Py.is_lf c) && no_lf rest
  end.

(** A Maven log with an error and a stack trace, and its last line cut. *)
Definition maven_log : string :=
  Py.join Py.LF
    ["[INFO] Running tests";
     "[ERROR] Tests run: 3, Failures: 1";
     "java.lang.IllegalStateException: closed";
     frame_prefix +:+ " org.example.Pool.take(Pool.java:41)";
     "[INFO] BUILD FAILURE";
     ""].

Definition cut_log : string :=
  Py.join Py.LF ["[INFO] Running tests"; "[ERROR] Failed to execute goal"].

End LogUtils.

(** ** [repair.py]: the context of the files to repair *)

Module TopnContext.

Section construct.
(** The locations of a file as the caller gives them, the repository
    structure and the intervals of a file: the code passes them on
    without looking inside. *)
Variables Locs Structure Intervals : Type.

(** [transfer_arb_locs_to_locs] and [line_wrap_content] of
    [agentless.util.preprocess_data]; [None] stands for a raised
    exception.  Of [line_locs] only the length is used. *)
Variable transfer_arb_locs_to_locs :
  Locs -> Structure -> string -> string -> Z -> bool -> bool -> string ->
  option (list Z * Intervals).
Variable line_wrap_content :
  string -> Intervals -> bool -> bool -> bool -> option string.

(** The body of [for pred_file, locs in file_to_locs.items()], on the
    pair [(topn_content, file_loc_intervals)].  [None] is an exception:
    the [KeyError] of [file_contents[pred_file]] or one of a helper. *)
Definition context_step (file_contents : gmap string string)
    (language : string) (structure : Structure) (context_window : Z)
    (loc_interval fine_grain_loc_only add_space sticky_scroll no_line_number : bool)
    (acc : string * gmap string Intervals) (item : string * Locs)
    : option (string * gmap string Intervals) :=
  let '(pred_file, locs) := item in
  content ← file_contents !! pred_file;
  '(line_locs, context_intervals) ←
    transfer_arb_locs_to_locs locs structure pred_file language context_window
      loc_interval fine_grain_loc_only
      (match file_contents !! pred_file with Some c => c | None => "" end);
  if decide (0 < Py.len line_locs) then
    (* Note that if no location is predicted, we exclude this file. *)
    file_loc_content ←
      line_wrap_content content context_intervals add_space no_line_number
        sticky_scroll;
    Some (acc.1 +:+ "### " +:+ pred_file +:+ Py.LF +:+ file_loc_content
            +:+ Py.LF +:+ Py.LF +:+ Py.LF,
          <[pred_file := context_intervals]> acc.2)
  else Some acc.

Fixpoint context_loop (file_contents : gmap string string)
    (language : string) (structure : Structure) (context_window : Z)
    (loc_interval fine_grain_loc_only add_space sticky_scroll no_line_number : bool)
    (items : list (string * Locs)) (acc : string * gmap string Intervals)
    : option (string * gmap string Intervals) :=
  match items with
  | [] => Some acc
  | item :: items' =>
      acc' ← context_step file_contents language structure context_window
               loc_interval fine_grain_loc_only add_space sticky_scroll
               no_line_number acc item;
      context_loop file_contents language structure context_window
        loc_interval fine_grain_loc_only add_space sticky_scroll no_line_number
        items' acc'
  end.

(** [file_to_locs] is the dict as its items in insertion order;
    [pred_files] is not used by the function. *)
Definition construct_topn_file_context (file_to_locs : list (string * Locs))
    (pred_files : list string) (file_contents : gmap string string)
    (language : string) (structure : Structure) (context_window : Z)
    (loc_interval fine_grain_loc_only add_space sticky_scroll no_line_number : bool)
    : option (string * gmap string Intervals) :=
  context_loop file_contents language structure context_window
    loc_interval fine_grain_loc_only add_space sticky_scroll no_line_number
    file_to_locs ("", ∅).

(** The file [pred_file] with the locations [locs] has a predicted line. *)
Definition has_lines (file_contents : gmap string string)
    (language : string) (structure : Structure) (context_window : Z)
    (loc_interval fine_grain_loc_only : bool) (pred_file : string) (locs : Locs)
    : Prop :=
  exists content line_locs context_intervals,
    file_contents !! pred_file = Some content /\
    transfer_arb_locs_to_locs locs structure pred_file language context_window
      loc_interval fine_grain_loc_only content = Some (line_locs, context_intervals) /\
    line_locs <> [].
End construct.

(** Helpers for the examples: the locations of a file are line numbers,
    its intervals pairs of lines, and a file is shown as its content. *)
Definition demo_transfer (locs : list Z) (structure : unit) (pred_file language : string)
    (context_window : Z) (loc_interval fine_grain_loc_only : bool) (file_content : string)
    : option (list Z * list (Z * Z)) :=
  Some (locs, (fun n => (n - context_window, n + context_window)) <$> locs).

Definition demo_wrap (content : string) (intervals : list (Z * Z))
    (add_space no_line_number sticky_scroll : bool) : option string :=
  Some content.

End TopnContext.

(** ** [get_repo_structure.py]: the name of a BugSwarm artifact *)

Module ArtifactName.

(** The character class of ASCII letters and digits, underscore and hyphen. *)
Definition name_char (c : ascii) : bool :=
  let n := Py.ord c in
  ((48 <=? n) && (n <=? 57))%N || ((65 <=? n) && (n <=? 90))%N
  || ((97 <=? n) && (n <=? 122))%N || (n =? 95)%N || (n =? 45)%N.

(** [\d] on code points below 256: the digits 0 to 9. *)
Definition digit (c : ascii) : bool :=
  let n := Py.ord c in ((48 <=? n) && (n <=? 57))%N.

(** The source's [pattern], anchored at the start only: one or more name
    characters, a hyphen, and one or more digits (group 1). *)
Definition pattern : Re.regex :=
  Re.Seqs [Re.Plus name_char; Re.Lit "-"; Re.Group 1 (Re.Plus digit)].

Definition is_bugswarm_artifact_name (bugswarm_image : string) : bool :=
  match Re.re_match pattern bugswarm_image with
  | Some _ => true
  | None => false
  end.

(** Every character of the text is in the class. *)
Fixpoint all_in (p : ascii -> bool) (s : string) : bool :=
  match s with
  | EmptyString => true
  | String c rest => p c && all_in p rest
  end.

End ArtifactName.

(** ** Reference definitions for the lines of a class block *)

Module SkeletonLines.
Import CompressJava LogUtils.

(** The name on the stub line of a member: the name of a method, the
    name of the first variable of a field declaration. *)
Definition stub_name (member : jnode) : option string :=
  match member with
  | MethodDeclaration name _ => Some name
  | FieldDeclaration _ (VariableDeclarator name _ :: _) => Some name
  | _ => None
  end.

(** The name of the class and the names on the stub lines of its members
    are identifiers: there is no line feed in them. *)
Definition one_line_names (name : string) (body : list jnode) : Prop :=
  no_lf name = true /\
  Forall (fun member => forall n, stub_name member = Some n -> no_lf n = true) body.

(** The fields of a class body: the variables that its field
    declarations declare, [int a, b;] declaring two. *)
Definition declared_fields (body : list jnode) : list jnode :=
  body ≫= (fun member =>
    match member with
    | FieldDeclaration _ declarators => declarators
    | _ => []
    end).

(** The lines of a class block between the header and the closing brace:
    the stub lines behind the indent of the block, or one empty line when
    there is no stub. *)
Definition block_lines (stubs : list string) : list string :=
  match stubs with
  | [] => [""]
  | _ :: _ => (fun line => "    " +:+ line) <$> stubs
  end.

(** The members of [counter_class]. *)
Definition counter_body : list jnode :=
  [FieldDeclaration [OtherNode []] [VariableDeclarator "total" [OtherNode []]];
   MethodDeclaration "add" [OtherNode []; OtherNode []];
   MethodDeclaration "get" [OtherNode []; OtherNode []]].

(** A class whose one field declaration declares two fields. *)
Definition pair_text : string :=
  Py.join Py.LF ["class Pair {"; "    int a, b;"; "}"].

Definition pair_body : list jnode :=
  [FieldDeclaration [OtherNode []] [VariableDeclarator "a" []; VariableDeclarator "b" []]].

Definition pair_class : jnode := ClassDeclaration "Pair" [] pair_body [].

Definition pair_tree : jnode := OtherNode [pair_class].

Definition pair_parse : string -> outcome jnode :=
  table_parse [(pair_text, Return pair_tree)].

End SkeletonLines.

(** * Properties *)

(** ** The primitives on concrete inputs *)

Section sanity.
Import RepoStructure.

Example splitlines_keeps_inner_blank_lines :
  Py.splitlines ("a" +:+ Py.LF +:+ Py.LF +:+ "b" +:+ Py.LF) = ["a"; ""; "b"].
Proof. reflexivity. Qed.

Example splitlines_crlf_is_one_break :
  Py.splitlines ("a" +:+ String "013" Py.LF +:+ "b") = ["a"; "b"].
Proof. reflexivity. Qed.

Example splitlines_empty : Py.splitlines "" = [].
Proof. reflexivity. Qed.

Example slice_clamps : Py.slice [1; 2; 3; 4; 5] 3 10 = [4; 5].
Proof. reflexivity. Qed.

Example index_negative : Py.index ["a"; "b"; "c"] (-1) = Some "c".
Proof. reflexivity. Qed.

Example index_out_of_range : Py.index ["a"; "b"; "c"] 3 = None.
Proof. reflexivity. Qed.

Example replace_all_occurrences : Py.replace "ab" "X" "cababa" = "cXXa".
Proof. reflexivity. Qed.

Example class_pattern_matches :
  Re.re_match class_pattern "public final class Foo<T> {"
    = Some [(3%nat, "Foo"); (2%nat, "final"); (1%nat, "public")].
Proof. reflexivity. Qed.

Example class_pattern_rejects_interface :
  Re.re_match class_pattern "public interface Foo {" = None.
Proof. reflexivity. Qed.

Example method_pattern_matches :
  Re.re_match method_pattern "    void bar();"
    = Some [(4%nat, ""); (3%nat, "bar"); (2%nat, "void ")].
Proof. reflexivity. Qed.

Example method_pattern_rejects_call_on_object :
  Re.re_match method_pattern "        foo.print();" = None.
Proof. reflexivity. Qed.

Example walk_is_breadth_first :
  walk shadow_tree
    = [shadow_tree;
       ClassDef "Job" 1 3 [] [FunctionDef "run" 2 3 [OtherNode []] [OtherNode []] []] [];
       FunctionDef "run" 5 6 [OtherNode []] [OtherNode []] [];
       FunctionDef "run" 2 3 [OtherNode []] [OtherNode []] [];
       OtherNode []; OtherNode []; OtherNode []; OtherNode []].
Proof. reflexivity. Qed.

Example calculate_end_line_one_line :
  JavaGlobalVar.calculate_end_line "static int x = f(1);" 1 = Some 1.
Proof. reflexivity. Qed.

Example calculate_end_line_without_semicolon :
  JavaGlobalVar.calculate_end_line ("int f(" +:+ Py.LF +:+ "  int a) {") 1 = Some 1.
Proof. reflexivity. Qed.

End sanity.

(** ** The end-line scan of [calculate_end_line] *)

Section end_line_scan.
Import JavaGlobalVar.

Lemma total_upto c lines a0 i : total c lines a0 i = upto c lines a0 (S i).
Proof. reflexivity. Qed.

Lemma foldr_add_app (l1 l2 : list Z) :
  foldr Z.add 0 (l1 ++ l2) = foldr Z.add 0 l1 + foldr Z.add 0 l2.
Proof. induction l1 as [|x l1 IH]; simpl; [done | rewrite IH; lia]. Qed.

Lemma upto_S c lines a0 a line :
  (a0 <= a)%nat -> lines !! a = Some line ->
  upto c lines a0 (S a) = upto c lines a0 a + Py.count c line.
Proof.
  intros Hle Hl. unfold upto.
  replace (S a - a0)%nat with (S (a - a0)) by lia.
  rewrite (take_S_r _ _ line).
  - rewrite fmap_app, foldr_add_app. simpl. lia.
  - rewrite lookup_drop. replace (a0 + (a - a0))%nat with a by lia. done.
Qed.

Lemma upto_refl c lines a0 : upto c lines a0 a0 = 0.
Proof. unfold upto. rewrite Nat.sub_diag. by rewrite take_0. Qed.

Lemma index_nat (lines : list string) (a : nat) :
  Py.index lines (Z.of_nat a) = lines !! a.
Proof.
  unfold Py.index. rewrite decide_True by lia. by rewrite Nat2Z.id.
Qed.

Lemma count_empty c : Py.count c "" = 0.
Proof. reflexivity. Qed.

Lemma last_char_nonempty s : s ≠ "" -> is_Some (Py.last_char s).
Proof.
  induction s as [|c s IH]; [done|]. intros _. simpl.
  destruct s as [|d s]; [by eexists|]. apply IH. done.
Qed.

(** The loop over the indices [a .. a + n - 1], started with the counts of
    the lines [a0 .. a - 1]: it returns the number of the first line at
    which the stopping condition holds, or [end_line] if there is none. *)
Lemma scan_spec (lines : list string) (a0 : nat) (end_line : Z) :
  forall (n a : nat) (o c : Z),
    (a0 <= a)%nat -> (a + n <= length lines)%nat ->
    o = upto "(" lines a0 a -> c = upto ")" lines a0 a ->
    (exists i : nat, (a <= i < a + n)%nat /\ stops_at lines a0 i = true /\
        (forall j : nat, (a <= j < i)%nat -> stops_at lines a0 j = false) /\
        scan lines (seqZ (Z.of_nat a) (Z.of_nat n)) o c end_line
          = Some (Z.of_nat i + 1)) \/
    ((forall j : nat, (a <= j < a + n)%nat -> stops_at lines a0 j = false) /\
        scan lines (seqZ (Z.of_nat a) (Z.of_nat n)) o c end_line = Some end_line).
Proof.
  induction n as [|n IH]; intros a o c Ha Hn Ho Hc.
  { right. split; [intros j Hj; lia | done]. }
  rewrite seqZ_cons by lia.
  replace (Z.succ (Z.of_nat a)) with (Z.of_nat (S a)) by lia.
  replace (Z.pred (Z.of_nat (S n))) with (Z.of_nat n) by lia.
  simpl scan. rewrite index_nat.
  destruct (lookup_lt_is_Some_2 lines a) as [line Hline]; [lia|].
  rewrite Hline.
  assert (Hnext : forall o' c',
    o' = o + Py.count "(" line -> c' = c + Py.count ")" line ->
    stops_at lines a0 a = false ->
    (exists i : nat, (a <= i < a + S n)%nat /\ stops_at lines a0 i = true /\
        (forall j : nat, (a <= j < i)%nat -> stops_at lines a0 j = false) /\
        scan lines (seqZ (Z.of_nat (S a)) (Z.of_nat n)) o' c' end_line
          = Some (Z.of_nat i + 1)) \/
    ((forall j : nat, (a <= j < a + S n)%nat -> stops_at lines a0 j = false) /\
        scan lines (seqZ (Z.of_nat (S a)) (Z.of_nat n)) o' c' end_line
          = Some end_line)).
  { intros o' c' Ho' Hc' Hstop.
    destruct (IH (S a) o' c') as [(i & Hi & Hs & Hb & Hr) | [Hb Hr]];
      [lia | lia | | | |].
    - subst. by rewrite (upto_S _ _ _ _ line).
    - subst. by rewrite (upto_S _ _ _ _ line).
    - left. exists i. split; [lia|]. split; [done|]. split; [|done].
      intros j Hj. destruct (decide (j = a)) as [->|]; [done|]. apply Hb. lia.
    - right. split; [|done].
      intros j Hj. destruct (decide (j = a)) as [->|]; [done|]. apply Hb. lia. }
  assert (Htot : forall ch, total ch lines a0 a = upto ch lines a0 a + Py.count ch line).
  { intros ch. rewrite total_upto. by apply upto_S. }
  destruct (decide (line = "")) as [->|Hne].
  { apply Hnext; [rewrite count_empty; lia | rewrite count_empty; lia |].
    unfold stops_at. rewrite Hline. done. }
  destruct (decide (o + Py.count "(" line = c + Py.count ")" line)) as [Heq|Hneq].
  - destruct (last_char_nonempty line Hne) as [ch Hch]. rewrite Hch.
    destruct (decide (ch = ";"%char)) as [->|Hsemi].
    + left. exists a. split; [lia|]. split; [|split; [intros j Hj; lia | done]].
      unfold stops_at. rewrite Hline, !Htot, <- Ho, <- Hc, Hch.
      rewrite !bool_decide_eq_true_2; done.
    + apply Hnext; [done | done |].
      unfold stops_at. rewrite Hline, Hch.
      rewrite (bool_decide_eq_false_2 (Some ch = Some ";"%char)) by congruence.
      by rewrite andb_false_r.
  - apply Hnext; [done | done |].
    unfold stops_at. rewrite Hline, !Htot, <- Ho, <- Hc.
    rewrite (bool_decide_eq_false_2 (_ = _)) by done.
    by rewrite andb_false_r.
Qed.

End end_line_scan.

Section end_line_claims.
Import JavaGlobalVar.

Lemma stops_at_beyond (lines : list string) (a0 j : nat) :
  (length lines <= j)%nat -> stops_at lines a0 j = false.
Proof.
  intros Hj. unfold stops_at. by rewrite lookup_ge_None_2.
Qed.

(** The scan from line [start_line >= 1], in terms of the lines of the text. *)
Lemma calculate_end_line_cases (codes : string) (start_line : Z) :
  1 <= start_line ->
  let lines := Py.splitlines codes in
  let a0 := Z.to_nat (start_line - 1) in
  (exists i : nat, (a0 <= i < length lines)%nat /\ stops_at lines a0 i = true /\
      (forall j : nat, (a0 <= j < i)%nat -> stops_at lines a0 j = false) /\
      calculate_end_line codes start_line = Some (Z.of_nat i + 1)) \/
  ((forall j : nat, (a0 <= j)%nat -> stops_at lines a0 j = false) /\
      calculate_end_line codes start_line = Some start_line).
Proof.
  intros Hs lines a0. unfold calculate_end_line. fold lines. unfold Py.range, Py.len.
  destruct (decide (a0 <= length lines)%nat) as [Hin|Hout].
  - replace (start_line - 1) with (Z.of_nat a0) by lia.
    replace (Z.of_nat (length lines) - Z.of_nat a0)
      with (Z.of_nat (length lines - a0)) by lia.
    destruct (scan_spec lines a0 start_line (length lines - a0) a0 0 0)
      as [(i & Hi & Hst & Hb & Hr) | [Hb Hr]];
      [lia | lia | by rewrite upto_refl | by rewrite upto_refl | |].
    + left. exists i. repeat split; try done; lia.
    + right. split; [|done]. intros j Hj.
      destruct (decide (j < length lines)%nat); [apply Hb; lia|].
      apply stops_at_beyond. lia.
  - right. split.
    + intros j Hj. apply stops_at_beyond. lia.
    + rewrite seqZ_nil by lia. done.
Qed.

(** C5 (as amended): for every text and every start line [start_line >= 1],
    [calculate_end_line] scans the lines from [start_line] on, adding up
    the occurrences of "(" and of ")" line by line, and returns the number
    of the first line that is not empty, at which the two accumulated
    counts are equal and whose last character is ";"; when no line from
    [start_line] on is such a line it returns [start_line]. *)
Theorem calculate_end_line_first_stop (codes : string) (start_line : Z) :
  1 <= start_line ->
  (exists i : nat,
      (Z.to_nat (start_line - 1) <= i < length (Py.splitlines codes))%nat /\
      stops_at (Py.splitlines codes) (Z.to_nat (start_line - 1)) i = true /\
      (forall j : nat, (Z.to_nat (start_line - 1) <= j < i)%nat ->
         stops_at (Py.splitlines codes) (Z.to_nat (start_line - 1)) j = false) /\
      calculate_end_line codes start_line = Some (Z.of_nat i + 1)) \/
  ((forall j : nat, (Z.to_nat (start_line - 1) <= j)%nat ->
      stops_at (Py.splitlines codes) (Z.to_nat (start_line - 1)) j = false) /\
   calculate_end_line codes start_line = Some start_line).
Proof. intros Hs. exact (calculate_end_line_cases codes start_line Hs). Qed.

Lemma calculate_end_line_first_stop_witness :
  1 <= 1 /\
  ((exists i : nat,
      (Z.to_nat (1 - 1) <= i < length (Py.splitlines two_line_field))%nat /\
      stops_at (Py.splitlines two_line_field) (Z.to_nat (1 - 1)) i = true /\
      (forall j : nat, (Z.to_nat (1 - 1) <= j < i)%nat ->
         stops_at (Py.splitlines two_line_field) (Z.to_nat (1 - 1)) j = false) /\
      calculate_end_line two_line_field 1 = Some (Z.of_nat i + 1)) \/
  ((forall j : nat, (Z.to_nat (1 - 1) <= j)%nat ->
      stops_at (Py.splitlines two_line_field) (Z.to_nat (1 - 1)) j = false) /\
   calculate_end_line two_line_field 1 = Some 1)).
Proof.
  split; [lia|]. apply (calculate_end_line_first_stop two_line_field 1). lia.
Defined.

(** C5 (counterexample): on [two_line_field] the accumulated counts are
    already equal at line 1, so the scan as the claim words it ends at
    line 1, but [calculate_end_line] goes on to line 2, the first line
    that also ends in ";". *)
Lemma calculate_end_line_not_first_balanced :
  first_balanced_line two_line_field 1 = Some 1 /\
  calculate_end_line two_line_field 1 = Some 2.
Proof. split; reflexivity. Qed.

(** C10: for every text and every [start_line] between 1 and the number
    of lines, [calculate_end_line] returns (it raises nothing) an end line
    between [start_line] and the number of lines; it is [start_line] when
    no line satisfies the stopping condition. *)
Theorem calculate_end_line_in_range (codes : string) (start_line : Z) :
  1 <= start_line <= Py.len (Py.splitlines codes) ->
  exists end_line : Z,
    calculate_end_line codes start_line = Some end_line /\
    start_line <= end_line <= Py.len (Py.splitlines codes) /\
    ((forall j : nat, (Z.to_nat (start_line - 1) <= j)%nat ->
        stops_at (Py.splitlines codes) (Z.to_nat (start_line - 1)) j = false) ->
     end_line = start_line).
Proof.
  intros [Hlo Hhi]. unfold Py.len in *.
  destruct (calculate_end_line_cases codes start_line Hlo)
    as [(i & Hi & Hst & Hb & Hr) | [Hb Hr]].
  - exists (Z.of_nat i + 1). split; [done|]. split; [lia|].
    intros Hnone. rewrite Hnone in Hst by lia. done.
  - exists start_line. split; [done|]. split; [lia | done].
Qed.

Lemma calculate_end_line_in_range_witness :
  exists end_line : Z,
    calculate_end_line two_line_field 2 = Some end_line /\
    2 <= end_line <= Py.len (Py.splitlines two_line_field) /\
    ((forall j : nat, (Z.to_nat (2 - 1) <= j)%nat ->
        stops_at (Py.splitlines two_line_field) (Z.to_nat (2 - 1)) j = false) ->
     end_line = 2).
Proof.
  apply (calculate_end_line_in_range two_line_field 2). vm_compute. split; discriminate.
Defined.

End end_line_claims.

(** ** The class entries of [parse_java_file] *)

Section java_classes.
Import RepoStructure.

Lemma truthy_Some (c : option string) :
  truthy c = true -> exists name, c = Some name.
Proof. destruct c; [by eexists | done]. Qed.

Lemma java_step_inv (lines : list string) (k : nat) (line : string) (st : java_state) :
  lines !! k = Some line -> java_inv lines k st ->
  exists st', java_step lines (Z.of_nat k + 1) line st = Some st' /\
    java_inv lines (S k) st'.
Proof.
  intros Hline [Hcls Hcur]. unfold java_step.
  assert (Hk : (k < length lines)%nat) by (by eapply lookup_lt_Some).
  destruct (Re.re_match class_pattern line) as [m|] eqn:Hm.
  - destruct (truthy (current_class st)) eqn:Ht.
    + destruct (truthy_Some _ Ht) as [name Hname].
      destruct (Hcur name Hname) as (s & l & m' & Hs & Hrange & Hl & Hm' & Hg & Hno).
      rewrite Hs, Hname. simpl. eexists. split; [done|]. split; simpl.
      * apply Forall_app. split; [done|]. apply Forall_singleton.
        unfold class_ok, Py.len. simpl.
        replace (Z.of_nat k + 1 - 1) with (Z.of_nat k) by lia.
        split; [lia|]. split; [lia|]. split; [by exists l, m'|].
        split; [done|]. split; [|done].
        right. exists line, m. by rewrite Nat2Z.id.
      * intros name' Hname'. exists (Z.of_nat k + 1), line, m.
        split; [done|]. split; [lia|].
        replace (Z.to_nat (Z.of_nat k + 1 - 1)) with k by lia.
        split; [done|]. split; [done|]. split; [done|]. intros j l' Hj. lia.
    + simpl. eexists. split; [done|]. split; simpl; [done|].
      intros name' Hname'. exists (Z.of_nat k + 1), line, m.
      split; [done|]. split; [lia|].
      replace (Z.to_nat (Z.of_nat k + 1 - 1)) with k by lia.
      split; [done|]. split; [done|]. split; [done|]. intros j l' Hj. lia.
  - assert (Hcur' : forall name, current_class st = Some name ->
      exists s l m, class_start_line st = Some s /\ 1 <= s <= Z.of_nat (S k) /\
        lines !! Z.to_nat (s - 1) = Some l /\
        Re.re_match class_pattern l = Some m /\ Re.group 3 m = Some name /\
        (forall (j : nat) l', s <= Z.of_nat j < Z.of_nat (S k) ->
           lines !! j = Some l' -> Re.re_match class_pattern l' = None)).
    { intros name Hname.
      destruct (Hcur name Hname) as (s & l & m' & Hs & Hrange & Hl & Hm' & Hg & Hno).
      exists s, l, m'. split; [done|]. split; [lia|]. split; [done|].
      split; [done|]. split; [done|]. intros j l' Hj Hl'.
      destruct (decide (j = k)) as [->|Hjk].
      - rewrite Hline in Hl'. by injection Hl' as <-.
      - eapply Hno; [|done]. lia. }
    destruct (Re.re_match method_pattern line) as [mm|];
      (eexists; split; [done|]; split; simpl; done).
Qed.

Lemma java_loop_inv (lines : list string) :
  forall (todo done : list string) (st : java_state),
    lines = done ++ todo -> java_inv lines (length done) st ->
    exists st', java_loop lines todo (Py.len done + 1) st = Some st' /\
      java_inv lines (length lines) st'.
Proof.
  induction todo as [|line todo IH]; intros done st Hlines Hinv.
  { exists st. split; [done|]. rewrite app_nil_r in Hlines. by subst done. }
  simpl. unfold Py.len.
  destruct (java_step_inv lines (length done) line st) as (st1 & Hst1 & Hinv1);
    [rewrite Hlines; by apply list_lookup_middle | done |].
  rewrite Hst1. simpl.
  destruct (IH (done ++ [line]) st1) as (st' & Hst' & Hinv').
  - by rewrite <- app_assoc.
  - rewrite length_app. simpl. by rewrite Nat.add_1_r.
  - exists st'. split; [|done]. rewrite <- Hst'. f_equal.
    unfold Py.len. rewrite length_app. simpl. lia.
Qed.

Lemma slice_from_slice {A} (l : list A) (a : Z) :
  0 <= a -> Py.slice_from l a = Py.slice l a (Py.len l).
Proof.
  intros Ha. unfold Py.slice_from, Py.slice, Py.clamp, Py.len.
  rewrite !decide_False by lia.
  rewrite Z.min_id. symmetry. apply take_ge. rewrite length_drop. lia.
Qed.

(** What [parse_java_file] returns on the lines [lines]. *)
Lemma parse_java_lines_ok (lines : list string) :
  exists st,
    java_loop lines lines 1 (JavaState [] [] None None) = Some st /\
    java_inv lines (length lines) st.
Proof.
  destruct (java_loop_inv lines lines [] (JavaState [] [] None None))
    as (st & Hst & Hinv); [done | | by exists st].
  split; simpl; [by apply Forall_nil | done].
Qed.

Lemma parse_java_file_classes_ok readlines file_path file_content :
  exists classes methods lines,
    parse_java_file readlines file_path file_content = Some (classes, methods, lines) /\
    Forall (class_ok lines) classes.
Proof.
  unfold parse_java_file.
  set (content := match file_content with
                  | NoContent => readlines file_path
                  | ContentList l => Some l
                  | ContentStr s => Some (Py.splitlines s)
                  end).
  destruct content as [lines|]; [|by exists [], [], []; split; [|apply Forall_nil]].
  destruct (parse_java_lines_ok lines) as (st & Hst & [Hcls Hcur]).
  rewrite Hst. simpl.
  destruct (truthy (current_class st)) eqn:Ht.
  - destruct (truthy_Some _ Ht) as [name Hname].
    destruct (Hcur name Hname) as (s & l & m & Hs & Hrange & Hl & Hm & Hg & Hno).
    rewrite Hs, Hname. simpl. eexists _, _, _. split; [done|].
    apply Forall_app. split; [done|]. apply Forall_singleton.
    unfold class_ok. simpl. unfold Py.len in *.
    split; [lia|]. split; [lia|]. split; [by exists l, m|].
    split; [done|]. split; [by left|]. apply slice_from_slice. lia.
  - eexists _, _, _. split; [done|]. done.
Qed.

End java_classes.

(** ** The traversal of [ast.walk] *)

Section walk.
Import RepoStructure.

Lemma size_children (node : ast) : size node = S (sizes (iter_child_nodes node)).
Proof.
  assert (Hs : forall l,
    (fix sizes (l : list ast) : nat :=
       match l with
       | [] => O
       | n :: l' => (size n + sizes l')%nat
       end) l = sizes l).
  { induction l as [|n l IH]; simpl; [done | by rewrite IH]. }
  assert (Happ : forall l1 l2, sizes (l1 ++ l2) = (sizes l1 + sizes l2)%nat).
  { induction l1 as [|n l1 IH]; intros l2; simpl; [done | rewrite IH; lia]. }
  destruct node; simpl; rewrite ?Hs, ?Happ; done.
Qed.

Lemma sizes_app (l1 l2 : list ast) : sizes (l1 ++ l2) = (sizes l1 + sizes l2)%nat.
Proof. induction l1 as [|n l1 IH]; simpl; [done | rewrite IH; lia]. Qed.

Lemma sizes_length (l : list ast) : (length l <= sizes l)%nat.
Proof.
  induction l as [|n l IH]; simpl; [done|].
  rewrite (size_children n). lia.
Qed.

(** With one unit of fuel per node of the queue's trees the traversal
    yields every node: more fuel yields nothing more. *)
Lemma walk_queue_enough :
  forall (n : nat) (todo : list ast) (k : nat),
    sizes todo = n ->
    walk_queue (n + k) todo = walk_queue n todo /\ length (walk_queue n todo) = n.
Proof.
  induction n as [|n IH]; intros todo k Hs.
  - destruct todo as [|t todo]; [by destruct k|].
    simpl in Hs. rewrite (size_children t) in Hs. lia.
  - destruct todo as [|t todo]; [done|]. simpl.
    destruct (IH (todo ++ iter_child_nodes t) k) as [Heq Hlen].
    + simpl in Hs. rewrite (size_children t) in Hs. rewrite sizes_app. lia.
    + by rewrite Heq, Hlen.
Qed.

Lemma walk_complete (tree : ast) (k : nat) :
  walk_queue (size tree + k) [tree] = walk tree /\ length (walk tree) = size tree.
Proof.
  apply walk_queue_enough. simpl. lia.
Qed.

(** The traversal yields the queue first. *)
Lemma walk_queue_take :
  forall (fuel : nat) (todo : list ast),
    exists later, walk_queue fuel todo = take fuel (todo ++ later).
Proof.
  induction fuel as [|fuel IH]; intros todo; [by exists []|].
  destruct todo as [|t todo]; [by exists []|]. simpl.
  destruct (IH (todo ++ iter_child_nodes t)) as [later Hl].
  exists (iter_child_nodes t ++ later). by rewrite Hl, <- app_assoc.
Qed.

(** [ast.walk] on a module: the module, its statements in order, then
    the nodes below them. *)
Lemma walk_module (body : list ast) :
  exists deeper, walk (Module body) = Module body :: body ++ deeper.
Proof.
  unfold walk. rewrite size_children. simpl.
  destruct (walk_queue_take (sizes body) body) as [later Hl].
  rewrite Hl. exists (take (sizes body - length body) later).
  rewrite take_app. f_equal. f_equal.
  apply take_ge, sizes_length.
Qed.

End walk.

(** ** The class entries of [parse_java_file]: the end line *)

Section java_end_line.
Import RepoStructure.

(** C4 (as amended): for every input, [parse_java_file] returns, and every
    class entry it returns starts at a line that matches [class_pattern]
    and ends at the last line of the file or at the line just before the
    next line that matches [class_pattern]: no line after its start line
    up to its end line matches, and its end line is the number of lines
    or is followed by a matching line.  (The closing brace is not looked
    for.) *)
Theorem parse_java_file_class_end_line
    (readlines : string -> option (list string)) (file_path : string)
    (file_content : java_content) :
  exists classes methods lines,
    parse_java_file readlines file_path file_content = Some (classes, methods, lines) /\
    forall c, c ∈ classes ->
      1 <= jc_start_line c <= jc_end_line c /\
      jc_end_line c <= Py.len lines /\
      (exists l m, lines !! Z.to_nat (jc_start_line c - 1) = Some l /\
         Re.re_match class_pattern l = Some m /\ Re.group 3 m = Some (jc_name c)) /\
      (forall (j : nat) l, jc_start_line c <= Z.of_nat j < jc_end_line c ->
         lines !! j = Some l -> Re.re_match class_pattern l = None) /\
      (jc_end_line c = Py.len lines \/
       exists l m, lines !! Z.to_nat (jc_end_line c) = Some l /\
         Re.re_match class_pattern l = Some m).
Proof.
  destruct (parse_java_file_classes_ok readlines file_path file_content)
    as (classes & methods & lines & Hp & Hok).
  exists classes, methods, lines. split; [done|].
  intros c Hc. rewrite Forall_forall in Hok.
  destruct (Hok c Hc) as (H1 & H2 & H3 & H4 & H5 & _). done.
Qed.

(** C4 (counterexample): in [two_classes] the brace that closes class [A]
    is on line 2, but the entry of [A] ends on line 3, the blank line
    before [class B]. *)
Lemma java_class_end_line_not_closing_brace :
  exists a b methods,
    parse_java_file (fun _ => None) "A.java" (ContentList two_classes)
      = Some ([a; b], methods, two_classes) /\
    jc_name a = "A" /\ jc_start_line a = 1 /\ jc_end_line a = 3 /\
    closing_scope_line two_classes (jc_start_line a) = Some 2.
Proof. eexists _, _, _. vm_compute. repeat split. Qed.

End java_end_line.

(** ** [parse_python_file] *)

Section python_parser.
Import RepoStructure.

Lemma py_loop_app content (l1 l2 : list ast) st :
  py_loop content (l1 ++ l2) st = py_loop content l2 (py_loop content l1 st).
Proof. unfold py_loop. apply foldl_app. Qed.

Lemma class_methods_step content st node x :
  x ∈ class_methods st -> x ∈ class_methods (py_step content st node).
Proof.
  intros Hx. destruct node; simpl; try done.
  - set_solver.
  - by destruct (decide _).
Qed.

Lemma class_methods_loop content (l : list ast) : forall st x,
  x ∈ class_methods st -> x ∈ class_methods (py_loop content l st).
Proof.
  induction l as [|n l IH]; intros st x Hx; [done|].
  simpl. apply IH. by apply class_methods_step.
Qed.

Lemma method_name_in content (body : list ast) name l e pre b post :
  FunctionDef name l e pre b post ∈ body ->
  name ∈ pf_name <$> class_methods_of content body.
Proof.
  intros Hin. apply list_elem_of_fmap.
  exists (function_entry content name l e). split; [done|].
  unfold class_methods_of. apply list_elem_of_omap.
  by exists (FunctionDef name l e pre b post).
Qed.

(** Visiting a function whose name is already a method name changes nothing. *)
Lemma py_step_shadowed content st name l e pre b post :
  name ∈ class_methods st ->
  py_step content st (FunctionDef name l e pre b post) = st.
Proof. intros Hin. simpl. by rewrite decide_True. Qed.

Lemma parse_python_file_parsed read ast_parse file_path content tree :
  ast_parse content = Some tree ->
  parse_python_file read ast_parse file_path (Some content)
    = parse_result content (walk tree).
Proof. intros Hp. unfold parse_python_file. simpl. by rewrite Hp. Qed.

(** C9 (as amended): a top-level function that follows, in the module, a
    class with a synchronous method of the same name (a [def] directly in
    the class body, the only members whose names are collected) is not
    entered in the list of functions: the result is that of the loop
    without the visit of this function (the names of all such methods met
    so far are tested by bare name).  The module [shadow_tree] has the
    top-level function [run], and the list of functions returned for it
    is empty. *)
Theorem shadowed_function_omitted :
  (forall read ast_parse file_path content b1 b2 b3
          cname cl ce cpre cbody cpost fname fl fe fpre fbody fpost ml me mpre mbody mpost,
     ast_parse content
       = Some (Module (b1 ++ ClassDef cname cl ce cpre cbody cpost :: b2 ++
                       FunctionDef fname fl fe fpre fbody fpost :: b3)) ->
     FunctionDef fname ml me mpre mbody mpost ∈ cbody ->
     exists top deeper,
       top = Module (b1 ++ ClassDef cname cl ce cpre cbody cpost :: b2 ++
                     FunctionDef fname fl fe fpre fbody fpost :: b3) /\
       walk top
         = top :: b1 ++ ClassDef cname cl ce cpre cbody cpost :: b2 ++
                 FunctionDef fname fl fe fpre fbody fpost :: b3 ++ deeper /\
       parse_python_file read ast_parse file_path (Some content)
         = parse_result content
             (top :: b1 ++ ClassDef cname cl ce cpre cbody cpost :: b2 ++ b3 ++ deeper)) /\
  (FunctionDef "run" 5 6 [OtherNode []] [OtherNode []] [] ∈ iter_child_nodes shadow_tree /\
   (parse_python_file no_file (table_parse [(shadow_text, shadow_tree)]) "job.py"
      (Some shadow_text)).1.2 = []).
Proof.
  split.
  - intros read ast_parse file_path content b1 b2 b3
      cname cl ce cpre cbody cpost fname fl fe fpre fbody fpost ml me mpre mbody mpost
      Hparse Hmethod.
    eexists. destruct (walk_module (b1 ++ ClassDef cname cl ce cpre cbody cpost :: b2 ++
                       FunctionDef fname fl fe fpre fbody fpost :: b3)) as [deeper Hw].
    exists deeper. split; [done|]. split.
    { rewrite Hw. f_equal. rewrite <- !app_assoc. simpl. f_equal. f_equal.
      by rewrite <- app_assoc. }
    rewrite (parse_python_file_parsed _ _ _ _ _ Hparse), Hw.
    unfold parse_result.
    set (before := Module (b1 ++ ClassDef cname cl ce cpre cbody cpost :: b2 ++
                       FunctionDef fname fl fe fpre fbody fpost :: b3)
                   :: b1 ++ [ClassDef cname cl ce cpre cbody cpost] ++ b2).
    set (f := FunctionDef fname fl fe fpre fbody fpost).
    assert (Hsplit : forall rest,
      py_loop content (before ++ f :: rest) (PyState [] [] ∅)
        = py_loop content (before ++ rest) (PyState [] [] ∅)).
    { intros rest. rewrite !py_loop_app.
      change (f :: rest) with ([f] ++ rest). rewrite py_loop_app. f_equal.
      change (py_loop content [f] ?s) with (py_step content s f).
      apply py_step_shadowed. unfold before.
      change (?x :: ?l1 ++ ?l2 ++ ?l3) with ((x :: l1) ++ l2 ++ l3).
      rewrite !py_loop_app. apply class_methods_loop.
      change (py_loop content [?c] ?s) with (py_step content s c).
      cbn [py_step class_methods].
      apply elem_of_union_r, elem_of_list_to_set.
      exact (method_name_in _ _ _ _ _ _ _ _ Hmethod). }
    replace (Module (b1 ++ ClassDef cname cl ce cpre cbody cpost :: b2 ++ f :: b3)
             :: (b1 ++ ClassDef cname cl ce cpre cbody cpost :: b2 ++ f :: b3) ++ deeper)
      with (before ++ f :: b3 ++ deeper).
    2:{ unfold before. simpl. f_equal. rewrite <- !app_assoc. simpl.
        by rewrite <- !app_assoc. }
    replace (Module (b1 ++ ClassDef cname cl ce cpre cbody cpost :: b2 ++ f :: b3)
             :: b1 ++ ClassDef cname cl ce cpre cbody cpost :: b2 ++ b3 ++ deeper)
      with (before ++ b3 ++ deeper).
    2:{ unfold before. simpl. f_equal. rewrite <- !app_assoc. simpl. done. }
    by rewrite Hsplit.
  - split; [|by vm_compute]. simpl. set_solver.
Qed.

End python_parser.

Section python_claims.
Import RepoStructure.

Lemma shadowed_function_omitted_witness :
  exists top deeper,
    top = shadow_tree /\
    walk top = top :: [] ++ ClassDef "Job" 1 3 []
                 [FunctionDef "run" 2 3 [OtherNode []] [OtherNode []] []] []
               :: [] ++ FunctionDef "run" 5 6 [OtherNode []] [OtherNode []] [] :: [] ++ deeper /\
    parse_python_file no_file (table_parse [(shadow_text, shadow_tree)]) "job.py"
        (Some shadow_text)
      = parse_result shadow_text
          (top :: [] ++ ClassDef "Job" 1 3 []
                 [FunctionDef "run" 2 3 [OtherNode []] [OtherNode []] []] []
               :: [] ++ [] ++ deeper).
Proof.
  apply (proj1 shadowed_function_omitted no_file
           (table_parse [(shadow_text, shadow_tree)]) "job.py" shadow_text
           [] [] [] "Job" 1 3 []
           [FunctionDef "run" 2 3 [OtherNode []] [OtherNode []] []] []
           "run" 5 6 [OtherNode []] [OtherNode []] []
           2 3 [OtherNode []] [OtherNode []] []).
  - reflexivity.
  - apply list_elem_of_here.
Defined.

(** C9, counterexample to the claim for every method: the class [Job] of
    [async_tree] has the method [run], defined with [async def], and
    comes before the top-level function [run]; the name of the method is
    not collected (the class entry has no method at all), and the
    function is entered in the list of functions. *)
Example async_method_does_not_shadow :
  async_tree
    = Module
        [ClassDef "Job" 1 3 []
           [AsyncFunctionDef "run" 2 3 [OtherNode [OtherNode []]]
              [OtherNode [OtherNode []]] []] [];
         FunctionDef "run" 5 6 [OtherNode []] [OtherNode [OtherNode []]] []] /\
  parse_python_file no_file (table_parse [(async_text, async_tree)]) "job.py"
      (Some async_text)
    = ([PyClass "Job" 1 3
          ["class Job:"; "    async def run(self):"; "        return 1"] []],
       [PyFunction "run" 5 6 ["def run():"; "    return 2"]],
       Lines ["class Job:"; "    async def run(self):"; "        return 1"; "";
              "def run():"; "    return 2"]).
Proof. split; [reflexivity | by vm_compute]. Qed.

(** C2 (as amended): for every text that fails to parse,
    [parse_python_file] returns the empty list of classes, the empty list
    of functions and the empty string: the lines of the file are not
    returned. *)
Theorem parse_python_file_unparsable
    (read : string -> option string) (ast_parse : string -> option ast)
    (file_path content : string) :
  ast_parse content = None ->
  parse_python_file read ast_parse file_path (Some content) = ([], [], Str "").
Proof. intros Hp. unfold parse_python_file. simpl. by rewrite Hp. Qed.

Lemma parse_python_file_unparsable_witness :
  table_parse [(shadow_text, shadow_tree)] broken_text = None /\
  parse_python_file no_file (table_parse [(shadow_text, shadow_tree)]) "broken.py"
    (Some broken_text) = ([], [], Str "").
Proof.
  split; [reflexivity|].
  apply (parse_python_file_unparsable no_file
           (table_parse [(shadow_text, shadow_tree)]) "broken.py" broken_text).
  reflexivity.
Defined.

(** C2 (counterexample): [broken_text] does not parse and has one line,
    yet the third component of the result is the empty string and not the
    lines of the text. *)
Lemma parse_python_file_drops_lines :
  table_parse [(shadow_text, shadow_tree)] broken_text = None /\
  Py.splitlines broken_text = ["def ("] /\
  (parse_python_file no_file (table_parse [(shadow_text, shadow_tree)]) "broken.py"
     (Some broken_text)).2 = Str "" /\
  (parse_python_file no_file (table_parse [(shadow_text, shadow_tree)]) "broken.py"
     (Some broken_text)).2 <> Lines (Py.splitlines broken_text).
Proof. repeat split; try reflexivity. vm_compute. discriminate. Qed.

Lemma class_methods_of_spans content lineno end_lineno (body : list ast) :
  Forall (fun n =>
    match n with
    | FunctionDef _ l e _ _ _ => lineno <= l /\ l <= e /\ e <= end_lineno
    | _ => True
    end) body ->
  Forall (fun m => pf_start_line m <= pf_end_line m /\
                   lineno <= pf_start_line m /\ pf_end_line m <= end_lineno)
    (class_methods_of content body).
Proof.
  induction body as [|n body IH]; intros Hb.
  - by apply Forall_nil.
  - apply Forall_cons in Hb as [Hn Hb]. specialize (IH Hb).
    unfold class_methods_of in *. simpl.
    destruct n; try exact IH.
    apply Forall_cons. split; [simpl; lia | exact IH].
Qed.

Lemma py_step_spans content st node :
  node_ok node ->
  Forall class_span_ok (py_class_info st) ->
  Forall (fun f => pf_start_line f <= pf_end_line f) (function_names st) ->
  Forall class_span_ok (py_class_info (py_step content st node)) /\
  Forall (fun f => pf_start_line f <= pf_end_line f)
    (function_names (py_step content st node)).
Proof.
  intros Hok Hc Hf. destruct node; simpl; try done.
  - destruct Hok as [Hle Hbody]. split; [|done].
    apply Forall_app. split; [done|]. apply Forall_singleton.
    split; simpl; [done|]. by apply class_methods_of_spans.
  - destruct (decide _); [done|]. simpl. split; [done|].
    apply Forall_app. split; [done|]. apply Forall_singleton. simpl. exact Hok.
Qed.

Lemma py_loop_spans content (nodes : list ast) : forall st,
  Forall node_ok nodes ->
  Forall class_span_ok (py_class_info st) ->
  Forall (fun f => pf_start_line f <= pf_end_line f) (function_names st) ->
  Forall class_span_ok (py_class_info (py_loop content nodes st)) /\
  Forall (fun f => pf_start_line f <= pf_end_line f)
    (function_names (py_loop content nodes st)).
Proof.
  induction nodes as [|n nodes IH]; intros st Hok Hc Hf; [done|].
  apply Forall_cons in Hok as [Hn Hok]. simpl.
  destruct (py_step_spans content st n Hn Hc Hf) as [Hc' Hf'].
  by apply IH.
Qed.

End python_claims.

Section span_claims.
Import RepoStructure.

Lemma shadow_positions_ok (content : string) (tree : ast) :
  table_parse [(shadow_text, shadow_tree)] content = Some tree ->
  Forall node_ok (walk tree).
Proof.
  simpl. destruct (decide (shadow_text = content)); [|done].
  intros [= <-]. vm_compute.
  repeat (apply List.Forall_cons || apply List.Forall_nil); repeat split;
    try discriminate.
  repeat (apply List.Forall_cons || apply List.Forall_nil); repeat split;
    discriminate.
Qed.

(** C8 (as amended): when the positions of the class and function nodes
    that [ast.parse] returns are well formed ([node_ok]: first line not
    after last line, functions of a class body within the class), every
    class, method and function entry of [parse_python_file] has
    [start_line <= end_line] and every method entry lies within the lines
    of its class entry; every class entry of [parse_java_file] has
    [start_line <= end_line].  (A method entry of [parse_java_file] has a
    start line only, and no class.) *)
Theorem declaration_spans
    (read : string -> option string) (ast_parse : string -> option ast)
    (Hpos : forall content tree, ast_parse content = Some tree ->
              Forall node_ok (walk tree)) :
  (forall file_path file_content classes functions text,
     parse_python_file read ast_parse file_path file_content
       = (classes, functions, text) ->
     (forall c, c ∈ classes ->
        pc_start_line c <= pc_end_line c /\
        forall m, m ∈ pc_methods c ->
          pf_start_line m <= pf_end_line m /\
          pc_start_line c <= pf_start_line m /\
          pf_end_line m <= pc_end_line c) /\
     (forall f, f ∈ functions -> pf_start_line f <= pf_end_line f)) /\
  (forall readlines file_path file_content,
     exists classes methods lines,
       parse_java_file readlines file_path file_content
         = Some (classes, methods, lines) /\
       forall c, c ∈ classes -> jc_start_line c <= jc_end_line c).
Proof.
  split.
  - intros file_path file_content classes functions text Hr.
    assert (Hall : Forall class_span_ok classes /\
                   Forall (fun f => pf_start_line f <= pf_end_line f) functions).
    { unfold parse_python_file in Hr.
      destruct (_ ≫= _) as [[content tree]|] eqn:Hc.
      - injection Hr as <- <- <-.
        apply py_loop_spans; [|by apply Forall_nil|by apply Forall_nil].
        apply (Hpos content).
        destruct (match file_content with
                  | Some c => Some c
                  | None => read file_path
                  end) as [c|]; [|done].
        simpl in Hc. destruct (ast_parse c) eqn:Hp; [|done].
        simpl in Hc. by injection Hc as -> ->.
      - injection Hr as <- <- <-. split; by apply Forall_nil. }
    destruct Hall as [Hcls Hfun]. rewrite Forall_forall in Hcls. rewrite Forall_forall in Hfun.
    split; [|done]. intros c Hc. destruct (Hcls c Hc) as [Hle Hm].
    split; [done|]. by rewrite Forall_forall in Hm.
  - intros readlines file_path file_content.
    destruct (parse_java_file_classes_ok readlines file_path file_content)
      as (classes & methods & lines & Hp & Hok).
    exists classes, methods, lines. split; [done|].
    intros c Hc. rewrite Forall_forall in Hok.
    destruct (Hok c Hc) as (H1 & _). lia.
Qed.

Lemma declaration_spans_witness :
  (forall file_path file_content classes functions text,
     parse_python_file no_file (table_parse [(shadow_text, shadow_tree)])
         file_path file_content
       = (classes, functions, text) ->
     (forall c, c ∈ classes ->
        pc_start_line c <= pc_end_line c /\
        forall m, m ∈ pc_methods c ->
          pf_start_line m <= pf_end_line m /\
          pc_start_line c <= pf_start_line m /\
          pf_end_line m <= pc_end_line c) /\
     (forall f, f ∈ functions -> pf_start_line f <= pf_end_line f)) /\
  (forall readlines file_path file_content,
     exists classes methods lines,
       parse_java_file readlines file_path file_content
         = Some (classes, methods, lines) /\
       forall c, c ∈ classes -> jc_start_line c <= jc_end_line c).
Proof.
  apply (declaration_spans no_file (table_parse [(shadow_text, shadow_tree)])).
  exact shadow_positions_ok.
Defined.

(** C8 (counterexample): for the interface [one_interface] the Java parser
    returns a method entry (name, start line and text, no end line) and
    no class entry at all, so no class entry contains the method. *)
Lemma java_method_without_class :
  parse_java_file (fun _ => None) "Foo.java" (ContentList one_interface)
    = Some ([], [JavaMethod (Some "bar") 2 ["    void bar();"]], one_interface) /\
  ~ (exists c : java_class,
       c ∈ ([] : list java_class) /\ jc_start_line c <= 2 <= jc_end_line c).
Proof.
  split; [by vm_compute|]. intros (c & Hc & _). by apply elem_of_nil in Hc.
Qed.

End span_claims.

(** ** The skeleton compressor for Java *)

Section compressor.
Import CompressJava.

Lemma transform_body_stubs (keep_constant : bool) (members : list jnode) :
  forall acc : list string,
    Forall member_ok members ->
    exists stubs,
      transform_body keep_constant members acc = Return (acc ++ stubs) /\
      Forall2 stub_of (filter (fun m => has_stub keep_constant m = true) members) stubs.
Proof.
  induction members as [|m members IH]; intros acc Hok.
  { exists []. split; [by rewrite app_nil_r | constructor]. }
  apply Forall_cons in Hok as [Hm Hok].
  assert (Hskip : has_stub keep_constant m = false ->
    transform_member keep_constant m = Return [] ->
    exists stubs,
      transform_body keep_constant (m :: members) acc = Return (acc ++ stubs) /\
      Forall2 stub_of
        (filter (fun m => has_stub keep_constant m = true) (m :: members)) stubs).
  { intros Hno Htm. destruct (IH acc Hok) as (stubs & Hb & Hf).
    exists stubs. simpl. rewrite Htm. simpl. rewrite app_nil_r. split; [done|].
    rewrite filter_cons, decide_False by (rewrite Hno; discriminate). done. }
  assert (Hadd : forall line, has_stub keep_constant m = true ->
    transform_member keep_constant m = Return [line] -> stub_of m line ->
    exists stubs,
      transform_body keep_constant (m :: members) acc = Return (acc ++ stubs) /\
      Forall2 stub_of
        (filter (fun m => has_stub keep_constant m = true) (m :: members)) stubs).
  { intros line Hyes Htm Hstub. destruct (IH (acc ++ [line]) Hok) as (stubs & Hb & Hf).
    exists (line :: stubs). simpl. rewrite Htm. simpl. rewrite Hb.
    split; [by rewrite <- app_assoc|].
    rewrite filter_cons, decide_True by done. by constructor. }
  destruct m as [cn cpre cbody cpost | mn mch | fpre decls | vn vch | och].
  - by apply Hskip.
  - by apply (Hadd ("    " +:+ mn +:+ "() { ... }")).
  - destruct keep_constant eqn:Hk.
    + destruct Hm as (name & children & rest & ->).
      by apply (Hadd ("    " +:+ name +:+ " = ...;")).
    + by apply Hskip.
  - by apply Hskip.
  - by apply Hskip.
Qed.

Lemma stub_count (keep_constant : bool) (body : list jnode) :
  length (filter (fun m => has_stub keep_constant m = true) body)
  = (length (filter (fun m => is_method m = true) body)
     + if keep_constant then length (filter (fun m => is_field m = true) body) else 0)%nat.
Proof.
  induction body as [|m body IH]; [by destruct keep_constant|].
  rewrite !filter_cons.
  destruct m, keep_constant; simpl in *; lia.
Qed.

End compressor.

Section compressor_errors.
Import CompressJava.

(** C7 (what the code does): [transform] returns the text unchanged when
    the parser raises [JavaSyntaxError], and raises every other exception
    of the parser itself, the [LexerError] of the tokenizer among them. *)
Theorem transform_parse_failure
    (keep_constant : bool) (javalang_parse : string -> outcome jnode)
    (java_code : string) :
  (javalang_parse java_code = Raise JavaSyntaxError ->
   transform keep_constant javalang_parse java_code = Return java_code) /\
  (forall e, e <> JavaSyntaxError -> javalang_parse java_code = Raise e ->
   transform keep_constant javalang_parse java_code = Raise e).
Proof.
  split.
  - intros Hp. unfold transform. by rewrite Hp.
  - intros e He Hp. unfold transform. rewrite Hp. by destruct e.
Qed.

Lemma transform_parse_failure_witness :
  demo_parse hash_text = Raise LexerError /\
  transform true demo_parse hash_text = Raise LexerError /\
  transform true demo_parse "class {" = Return "class {".
Proof.
  split; [reflexivity|]. split.
  - apply (proj2 (transform_parse_failure true demo_parse hash_text) LexerError);
      [discriminate | reflexivity].
  - apply (proj1 (transform_parse_failure true demo_parse "class {")). reflexivity.
Defined.

End compressor_errors.

(** ** Post-processing of a model response *)

Section repair_claims.
Import Repair.

Lemma dict_get_head {V} (key : string) (v : V) (rest : list (string * V)) :
  dict_get ((key, v) :: rest) key = Some v.
Proof. simpl. by rewrite decide_True. Qed.

(** The result of [_post_process_multifile_repair] when the first file
    key is [key] with the commands [cmds]. *)
Lemma post_process_first (P : PostprocessData) (py_eval : string -> option pyval)
    raw_output file_contents file_loc_intervals language diff_format
    (blocks : list string) (key : string) (cmds : list string)
    (rest : list (string * list string)) :
  @extract_blocks P language raw_output = Some blocks ->
  @split_edit_multifile_commands P blocks diff_format = Some ((key, cmds) :: rest) ->
  @_post_process_multifile_repair P py_eval raw_output file_contents
      file_loc_intervals language diff_format
  = match py_eval key with
    | None => (VStr "", "")
    | Some VOther => (VOther, "")
    | Some (VStr edited_file) =>
        match file_contents !! edited_file with
        | None => (VStr edited_file, "")
        | Some content =>
            (VStr edited_file,
             default ""
               (if diff_format then
                  file_loc_intervals !! edited_file ≫=
                    @parse_diff_edit_commands P cmds content
                else @parse_edit_commands P cmds content))
        end
    end.
Proof.
  intros Hb Hs. unfold _post_process_multifile_repair.
  rewrite Hb. simpl. rewrite Hs. cbn [fmap list_fmap head fst].
  rewrite dict_get_head.
  destruct (py_eval key) as [[f|]|]; [|done|done].
  destruct (file_contents !! f) as [content|]; [|done].
  destruct diff_format.
  - destruct (file_loc_intervals !! f ≫= _); done.
  - destruct (parse_edit_commands cmds content); done.
Qed.



End repair_claims.

Section validation_claims.
Import Repair.

Lemma append_cons (c : ascii) (s t : string) :
  String c s +:+ t = String c (s +:+ t).
Proof. reflexivity. Qed.

(** A line feed added at the end of a text adds a blank line at most. *)
Lemma splitlines_from_LF :
  forall (n : nat) (s cur : string),
    (String.length s <= n)%nat ->
    filter (fun line => Py.is_blank line = false) (Py.splitlines_from cur (s +:+ Py.LF))
    = filter (fun line => Py.is_blank line = false) (Py.splitlines_from cur s).
Proof.
  induction n as [|n IH]; intros s cur Hlen.
  - destruct s as [|c s]; [|simpl in Hlen; lia].
    simpl. destruct (decide (cur = "")) as [->|]; done.
  - destruct s as [|c s].
    { simpl. destruct (decide (cur = "")) as [->|]; done. }
    simpl in Hlen. rewrite append_cons. simpl Py.splitlines_from.
    destruct (Py.is_cr c).
    + destruct s as [|d s]; [done|].
      rewrite append_cons. simpl in Hlen.
      destruct (Py.is_lf d).
      * rewrite !filter_cons. rewrite (IH s "") by lia. done.
      * rewrite !filter_cons. rewrite <- append_cons.
        rewrite (IH (String d s) "") by (simpl; lia). done.
    + destruct (Py.is_linebreak c).
      * rewrite !filter_cons. rewrite (IH s "") by lia. done.
      * apply IH. lia.
Qed.

Lemma remove_empty_lines_LF (s : string) :
  remove_empty_lines (s +:+ Py.LF) = remove_empty_lines s.
Proof.
  unfold remove_empty_lines, Py.splitlines.
  by apply (splitlines_from_LF (String.length s)).
Qed.

Lemma differ_by_trailing_blank_line (content : string) :
  check_code_differ_by_just_empty_lines (content +:+ Py.LF) content = true.
Proof.
  unfold check_code_differ_by_just_empty_lines.
  apply bool_decide_eq_true_2, remove_empty_lines_LF.
Qed.



End validation_claims.

(** * Further properties *)

(** ** [repair.py]: what the post-processing returns when a step fails *)

Section repair_edges.
Import Repair.




End repair_edges.

Section validation_edges.
Import Repair.


End validation_edges.

(** ** [compress_file_java.py]: the skeleton of a parsed file *)

Section skeleton_of_tree.
Import CompressJava SkeletonRef.

Lemma transform_classes_blocks (keep_constant : bool) (nodes : list jnode) :
  forall acc : list string,
    Forall (fun n => is_class n = true) nodes ->
    Forall class_members_ok nodes ->
    exists blocks,
      transform_classes keep_constant nodes acc = Return (acc ++ blocks) /\
      Forall2 (block_of keep_constant) nodes blocks.
Proof.
  induction nodes as [|n nodes IH]; intros acc Hcls Hok.
  { exists []. split; [by rewrite app_nil_r | constructor]. }
  apply Forall_cons in Hcls as [Hn Hcls]. apply Forall_cons in Hok as [Hm Hok].
  destruct n as [name pre body post| | | |]; try done.
  destruct (transform_body_stubs keep_constant body [] Hm) as (stubs & Hb & Hf).
  destruct (IH (acc ++ [class_code (name, stubs)]) Hcls Hok) as (blocks & Ht & Hbl).
  exists (class_code (name, stubs) :: blocks). split.
  - simpl. rewrite Hb. simpl. rewrite Ht. by rewrite <- app_assoc.
  - constructor; [|done]. simpl. by exists stubs.
Qed.



End skeleton_of_tree.

(** ** The matcher: groups that every match sets *)

Section matcher_groups.
Import JavaRef.

Lemma star_runs_spec (p : ascii -> bool) (s : string) (caps : Re.captures) :
  forall s' caps', (s', caps') ∈ Re.star_runs p s caps ->
    caps' = caps /\ (String.length s' <= String.length s)%nat.
Proof.
  induction s as [|c s IH]; intros s' caps' Hin; simpl in Hin.
  - apply list_elem_of_singleton in Hin as [= -> ->]. done.
  - destruct (p c).
    + apply elem_of_app in Hin as [Hin|Hin].
      * destruct (IH _ _ Hin) as [-> Hlen]. split; [done | simpl; lia].
      * apply list_elem_of_singleton in Hin as [= -> ->]. done.
    + apply list_elem_of_singleton in Hin as [= -> ->]. done.
Qed.

Lemma run_no_group (n : nat) (r : Re.regex) :
  no_group n r = true ->
  forall s caps s' caps', (s', caps') ∈ Re.run r s caps ->
    Re.group n caps' = Re.group n caps.
Proof.
  induction r as [|l|r1 IH1 r2 IH2|r1 IH1 r2 IH2|r1 IH1|p|p|k r1 IH1];
    intros Hng s caps s' caps' Hin; simpl in Hin, Hng.
  - by apply list_elem_of_singleton in Hin as [= -> ->].
  - destruct (Re.strip_prefix l s); [|by apply elem_of_nil in Hin].
    by apply list_elem_of_singleton in Hin as [= -> ->].
  - apply andb_true_iff in Hng as [H1 H2].
    apply list_elem_of_In, in_flat_map in Hin as ([s1 caps1] & Hmid & Hin).
    apply list_elem_of_In in Hmid, Hin. simpl in Hin.
    rewrite (IH2 H2 _ _ _ _ Hin). by apply (IH1 H1 s caps s1).
  - apply andb_true_iff in Hng as [H1 H2].
    apply elem_of_app in Hin as [Hin|Hin]; [by eapply IH1 | by eapply IH2].
  - apply elem_of_app in Hin as [Hin|Hin]; [by eapply IH1|].
    by apply list_elem_of_singleton in Hin as [= -> ->].
  - by apply star_runs_spec in Hin as [-> _].
  - destruct s as [|c s0]; [by apply elem_of_nil in Hin|].
    destruct (p c); [|by apply elem_of_nil in Hin].
    by apply star_runs_spec in Hin as [-> _].
  - apply andb_true_iff in Hng as [Hk H1].
    apply list_elem_of_fmap in Hin as ([s1 caps1] & [= -> ->] & Hin).
    simpl. rewrite decide_False.
    + by eapply IH1.
    + intros ->. by rewrite Nat.eqb_refl in Hk.
Qed.

Lemma consumed_nonempty (c : ascii) (s0 s' : string) :
  (String.length s' <= String.length s0)%nat ->
  Re.consumed (String c s0) s' <> "".
Proof.
  intros Hlen. unfold Re.consumed. simpl String.length.
  replace (S (String.length s0) - String.length s')%nat
    with (S (String.length s0 - String.length s')) by lia.
  done.
Qed.

Lemma run_sets_group (n : nat) (r : Re.regex) :
  sets_group n r = true ->
  forall s caps s' caps', (s', caps') ∈ Re.run r s caps ->
    exists v, v <> "" /\ Re.group n caps' = Some v.
Proof.
  induction r as [|l|r1 IH1 r2 IH2|r1 IH1 r2 IH2|r1 IH1|p|p|k r1 IH1];
    intros Hset s caps s' caps' Hin; simpl in Hset; try done.
  - simpl in Hin.
    apply list_elem_of_In, in_flat_map in Hin as ([s1 caps1] & Hmid & Hin).
    apply list_elem_of_In in Hmid, Hin. simpl in Hin.
    apply orb_true_iff in Hset as [H2|H12].
    + by eapply IH2.
    + apply andb_true_iff in H12 as [H1 Hng].
      rewrite (run_no_group n r2 Hng _ _ _ _ Hin). by eapply IH1.
  - destruct r1 as [| | | | | |p|]; try done.
    apply Nat.eqb_eq in Hset as ->. simpl in Hin.
    destruct s as [|c s0]; [by apply elem_of_nil in Hin|].
    destruct (p c); [|by apply elem_of_nil in Hin].
    apply list_elem_of_fmap in Hin as ([s1 caps1] & [= -> ->] & Hin).
    apply star_runs_spec in Hin as [-> Hlen].
    exists (Re.consumed (String c s0) s1). split; [by apply consumed_nonempty|].
    simpl. by rewrite decide_True.
Qed.

Lemma re_match_sets_group (n : nat) (r : Re.regex) (s : string) (caps : Re.captures) :
  sets_group n r = true -> Re.re_match r s = Some caps ->
  exists v, v <> "" /\ Re.group n caps = Some v.
Proof.
  intros Hset Hm. unfold Re.re_match in Hm.
  destruct (Re.run r s []) as [|[s' caps'] rest] eqn:Hrun; [done|].
  simpl in Hm. injection Hm as <-.
  apply (run_sets_group n r Hset s [] s'). rewrite Hrun. apply list_elem_of_here.
Qed.

End matcher_groups.

(** ** [parse_java_file]: the class entries tile the file *)

Section java_tiling.
Import RepoStructure JavaRef.

Lemma class_name_set (l : string) (m : Re.captures) :
  Re.re_match class_pattern l = Some m ->
  exists v, v <> "" /\ Re.group 3 m = Some v.
Proof. by apply re_match_sets_group. Qed.

Lemma method_name_set (l : string) (m : Re.captures) :
  Re.re_match method_pattern l = Some m ->
  exists v, v <> "" /\ Re.group 3 m = Some v.
Proof. by apply re_match_sets_group. Qed.

Lemma is_class_line_true (l : string) :
  is_class_line l = true <-> exists m, Re.re_match class_pattern l = Some m.
Proof. unfold is_class_line. by rewrite bool_decide_eq_true. Qed.

Lemma is_class_line_false (l : string) :
  is_class_line l = false <-> Re.re_match class_pattern l = None.
Proof.
  unfold is_class_line. rewrite bool_decide_eq_false.
  destruct (Re.re_match class_pattern l); split; try done.
  intros Hn. destruct Hn. by eexists.
Qed.

(** The rule of the loop: what every iteration preserves holds at the end. *)
Lemma java_loop_rule (Inv : nat -> java_state -> Prop) (lines : list string) :
  (forall (k : nat) line st st',
     lines !! k = Some line -> Inv k st ->
     java_step lines (Z.of_nat k + 1) line st = Some st' -> Inv (S k) st') ->
  forall (todo done : list string) (st st' : java_state),
    lines = done ++ todo -> Inv (length done) st ->
    java_loop lines todo (Py.len done + 1) st = Some st' ->
    Inv (length lines) st'.
Proof.
  intros Hstep. induction todo as [|line todo IH]; intros done st st' Hlines Hinv Hloop.
  { simpl in Hloop. injection Hloop as <-. rewrite app_nil_r in Hlines. by subst done. }
  simpl in Hloop. unfold Py.len in Hloop.
  destruct (java_step lines (Z.of_nat (length done) + 1) line st) as [st1|] eqn:Hst1;
    [|done].
  simpl in Hloop. apply (IH (done ++ [line]) st1 st').
  - by rewrite <- app_assoc.
  - rewrite length_app. simpl. rewrite Nat.add_1_r.
    apply (Hstep (length done) line st st1); [|done|done].
    rewrite Hlines. by apply list_lookup_middle.
  - rewrite <- Hloop. f_equal. unfold Py.len. rewrite length_app. simpl. lia.
Qed.

(** The cases of one iteration. *)
Lemma java_step_cases (lines : list string) (i : Z) (line : string)
    (st st' : java_state) :
  java_step lines i line st = Some st' ->
  (exists m name s, Re.re_match class_pattern line = Some m /\
     truthy (current_class st) = true /\
     current_class st = Some name /\ class_start_line st = Some s /\
     st' = JavaState
             (class_info st ++ [JavaClass name s (i - 1) (Py.slice lines (s - 1) (i - 1))])
             (method_info st) (Re.group 3 m) (Some i)) \/
  (exists m, Re.re_match class_pattern line = Some m /\
     truthy (current_class st) = false /\
     st' = JavaState (class_info st) (method_info st) (Re.group 3 m) (Some i)) \/
  (exists caps, Re.re_match class_pattern line = None /\
     Re.re_match method_pattern line = Some caps /\
     st' = JavaState (class_info st)
             (method_info st ++ [JavaMethod (Re.group 3 caps) i [line]])
             (current_class st) (class_start_line st)) \/
  (Re.re_match class_pattern line = None /\
   Re.re_match method_pattern line = None /\ st' = st).
Proof.
  unfold java_step. intros Hs.
  destruct (Re.re_match class_pattern line) as [m|].
  - destruct (truthy (current_class st)) eqn:Ht.
    + left. destruct (class_start_line st) as [s|]; [|done].
      destruct (current_class st) as [name|]; [|done].
      simpl in Hs. injection Hs as <-. by exists m, name, s.
    + right; left. simpl in Hs. injection Hs as <-. by exists m.
  - destruct (Re.re_match method_pattern line) as [caps|].
    + right; right; left. injection Hs as <-. by exists caps.
    + right; right; right. by injection Hs as <-.
Qed.

Lemma truthy_name (v : string) : v <> "" -> truthy (Some v) = true.
Proof. intros Hv. simpl. by apply bool_decide_eq_true_2. Qed.

Lemma adjacent_snoc (cs : list java_class) (c : java_class) (s : Z) :
  (forall i c1 c2, cs !! i = Some c1 -> cs !! S i = Some c2 ->
     jc_start_line c2 = jc_end_line c1 + 1) ->
  (forall c0, last cs = Some c0 -> s = jc_end_line c0 + 1) ->
  jc_start_line c = s ->
  forall i c1 c2, (cs ++ [c]) !! i = Some c1 -> (cs ++ [c]) !! S i = Some c2 ->
    jc_start_line c2 = jc_end_line c1 + 1.
Proof.
  intros Hadj Hlast Hstart i c1 c2 H1 H2.
  destruct (decide (S i < length cs)%nat) as [Hin|Hout].
  - rewrite lookup_app_l in H1, H2 by lia. by eapply Hadj.
  - assert (Hi : S i = length cs).
    { apply lookup_lt_Some in H2. rewrite length_app in H2. simpl in H2. lia. }
    rewrite lookup_app_r in H2 by lia.
    replace (S i - length cs)%nat with O in H2 by lia.
    injection H2 as <-.
    rewrite lookup_app_l in H1 by lia.
    rewrite Hstart. apply Hlast. rewrite last_lookup.
    replace (pred (length cs)) with i by lia. done.
Qed.

Lemma tiling_step (lines : list string) (k : nat) (line : string)
    (st st' : java_state) :
  lines !! k = Some line -> tiling_inv lines k st ->
  java_step lines (Z.of_nat k + 1) line st = Some st' ->
  tiling_inv lines (S k) st'.
Proof.
  intros Hline (Hadj & Hnames & Hcov & Hlast & Hfalsy) Hstep.
  destruct (java_step_cases _ _ _ _ _ Hstep)
    as [(m & name & s & Hm & Ht & Hc & Hs & ->) | [(m & Hm & Ht & ->) |
        [(caps & Hm & Hmm & ->) | (Hm & Hmm & ->)]]].
  - (* a class line closes the class being read *)
    destruct (class_name_set _ _ Hm) as (v & Hv & Hg).
    assert (Hname : name <> "").
    { rewrite Hc in Ht. simpl in Ht. by apply bool_decide_eq_true in Ht. }
    unfold tiling_inv; simpl; split; [|split; [|split; [|split]]].
    + apply (adjacent_snoc _ _ s); [done | | done].
      intros c0 Hc0. specialize (Hlast c0 Hc0). congruence.
    + apply Forall_app. split; [done|]. by apply Forall_singleton.
    + intros j l Hj Hl Hcl. destruct (decide (j = k)) as [->|Hjk]; [by right|].
      left. destruct (Hcov j l) as [(c & Hc1 & Hc2) | Hcur]; [lia | done | done | |].
      * exists c. split; [|done]. apply elem_of_app. by left.
      * eexists. split; [apply elem_of_app; right; apply list_elem_of_here|].
        simpl. congruence.
    + intros c Hl. rewrite last_snoc in Hl. injection Hl as <-. simpl.
      f_equal. lia.
    + intros Hf. rewrite Hg in Hf. by rewrite (truthy_name v Hv) in Hf.
  - (* the first class line *)
    destruct (class_name_set _ _ Hm) as (v & Hv & Hg).
    destruct (Hfalsy Ht) as [Hnil Hnone].
    unfold tiling_inv; simpl; split; [|split; [|split; [|split]]].
    + done.
    + done.
    + intros j l Hj Hl Hcl. destruct (decide (j = k)) as [->|Hjk]; [by right|].
      rewrite (Hnone j l) in Hcl by (done || lia). done.
    + intros c Hl. by rewrite Hnil in Hl.
    + intros Hf. rewrite Hg in Hf. by rewrite (truthy_name v Hv) in Hf.
  - (* a method line *)
    unfold tiling_inv; simpl; split; [|split; [|split; [|split]]]; try done.
    + intros j l Hj Hl Hcl. destruct (decide (j = k)) as [->|Hjk].
      * rewrite Hline in Hl. injection Hl as <-.
        apply is_class_line_true in Hcl as [m' Hm']. congruence.
      * apply (Hcov j l); (done || lia).
    + intros Hf. destruct (Hfalsy Hf) as [Hnil Hnone]. split; [done|].
      intros j l Hj Hl. destruct (decide (j = k)) as [->|Hjk].
      * rewrite Hline in Hl. injection Hl as <-. by apply is_class_line_false.
      * apply (Hnone j l); (done || lia).
  - (* any other line *)
    unfold tiling_inv; split; [|split; [|split; [|split]]]; try done.
    + intros j l Hj Hl Hcl. destruct (decide (j = k)) as [->|Hjk].
      * rewrite Hline in Hl. injection Hl as <-.
        apply is_class_line_true in Hcl as [m' Hm']. congruence.
      * apply (Hcov j l); (done || lia).
    + intros Hf. destruct (Hfalsy Hf) as [Hnil Hnone]. split; [done|].
      intros j l Hj Hl. destruct (decide (j = k)) as [->|Hjk].
      * rewrite Hline in Hl. injection Hl as <-. by apply is_class_line_false.
      * apply (Hnone j l); (done || lia).
Qed.

End java_tiling.

Section java_entries.
Import RepoStructure JavaRef.

Lemma tiling_init (lines : list string) :
  tiling_inv lines 0 (JavaState [] [] None None).
Proof.
  unfold tiling_inv; simpl. split; [done|]. split; [by apply Forall_nil|].
  split; [intros j l Hj; lia|]. split; [done|].
  intros _. split; [done|]. intros j l Hj; lia.
Qed.

(** X5: the class entries of [parse_java_file] tile the file from the
    first class line on: every line that matches [class_pattern] starts
    an entry, the entries come in file order with a name that is not
    empty, each entry starts on the line after the end of the entry
    before it, and the last entry ends on the last line of the file. *)
Theorem java_classes_tile_the_file
    (readlines : string -> option (list string)) (file_path : string)
    (file_content : java_content) :
  exists classes methods lines,
    parse_java_file readlines file_path file_content = Some (classes, methods, lines) /\
    (forall (j : nat) l, lines !! j = Some l -> is_class_line l = true ->
       exists c, c ∈ classes /\ jc_start_line c = Z.of_nat j + 1) /\
    (forall c, c ∈ classes ->
       jc_name c <> "" /\ 1 <= jc_start_line c <= jc_end_line c) /\
    (forall i c1 c2, classes !! i = Some c1 -> classes !! S i = Some c2 ->
       jc_start_line c2 = jc_end_line c1 + 1) /\
    (forall c, last classes = Some c -> jc_end_line c = Py.len lines).
Proof.
  destruct (parse_java_file_classes_ok readlines file_path file_content)
    as (classes & methods & lines & Hp & Hok).
  exists classes, methods, lines. split; [done|].
  rewrite Forall_forall in Hok.
  assert (Hspan : forall c, c ∈ classes -> 1 <= jc_start_line c <= jc_end_line c).
  { intros c Hc. by destruct (Hok c Hc) as (H1 & _). }
  unfold parse_java_file in Hp.
  destruct (match file_content with
            | NoContent => readlines file_path
            | ContentList l => Some l
            | ContentStr s => Some (Py.splitlines s)
            end) as [ls|].
  2:{ injection Hp as <- <- <-. split; [by intros [|j] l|].
      split; [by intros c Hc%elem_of_nil|]. split; [by intros [|i] c1 c2|done]. }
  destruct (java_loop ls ls 1 (JavaState [] [] None None)) as [st|] eqn:Hloop; [|done].
  assert (Hinv : tiling_inv ls (length ls) st).
  { apply (java_loop_rule (tiling_inv ls) ls (tiling_step ls) ls [] _ st eq_refl
             (tiling_init ls) Hloop). }
  destruct Hinv as (Hadj & Hnames & Hcov & Hlast & Hfalsy).
  simpl in Hp. destruct (truthy (current_class st)) eqn:Ht.
  - destruct (class_start_line st) as [s|] eqn:Hs; [|done].
    destruct (current_class st) as [name|] eqn:Hc; [|done].
    simpl in Hp. injection Hp as <- <- <-.
    assert (Hname : name <> "") by (simpl in Ht; by apply bool_decide_eq_true in Ht).
    split; [|split; [|split]].
    + intros j l Hl Hcl.
      destruct (Hcov j l) as [(c & Hc1 & Hc2) | Hcur];
        [by eapply lookup_lt_Some | done | done | |].
      * exists c. split; [|done]. apply elem_of_app. by left.
      * eexists. split; [apply elem_of_app; right; apply list_elem_of_here|].
        simpl. congruence.
    + intros c Hin. split; [|by apply Hspan].
      apply elem_of_app in Hin as [Hin|Hin].
      * rewrite Forall_forall in Hnames. by apply Hnames.
      * by apply list_elem_of_singleton in Hin as ->.
    + apply (adjacent_snoc _ _ s); [done | | done].
      intros c0 Hc0. specialize (Hlast c0 Hc0). congruence.
    + intros c Hl. rewrite last_snoc in Hl. by injection Hl as <-.
  - injection Hp as <- <- <-. destruct (Hfalsy eq_refl) as [Hnil Hnone].
    rewrite Hnil. split; [|split; [|split]].
    + intros j l Hl Hcl. rewrite (Hnone j l) in Hcl; [done | | done].
      by eapply lookup_lt_Some.
    + by intros c Hc%elem_of_nil.
    + by intros [|i] c1 c2.
    + done.
Qed.

Lemma methods_step (lines : list string) (k : nat) (line : string)
    (st st' : java_state) :
  lines !! k = Some line -> methods_inv lines k st ->
  java_step lines (Z.of_nat k + 1) line st = Some st' ->
  methods_inv lines (S k) st'.
Proof.
  intros Hline (Hok & Hbound & Hsorted & Hcov) Hstep.
  assert (Hbound' : Forall (fun m => jm_start_line m <= Z.of_nat (S k)) (method_info st)).
  { eapply Forall_impl; [exact Hbound|]. simpl. intros m Hm. lia. }
  assert (Hcov' : is_method_line line = false ->
    forall (j : nat) l, (j < S k)%nat -> lines !! j = Some l -> is_method_line l = true ->
      exists m, m ∈ method_info st /\ jm_start_line m = Z.of_nat j + 1).
  { intros Hno j l Hj Hl Hml. destruct (decide (j = k)) as [->|Hjk].
    - rewrite Hline in Hl. injection Hl as <-. congruence.
    - apply (Hcov j l); (done || lia). }
  assert (Hclass : forall m, Re.re_match class_pattern line = Some m ->
    is_method_line line = false).
  { intros m Hm. unfold is_method_line.
    replace (is_class_line line) with true; [done|].
    symmetry. apply is_class_line_true. by exists m. }
  destruct (java_step_cases _ _ _ _ _ Hstep)
    as [(m & name & s & Hm & Ht & Hc & Hs & ->) | [(m & Hm & Ht & ->) |
        [(caps & Hm & Hmm & ->) | (Hm & Hmm & ->)]]].
  - unfold methods_inv; simpl. split; [done|]. split; [done|]. split; [done|].
    by apply Hcov', (Hclass m).
  - unfold methods_inv; simpl. split; [done|]. split; [done|]. split; [done|].
    by apply Hcov', (Hclass m).
  - destruct (method_name_set _ _ Hmm) as (v & Hv & Hg).
    unfold methods_inv; simpl. split; [|split; [|split]].
    + apply Forall_app. split; [done|]. apply Forall_singleton.
      exists line, caps, v. simpl.
      replace (Z.to_nat (Z.of_nat k + 1 - 1)) with k by lia.
      rewrite Hg. repeat split; (done || lia).
    + apply Forall_app. split; [done|]. apply Forall_singleton. simpl. lia.
    + intros i m1 m2 H1 H2.
      destruct (decide (S i < length (method_info st))%nat) as [Hin|Hout].
      * rewrite lookup_app_l in H1, H2 by lia. by eapply Hsorted.
      * assert (Hi : S i = length (method_info st)).
        { apply lookup_lt_Some in H2. rewrite length_app in H2. simpl in H2. lia. }
        rewrite lookup_app_r in H2 by lia.
        replace (S i - length (method_info st))%nat with O in H2 by lia.
        injection H2 as <-. simpl.
        rewrite lookup_app_l in H1 by lia.
        rewrite Forall_forall in Hbound.
        specialize (Hbound m1 (list_elem_of_lookup_2 _ _ _ H1)). simpl in Hbound. lia.
    + intros j l Hj Hl Hml. destruct (decide (j = k)) as [->|Hjk].
      * eexists. split; [apply elem_of_app; right; apply list_elem_of_here|]. done.
      * destruct (Hcov j l) as (m & Hin & Hst); [lia | done | done |].
        exists m. split; [|done]. apply elem_of_app. by left.
  - unfold methods_inv. split; [done|]. split; [done|]. split; [done|].
    apply Hcov'. unfold is_method_line.
    replace (bool_decide (is_Some (Re.re_match method_pattern line))) with false;
      [by rewrite andb_false_r|].
    symmetry. apply bool_decide_eq_false. rewrite Hmm. by intros [? ?].
Qed.

Lemma methods_init (lines : list string) :
  methods_inv lines 0 (JavaState [] [] None None).
Proof.
  unfold methods_inv; simpl. split; [by apply Forall_nil|].
  split; [by apply Forall_nil|]. split; [done|]. intros j l Hj; lia.
Qed.

(** X6: the method entries of [parse_java_file] are the lines that match
    [method_pattern] and do not match [class_pattern], in file order:
    every such line has an entry, and every entry starts at such a line,
    has the line as its text and the (non-empty) third group of the match
    as its name; the start lines increase strictly. *)
Theorem java_methods_are_the_method_lines
    (readlines : string -> option (list string)) (file_path : string)
    (file_content : java_content) :
  exists classes methods lines,
    parse_java_file readlines file_path file_content = Some (classes, methods, lines) /\
    (forall (j : nat) l, lines !! j = Some l -> is_method_line l = true ->
       exists m, m ∈ methods /\ jm_start_line m = Z.of_nat j + 1) /\
    (forall m, m ∈ methods ->
       exists l caps name,
         1 <= jm_start_line m /\
         lines !! Z.to_nat (jm_start_line m - 1) = Some l /\
         Re.re_match class_pattern l = None /\
         Re.re_match method_pattern l = Some caps /\
         Re.group 3 caps = Some name /\ name <> "" /\
         jm_name m = Some name /\ jm_text m = [l]) /\
    (forall i m1 m2, methods !! i = Some m1 -> methods !! S i = Some m2 ->
       jm_start_line m1 < jm_start_line m2).
Proof.
  destruct (parse_java_file_classes_ok readlines file_path file_content)
    as (classes & methods & lines & Hp & _).
  exists classes, methods, lines. split; [done|].
  unfold parse_java_file in Hp.
  destruct (match file_content with
            | NoContent => readlines file_path
            | ContentList l => Some l
            | ContentStr s => Some (Py.splitlines s)
            end) as [ls|].
  2:{ injection Hp as <- <- <-. split; [by intros [|j] l|].
      split; [by intros m Hm%elem_of_nil | by intros [|i] m1 m2]. }
  destruct (java_loop ls ls 1 (JavaState [] [] None None)) as [st|] eqn:Hloop; [|done].
  assert (Hinv : methods_inv ls (length ls) st).
  { apply (java_loop_rule (methods_inv ls) ls (methods_step ls) ls [] _ st eq_refl
             (methods_init ls) Hloop). }
  destruct Hinv as (Hok & Hbound & Hsorted & Hcov).
  assert (Hmethods : methods = method_info st /\ lines = ls).
  { simpl in Hp. destruct (truthy (current_class st)).
    - destruct (class_start_line st); [|done]. destruct (current_class st); [|done].
      simpl in Hp. by injection Hp as <- <- <-.
    - by injection Hp as <- <- <-. }
  destruct Hmethods as [-> ->]. split; [|split; [|done]].
  - intros j l Hl Hml. apply (Hcov j l); [|done|done]. by eapply lookup_lt_Some.
  - intros m Hm. rewrite Forall_forall in Hok. exact (Hok m Hm).
Qed.

End java_entries.

(** ** [parse_python_file]: which definitions are listed *)

Section python_entries.
Import RepoStructure PyRef.

Lemma py_loop_classes content (nodes : list ast) : forall st,
  py_class_info (py_loop content nodes st)
  = py_class_info st ++ omap (class_entry content) nodes.
Proof.
  induction nodes as [|n nodes IH]; intros st; simpl; [by rewrite app_nil_r|].
  rewrite IH. destruct n; simpl; try done.
  - by rewrite <- app_assoc.
  - by destruct (decide _).
Qed.

(** X7: for a text that parses, the list of classes holds one entry per
    class definition of the tree, whatever its depth (classes nested in
    classes or defined in functions included), in the breadth-first order
    of [ast.walk]; for a module, the entries of the top-level classes, in
    source order, come first. *)
Theorem python_classes_are_all_class_definitions
    (read : string -> option string) (ast_parse : string -> option ast)
    (file_path content : string) (tree : ast) :
  ast_parse content = Some tree ->
  (parse_python_file read ast_parse file_path (Some content)).1.1
    = omap (class_entry content) (walk tree) /\
  (forall body, tree = Module body ->
     exists deeper,
       walk tree = tree :: body ++ deeper /\
       (parse_python_file read ast_parse file_path (Some content)).1.1
         = omap (class_entry content) body ++ omap (class_entry content) deeper).
Proof.
  intros Hp. rewrite (parse_python_file_parsed _ _ _ _ _ Hp).
  unfold parse_result. simpl. rewrite py_loop_classes. simpl. split; [done|].
  intros body ->. destruct (walk_module body) as [deeper Hw].
  exists deeper. split; [done|]. rewrite Hw. simpl. by rewrite omap_app.
Qed.

Lemma python_classes_are_all_class_definitions_witness :
  nesting_parse nesting_text = Some nesting_tree /\
  pc_name <$> (parse_python_file no_file nesting_parse "m.py" (Some nesting_text)).1.1
    = ["Top"; "Local"] /\
  (parse_python_file no_file nesting_parse "m.py" (Some nesting_text)).1.1
    = omap (class_entry nesting_text) (walk nesting_tree).
Proof.
  split; [reflexivity|]. split; [reflexivity|].
  exact (proj1 (python_classes_are_all_class_definitions no_file nesting_parse "m.py"
                  nesting_text nesting_tree eq_refl)).
Defined.

(** In a complete traversal the children of a node come after it. *)
Lemma walk_queue_children_later :
  forall (n : nat) (todo l1 : list ast) (c : ast) (l2 : list ast),
    sizes todo = n -> walk_queue n todo = l1 ++ c :: l2 ->
    forall m, m ∈ iter_child_nodes c -> m ∈ l2.
Proof.
  induction n as [|n IH]; intros todo l1 c l2 Hs Hw m Hm.
  { simpl in Hw. by destruct l1. }
  destruct todo as [|t q]; [simpl in Hw; by destruct l1|].
  simpl in Hw.
  assert (Hs' : sizes (q ++ iter_child_nodes t) = n).
  { simpl in Hs. rewrite (size_children t) in Hs. rewrite sizes_app. lia. }
  destruct l1 as [|t' l1]; simpl in Hw; injection Hw as Ht Hw.
  - subst t. destruct (walk_queue_take n (q ++ iter_child_nodes c)) as [later Hl].
    rewrite Hl in Hw. subst l2.
    rewrite take_app_ge by (rewrite <- Hs'; apply sizes_length).
    apply elem_of_app. left. apply elem_of_app. by right.
  - by apply (IH (q ++ iter_child_nodes t) l1 c l2 Hs' Hw).
Qed.

Lemma walk_children_later (tree : ast) (l1 : list ast) (c : ast) (l2 : list ast) :
  walk tree = l1 ++ c :: l2 -> forall m, m ∈ iter_child_nodes c -> m ∈ l2.
Proof.
  apply walk_queue_children_later. simpl. lia.
Qed.

Lemma method_names_pf_name content (body : list ast) :
  pf_name <$> class_methods_of content body = omap def_name body.
Proof.
  unfold class_methods_of. induction body as [|n body IH]; [done|].
  destruct n; simpl; try exact IH. f_equal. exact IH.
Qed.

Lemma py_step_class_methods content st node x :
  x ∈ class_methods (py_step content st node)
  <-> x ∈ class_methods st \/ x ∈ method_names_of node.
Proof.
  destruct node; simpl; try (split; [by left | intros [?|?%elem_of_nil]; done]).
  - rewrite elem_of_union, elem_of_list_to_set, method_names_pf_name. done.
  - destruct (decide _); simpl; (split; [by left | intros [?|?%elem_of_nil]; done]).
Qed.

Lemma py_loop_class_methods content (nodes : list ast) : forall st x,
  x ∈ class_methods (py_loop content nodes st)
  <-> x ∈ class_methods st \/ x ∈ all_method_names nodes.
Proof.
  induction nodes as [|n nodes IH]; intros st x; simpl.
  - split; [by left | intros [?|?%elem_of_nil]; done].
  - rewrite IH, py_step_class_methods. unfold all_method_names. simpl.
    rewrite elem_of_app. tauto.
Qed.

End python_entries.

Section python_functions.
Import RepoStructure PyRef.

Lemma all_method_names_app (l1 l2 : list ast) (x : string) :
  x ∈ all_method_names (l1 ++ l2)
  <-> x ∈ all_method_names l1 \/ x ∈ all_method_names l2.
Proof.
  unfold all_method_names. rewrite !list_elem_of_bind. split.
  - intros (c & Hx & Hc). apply elem_of_app in Hc as [Hc|Hc]; [left|right]; by exists c.
  - intros [(c & Hx & Hc)|(c & Hx & Hc)]; exists c; (split; [done|]);
      apply elem_of_app; by (left + right).
Qed.

(** When no two function definitions share a name, a function definition
    is named like a method of some class of the tree only if it follows,
    in the traversal, a class that has it as a method. *)
Lemma method_name_seen_before (tree : ast) (pre post : list ast)
    (name : string) (l e : Z) (a b c : list ast) :
  walk tree = pre ++ FunctionDef name l e a b c :: post ->
  NoDup (omap def_name (walk tree)) ->
  name ∈ all_method_names (walk tree) -> name ∈ all_method_names pre.
Proof.
  intros Hw Hnd Hin. rewrite Hw in Hin.
  apply all_method_names_app in Hin as [Hin|Hin]; [done|].
  unfold all_method_names in Hin. apply list_elem_of_bind in Hin as (cls & Hx & Hc).
  apply elem_of_cons in Hc as [->|Hc]; [by apply elem_of_nil in Hx|].
  destruct cls as [|cname cl ce cpre cbody cpost| | |]; simpl in Hx;
    try by apply elem_of_nil in Hx.
  apply list_elem_of_omap in Hx as (m & Hm & Hname).
  apply list_elem_of_split in Hc as (p1 & p2 & ->).
  assert (Hlater : m ∈ p2).
  { apply (walk_children_later tree (pre ++ FunctionDef name l e a b c :: p1)
             (ClassDef cname cl ce cpre cbody cpost) p2).
    - rewrite Hw. by rewrite <- app_assoc.
    - simpl. apply elem_of_app. right. apply elem_of_app. by left. }
  rewrite Hw, omap_app in Hnd. apply NoDup_app in Hnd as (_ & _ & Hnd).
  simpl in Hnd. apply NoDup_cons in Hnd as [Hnotin _].
  destruct Hnotin. rewrite omap_app. apply elem_of_app. right.
  apply list_elem_of_omap. exists m. split; [|done].
  apply elem_of_cons. by right.
Qed.

Lemma py_loop_functions content (tree : ast) :
  NoDup (omap def_name (walk tree)) ->
  forall (post pre : list ast) (st : py_state),
    walk tree = pre ++ post ->
    (forall x, x ∈ class_methods st <-> x ∈ all_method_names pre) ->
    function_names (py_loop content post st)
    = function_names st
      ++ omap (function_entry_unless content (all_method_names (walk tree))) post.
Proof.
  intros Hnd. induction post as [|n post IH]; intros pre st Hw Hcm.
  { simpl. by rewrite app_nil_r. }
  simpl py_loop. change (foldl (py_step content) (py_step content st n) post)
    with (py_loop content post (py_step content st n)).
  rewrite (IH (pre ++ [n]) (py_step content st n)).
  - assert (Hsub : forall x, x ∈ all_method_names pre -> x ∈ all_method_names (walk tree)).
    { intros x Hx. rewrite Hw. apply all_method_names_app. by left. }
    destruct n as [|? ? ? ? ? ?|name l e a b c| |]; simpl; try done.
    destruct (decide (name ∈ class_methods st)) as [Hin|Hout].
    + rewrite decide_True; [done|]. by apply Hsub, Hcm.
    + rewrite decide_False; [simpl; by rewrite <- app_assoc|].
      intros Hin. apply Hout, Hcm.
      by apply (method_name_seen_before tree pre post name l e a b c).
  - by rewrite <- app_assoc.
  - intros x. rewrite py_step_class_methods, all_method_names_app, Hcm.
    unfold all_method_names at 2. simpl. rewrite app_nil_r. done.
Qed.

(** X8: for a text that parses to a tree in which no two function
    definitions have the same name, the list of functions holds exactly
    the function definitions that are not methods of a class, nested
    functions included, in breadth-first order: a function definition of
    the tree is listed if and only if its name is not the name of a
    function directly in the body of some class. *)
Theorem python_functions_without_name_clash
    (read : string -> option string) (ast_parse : string -> option ast)
    (file_path content : string) (tree : ast) :
  ast_parse content = Some tree ->
  NoDup (omap def_name (walk tree)) ->
  (parse_python_file read ast_parse file_path (Some content)).1.2
    = omap (function_entry_unless content (all_method_names (walk tree))) (walk tree) /\
  (forall name l e a b c,
     FunctionDef name l e a b c ∈ walk tree ->
     (function_entry content name l e
        ∈ (parse_python_file read ast_parse file_path (Some content)).1.2
      <-> name ∉ all_method_names (walk tree))).
Proof.
  intros Hp Hnd.
  assert (Heq : (parse_python_file read ast_parse file_path (Some content)).1.2
    = omap (function_entry_unless content (all_method_names (walk tree))) (walk tree)).
  { rewrite (parse_python_file_parsed _ _ _ _ _ Hp). unfold parse_result. simpl.
    rewrite (py_loop_functions content tree Hnd (walk tree) [] (PyState [] [] ∅));
      [done | done |].
    intros x. simpl. split; [by intros ?%elem_of_empty | by intros ?%elem_of_nil]. }
  split; [done|]. intros name l e a b c Hin. rewrite Heq, list_elem_of_omap. split.
  - intros (n & Hn & Hentry) Hmeth.
    destruct n as [| |name' l' e' a' b' c'| |]; simpl in Hentry; try done.
    destruct (decide (name' ∈ all_method_names (walk tree))); [done|].
    injection Hentry as -> -> ->. done.
  - intros Hnot. eexists. split; [exact Hin|]. simpl. by rewrite decide_False.
Qed.

Lemma nesting_names_distinct : NoDup (omap def_name (walk nesting_tree)).
Proof.
  apply (bool_decide_unpack (NoDup (omap def_name (walk nesting_tree)))).
  by vm_compute.
Qed.

Lemma python_functions_without_name_clash_witness :
  nesting_parse nesting_text = Some nesting_tree /\
  NoDup (omap def_name (walk nesting_tree)) /\
  pf_name <$> (parse_python_file no_file nesting_parse "m.py" (Some nesting_text)).1.2
    = ["outer"; "inner"] /\
  (parse_python_file no_file nesting_parse "m.py" (Some nesting_text)).1.2
    = omap (function_entry_unless nesting_text (all_method_names (walk nesting_tree)))
        (walk nesting_tree).
Proof.
  split; [reflexivity|]. split; [exact nesting_names_distinct|]. split; [reflexivity|].
  exact (proj1 (python_functions_without_name_clash no_file nesting_parse "m.py"
                  nesting_text nesting_tree eq_refl nesting_names_distinct)).
Defined.

End python_functions.

(** ** [parse_global_var_for_java.py]: the static fields recorded *)

Section global_vars.
Import CompressJava GlobalVarVisitor.

Lemma end_line_total (codes : string) (s : Z) :
  1 <= s -> exists e, JavaGlobalVar.calculate_end_line codes s = Some e /\
    s <= e /\ (s <= Py.len (Py.splitlines codes) -> e <= Py.len (Py.splitlines codes)).
Proof.
  intros Hs. unfold Py.len.
  destruct (calculate_end_line_cases codes s Hs)
    as [(i & Hi & _ & _ & Hr) | [_ Hr]]; eexists; (split; [exact Hr|]); lia.
Qed.

Lemma visit_declarators_spec (java_code : string) (line : Z) (declarators : list jtree) :
  1 <= line ->
  Forall (fun d => is_Some (declarator_name d)) declarators ->
  forall vars : gmap string (Z * Z),
  exists vars',
    visit_declarators java_code (Some line) declarators vars = Return vars' /\
    (forall name, is_Some (vars' !! name)
       <-> is_Some (vars !! name) \/ name ∈ omap declarator_name declarators) /\
    (forall name s e, vars' !! name = Some (s, e) ->
       vars !! name = Some (s, e) \/
       (s = line /\ JavaGlobalVar.calculate_end_line java_code line = Some e /\
        exists children, VariableDeclarator name children ∈ declarators)).
Proof.
  intros Hline. induction declarators as [|d ds IH]; intros Hok vars.
  { exists vars. split; [done|]. split.
    - intros name. split; [by left | intros [?|?%elem_of_nil]; done].
    - intros name s e Hl. by left. }
  apply Forall_cons in Hok as [[n Hn] Hok].
  destruct d as [|n' ch|]; try done. injection Hn as ->.
  destruct (end_line_total java_code line Hline) as (e0 & He0 & _).
  destruct (IH Hok (<[n := (line, e0)]> vars)) as (vars' & Hv & Hdom & Hent).
  exists vars'. split; [|split].
  - simpl. rewrite He0. simpl. exact Hv.
  - intros name. rewrite Hdom. simpl. rewrite elem_of_cons.
    destruct (decide (name = n)) as [->|Hne].
    + rewrite lookup_insert_eq. split; [intros _; right; by left | intros _; left; by eexists].
    + rewrite lookup_insert_ne by done. tauto.
  - intros name s e Hl. destruct (Hent name s e Hl) as [Hins | (-> & Hc & ch' & Hin)].
    + destruct (decide (name = n)) as [->|Hne].
      * rewrite lookup_insert_eq in Hins. injection Hins as <- <-.
        right. split; [done|]. split; [done|]. exists ch. apply list_elem_of_here.
      * rewrite lookup_insert_ne in Hins by done. by left.
    + right. split; [done|]. split; [done|]. exists ch'. apply elem_of_cons. by right.
Qed.

Lemma static_names_cons (node : jtree) (nodes : list jtree) (name : string) :
  name ∈ static_names (node :: nodes)
  <-> name ∈ static_names_of node \/ name ∈ static_names nodes.
Proof. unfold static_names. simpl. by rewrite elem_of_app. Qed.

Lemma visit_fields_spec (java_code : string) (nodes : list jtree) :
  Forall field_ok nodes ->
  forall vars : gmap string (Z * Z),
  exists vars',
    visit_fields java_code nodes vars = Return vars' /\
    (forall name, is_Some (vars' !! name)
       <-> is_Some (vars !! name) \/ name ∈ static_names nodes) /\
    (forall name s e, vars' !! name = Some (s, e) ->
       vars !! name = Some (s, e) \/ entry_from java_code nodes name s e).
Proof.
  induction nodes as [|node nodes IH]; intros Hok vars.
  { exists vars. split; [done|]. split.
    - intros name. split; [by left | intros [?|?%elem_of_nil]; done].
    - intros name s e Hl. by left. }
  apply Forall_cons in Hok as [Hnode Hok].
  assert (Hskip : visit_field java_code vars node = Return vars ->
    static_names_of node = [] ->
    exists vars',
      visit_fields java_code (node :: nodes) vars = Return vars' /\
      (forall name, is_Some (vars' !! name)
         <-> is_Some (vars !! name) \/ name ∈ static_names (node :: nodes)) /\
      (forall name s e, vars' !! name = Some (s, e) ->
         vars !! name = Some (s, e) \/ entry_from java_code (node :: nodes) name s e)).
  { intros Hv Hnil. destruct (IH Hok vars) as (vars' & Hvs & Hdom & Hent).
    exists vars'. split; [simpl; by rewrite Hv|]. split.
    - intros name. rewrite Hdom, static_names_cons, Hnil, elem_of_nil. tauto.
    - intros name s e Hl. destruct (Hent name s e Hl) as [?|(m & p & ds & ch & Hin & ?)];
        [by left|]. right. exists m, p, ds, ch. split; [|done].
      apply elem_of_cons. by right. }
  destruct node as [modifiers position pre declarators| |]; [|by apply Hskip..].
  destruct (is_static modifiers) eqn:Hst;
    [|apply Hskip; simpl; by rewrite Hst].
  destruct (Hnode Hst) as [(line & -> & Hline) Hdecls].
  destruct (visit_declarators_spec java_code line declarators Hline Hdecls vars)
    as (vars1 & Hv1 & Hdom1 & Hent1).
  destruct (IH Hok vars1) as (vars' & Hvs & Hdom & Hent).
  exists vars'. split; [|split].
  - simpl. rewrite Hst, Hv1. simpl. exact Hvs.
  - intros name. rewrite Hdom, Hdom1, static_names_cons. simpl. rewrite Hst. tauto.
  - intros name s e Hl.
    destruct (Hent name s e Hl) as [Hl1 | (m & p & ds & ch & Hin & Hrest)].
    + destruct (Hent1 name s e Hl1) as [? | (-> & Hc & ch & Hin)]; [by left|].
      right. exists modifiers, pre, declarators, ch.
      split; [apply list_elem_of_here | done].
    + right. exists m, p, ds, ch. split; [|done]. apply elem_of_cons. by right.
Qed.

Lemma static_names_filter (nodes : list jtree) (name : string) :
  name ∈ static_names (filter (fun n => is_field n = true) nodes)
  <-> name ∈ static_names nodes.
Proof.
  unfold static_names. rewrite !list_elem_of_bind. split.
  - intros (n & Hn & Hin). apply list_elem_of_filter in Hin as [_ Hin]. by exists n.
  - intros (n & Hn & Hin). exists n. split; [done|].
    apply list_elem_of_filter. split; [|done].
    destruct n; try done; by apply elem_of_nil in Hn.
Qed.

(** X9: for a text that parses to a tree whose static field declarations
    have a position on line 1 or later and declarators with a name,
    [parse_global_var_from_java_code] raises nothing; the names it
    returns are exactly the names the static field declarations of the
    tree declare (no instance field, every declarator of a static one),
    and the entry of a name holds the line of a static declaration of
    that name and the end line [calculate_end_line] gives for it, with
    [1 <= start_line <= end_line], and [end_line] within the text when
    [start_line] is. *)
Theorem static_fields_recorded
    (javalang_parse : string -> outcome jtree) (java_code : string) (tree : jtree) :
  javalang_parse java_code = Return tree ->
  Forall field_ok (preorder tree) ->
  exists vars,
    parse_global_var_from_java_code javalang_parse java_code = Return vars /\
    (forall name, is_Some (vars !! name) <-> name ∈ static_names (preorder tree)) /\
    (forall name s e, vars !! name = Some (s, e) ->
       entry_from java_code (preorder tree) name s e /\
       1 <= s <= e /\
       (s <= Py.len (Py.splitlines java_code) ->
        e <= Py.len (Py.splitlines java_code))).
Proof.
  intros Hp Hok.
  destruct (visit_fields_spec java_code
              (filter (fun n => is_field n = true) (preorder tree))) with (vars := (∅ : gmap string (Z * Z)))
    as (vars & Hv & Hdom & Hent).
  { apply Forall_forall. intros n Hn. apply list_elem_of_filter in Hn as [_ Hn].
    rewrite Forall_forall in Hok. by apply Hok. }
  exists vars. split; [|split].
  - unfold parse_global_var_from_java_code, visit. by rewrite Hp.
  - intros name. rewrite Hdom, static_names_filter, lookup_empty.
    split; [intros [[? ?]|?]; done | by right].
  - intros name s e Hl.
    destruct (Hent name s e Hl) as [Hemp | (m & p & ds & ch & Hin & Hst & Hd & Hc)].
    { by rewrite lookup_empty in Hemp. }
    apply list_elem_of_filter in Hin as [_ Hin].
    assert (Hs : 1 <= s).
    { rewrite Forall_forall in Hok. specialize (Hok _ Hin). simpl in Hok.
      destruct (Hok Hst) as [(line & [= <-] & Hline) _]. done. }
    split; [by exists m, p, ds, ch|].
    destruct (end_line_total java_code s Hs) as (e' & He' & Hle & Hlen).
    rewrite Hc in He'. injection He' as <-. split; [lia | done].
Qed.

Lemma config_fields_ok : Forall field_ok (preorder config_tree).
Proof.
  vm_compute. repeat (apply List.Forall_cons || apply List.Forall_nil); try exact I.
  - intros _. split; [exists 2; split; [reflexivity | discriminate]|].
    repeat (apply List.Forall_cons || apply List.Forall_nil). by eexists.
  - intros Hf. discriminate Hf.
Qed.

Lemma static_fields_recorded_witness :
  config_parse config_text = Return config_tree /\
  parse_global_var_from_java_code config_parse config_text
    = Return {[ "SIZES" := (2, 3) ]} /\
  (exists vars,
    parse_global_var_from_java_code config_parse config_text = Return vars /\
    (forall name, is_Some (vars !! name) <-> name ∈ static_names (preorder config_tree)) /\
    (forall name s e, vars !! name = Some (s, e) ->
       entry_from config_text (preorder config_tree) name s e /\
       1 <= s <= e /\
       (s <= Py.len (Py.splitlines config_text) ->
        e <= Py.len (Py.splitlines config_text)))).
Proof.
  split; [reflexivity|]. split; [by vm_compute|].
  exact (static_fields_recorded config_parse config_text config_tree eq_refl
           config_fields_ok).
Defined.

End global_vars.

(** ** [calculate_end_line]: the start lines on which it raises *)

Section end_line_domain.
Import JavaGlobalVar.

Lemma index_in_range (lines : list string) (i : Z) :
  - Py.len lines <= i < Py.len lines -> is_Some (Py.index lines i).
Proof.
  unfold Py.index, Py.len. intros Hi.
  destruct (decide (0 <= i)).
  - apply lookup_lt_is_Some_2. lia.
  - rewrite decide_True by lia. apply lookup_lt_is_Some_2. lia.
Qed.

Lemma scan_total (lines : list string) (idxs : list Z) :
  Forall (fun i => - Py.len lines <= i < Py.len lines) idxs ->
  forall o c e, is_Some (scan lines idxs o c e).
Proof.
  induction idxs as [|i idxs IH]; intros Hok o c e; [by eexists|].
  apply Forall_cons in Hok as [Hi Hok]. simpl.
  destruct (index_in_range lines i Hi) as [line ->].
  destruct (decide (line = "")) as [|Hne]; [by apply IH|].
  destruct (decide _); [|by apply IH].
  destruct (last_char_nonempty line Hne) as [ch ->].
  destruct (decide _); [by eexists | by apply IH].
Qed.

(** X10: [calculate_end_line] raises (an [IndexError]) exactly when
    [start_line < 1 - len(lines)]: never for a start line of 1 or more,
    and for a start line past the last line it returns the start line
    itself. *)
Theorem calculate_end_line_raises_iff (codes : string) (start_line : Z) :
  (calculate_end_line codes start_line = None
   <-> start_line < 1 - Py.len (Py.splitlines codes)) /\
  (Py.len (Py.splitlines codes) < start_line ->
   calculate_end_line codes start_line = Some start_line).
Proof.
  unfold calculate_end_line, Py.range. set (lines := Py.splitlines codes).
  split; [split|].
  - intros Hnone.
    destruct (decide (start_line < 1 - Py.len lines)) as [|Hge]; [done|].
    destruct (scan_total lines (seqZ (start_line - 1) (Py.len lines - (start_line - 1))))
      with (o := 0) (c := 0) (e := start_line) as [r Hr]; [|congruence].
    apply Forall_seqZ. intros i Hi. lia.
  - intros Hlt. unfold Py.len in *. rewrite seqZ_cons by lia. simpl.
    unfold Py.index, Py.len. rewrite !decide_False by lia. done.
  - intros Hgt. rewrite seqZ_nil by lia. done.
Qed.

End end_line_domain.

(** ** [utils.py]: the lines picked from a build log *)

Section log_lines.
Import LogUtils.

Lemma append_nil_l (a : string) : "" +:+ a = a.
Proof. reflexivity. Qed.

Lemma append_assoc (a b c : string) : (a +:+ b) +:+ c = a +:+ (b +:+ c).
Proof.
  induction a as [|x a IH]; [done|]. rewrite !append_cons. by rewrite IH.
Qed.

Lemma append_empty_r (a : string) : a +:+ "" = a.
Proof.
  induction a as [|x a IH]; [done|]. rewrite append_cons. by rewrite IH.
Qed.

Lemma collect_from (test : string -> bool) (lines : list string) :
  forall (errors : string) (count : Z),
    (foldl (fun (acc : string * Z) line =>
              if test line then (acc.1 +:+ line +:+ Py.LF, acc.2 + 1) else acc)
       (errors, count) lines).1
    = errors +:+ unlines (filter (fun l => test l = true) lines).
Proof.
  induction lines as [|l lines IH]; intros errors count; simpl.
  { by rewrite append_empty_r. }
  rewrite filter_cons. destruct (test l) eqn:Ht.
  - rewrite decide_True by done. simpl. rewrite IH. simpl.
    by rewrite !append_assoc.
  - rewrite decide_False by discriminate. apply IH.
Qed.

Lemma collect_unlines (test : string -> bool) (lines : list string) :
  (collect test lines).1 = unlines (filter (fun l => test l = true) lines).
Proof. unfold collect. by rewrite collect_from. Qed.

Lemma split_from_line (l : string) : forall (cur s : string),
  no_lf l = true ->
  split_from cur (l +:+ Py.LF +:+ s) = (cur +:+ l) :: split_from "" s.
Proof.
  induction l as [|c l IH]; intros cur s Hl.
  - rewrite append_nil_l, append_empty_r. reflexivity.
  - simpl in Hl. apply andb_true_iff in Hl as [Hc Hl].
    apply negb_true_iff in Hc. rewrite append_cons. cbn [split_from].
    rewrite Hc. rewrite IH by done.
    by rewrite append_assoc, append_cons, append_nil_l.
Qed.

Lemma split_unlines (lines : list string) :
  Forall (fun l => no_lf l = true) lines ->
  split_lines (unlines lines) = lines ++ [""].
Proof.
  unfold split_lines. induction 1 as [|l lines Hl _ IH]; [done|].
  simpl. rewrite split_from_line by done. by rewrite IH.
Qed.

Lemma no_lf_app (a b : string) :
  no_lf a = true -> no_lf b = true -> no_lf (a +:+ b) = true.
Proof.
  induction a as [|c a IH]; [done|]. rewrite append_cons. simpl.
  intros [Hc Ha]%andb_true_iff Hb. rewrite Hc. simpl. by apply IH.
Qed.

Lemma split_from_no_lf (s : string) : forall cur,
  no_lf cur = true -> Forall (fun l => no_lf l = true) (split_from cur s).
Proof.
  induction s as [|c s IH]; intros cur Hcur; simpl.
  - by apply Forall_singleton.
  - destruct (Py.is_lf c) eqn:Hc.
    + apply Forall_cons. split; [done|]. by apply IH.
    + apply IH. apply no_lf_app; [done|]. simpl. by rewrite Hc.
Qed.

Lemma filter_idem {A} (P : A -> Prop) `{forall x, Decision (P x)} (l : list A) :
  filter P (filter P l) = filter P l.
Proof.
  induction l as [|x l IH]; [done|].
  rewrite filter_cons. destruct (decide (P x)); [|done].
  rewrite filter_cons, decide_True by done. by rewrite IH.
Qed.

(** Picking the lines that pass [test] from the text of the lines picked
    before picks the same lines, when [test] fails on the empty line. *)
Lemma collect_idempotent (test : string -> bool) (log_txt : string) :
  test "" = false ->
  (collect test (split_lines (collect test (split_lines log_txt)).1)).1
  = (collect test (split_lines log_txt)).1.
Proof.
  intros Hempty. rewrite !collect_unlines. f_equal.
  rewrite split_unlines.
  - rewrite filter_app, filter_idem. simpl.
    rewrite filter_cons, decide_False by (rewrite Hempty; discriminate).
    by rewrite filter_nil, app_nil_r.
  - apply Forall_forall. intros l Hl. apply list_elem_of_filter in Hl as [_ Hl].
    pose proof (split_from_no_lf log_txt "" eq_refl) as Hall.
    rewrite Forall_forall in Hall. by apply Hall.
Qed.

(** X11: [get_errors_from_logs] and [get_errors_from_logs_python] return
    the lines of the log that pass their test (a start in "[ERROR]" or in
    "E"; the word "error" in any case), in order and without any other
    text, a line feed after each; applied to their own result they return
    it unchanged. *)
Theorem error_lines_are_kept_in_order (log_txt : string) :
  get_errors_from_logs log_txt
    = unlines (filter (fun l => is_error_line l = true) (split_lines log_txt)) /\
  get_errors_from_logs_python log_txt
    = unlines (filter (fun l => mentions_error l = true) (split_lines log_txt)) /\
  get_errors_from_logs (get_errors_from_logs log_txt) = get_errors_from_logs log_txt /\
  get_errors_from_logs_python (get_errors_from_logs_python log_txt)
    = get_errors_from_logs_python log_txt.
Proof.
  unfold get_errors_from_logs, get_errors_from_logs_python.
  rewrite !collect_unlines. split; [done|]. split; [done|].
  rewrite <- !collect_unlines. split; by apply collect_idempotent.
Qed.

Lemma split_from_nonempty (s cur : string) : split_from cur s <> [].
Proof.
  revert cur. induction s as [|c s IH]; intros cur; simpl; [done|].
  destruct (Py.is_lf c); [done | apply IH].
Qed.

Lemma exception_loop_raises (rest : list string) : forall traces,
  exception_loop rest traces = None
  <-> exists l, last rest = Some l /\ mentions_exception l = true.
Proof.
  induction rest as [|line rest IH]; intros traces.
  { simpl. split; [done | by intros (l & Hl & _)]. }
  destruct rest as [|next rest'].
  - simpl. destruct (mentions_exception line) eqn:Hm.
    + split; [by exists line | done].
    + split; [done|]. intros (l & [= <-] & Hl). congruence.
  - change (last (line :: next :: rest')) with (last (next :: rest')).
    cbn [exception_loop].
    destruct (mentions_exception line); [|apply IH].
    destruct (_ && _); apply IH.
Qed.

Lemma split_from_LF (s : string) : forall cur,
  split_from cur (s +:+ Py.LF) = split_from cur s ++ [""].
Proof.
  induction s as [|c s IH]; intros cur; [reflexivity|].
  rewrite append_cons. simpl.
  destruct (Py.is_lf c); [by rewrite IH | apply IH].
Qed.

(** X12: [get_exception_informations] raises (an [IndexError]) exactly
    when the last line of the log, the text after its last line feed,
    contains "exception" or "error" in any case; so it raises nothing on
    a log that ends in a line feed. *)
Theorem exception_informations_raises_iff (log_txt : string) :
  (get_exception_informations log_txt = None
   <-> exists l, last (split_lines log_txt) = Some l /\ mentions_exception l = true) /\
  is_Some (get_exception_informations (log_txt +:+ Py.LF)).
Proof.
  unfold get_exception_informations. split; [apply exception_loop_raises|].
  destruct (exception_loop (split_lines (log_txt +:+ Py.LF)) []) as [t|] eqn:He;
    [by eexists|].
  apply exception_loop_raises in He as (l & Hl & Hm).
  unfold split_lines in Hl. rewrite split_from_LF, last_snoc in Hl.
  injection Hl as <-. done.
Qed.

Example exception_trace_of_maven_log :
  get_exception_informations maven_log
    = Some [unlines ["java.lang.IllegalStateException: closed";
                     frame_prefix +:+ " org.example.Pool.take(Pool.java:41)";
                     "[INFO] BUILD FAILURE"; ""]].
Proof. reflexivity. Qed.

Example exception_informations_raise_on_cut_log :
  get_exception_informations cut_log = None /\
  get_errors_from_logs cut_log = "[ERROR] Failed to execute goal" +:+ Py.LF.
Proof. split; reflexivity. Qed.

End log_lines.

(** ** [repair.py]: which files enter the context *)

Section topn_context.
Import TopnContext.
Context {Locs Structure Intervals : Type}.
Variable transfer :
  Locs -> Structure -> string -> string -> Z -> bool -> bool -> string ->
  option (list Z * Intervals).
Variable wrap : string -> Intervals -> bool -> bool -> bool -> option string.
Variable file_contents : gmap string string.
Variable language : string.
Variable structure : Structure.
Variable context_window : Z.
Variables loc_interval fine_grain_loc_only add_space sticky_scroll no_line_number : bool.

Local Abbreviation step :=
  (context_step Locs Structure Intervals transfer wrap file_contents language
     structure context_window loc_interval fine_grain_loc_only add_space sticky_scroll
     no_line_number).
Local Abbreviation loop :=
  (context_loop Locs Structure Intervals transfer wrap file_contents language
     structure context_window loc_interval fine_grain_loc_only add_space sticky_scroll
     no_line_number).
Local Abbreviation predicted :=
  (has_lines Locs Structure Intervals transfer file_contents language
     structure context_window loc_interval fine_grain_loc_only).

Lemma append_nonempty_r (a b : string) : b <> "" -> a +:+ b <> "".
Proof.
  intros Hb. destruct a as [|c a]; [done|]. by rewrite append_cons.
Qed.

Lemma context_step_spec (acc acc' : string * gmap string Intervals)
    (pred_file : string) (locs : Locs) :
  step acc (pred_file, locs) = Some acc' ->
  is_Some (file_contents !! pred_file) /\
  ((predicted pred_file locs /\ acc'.1 <> "" /\
    exists ci, acc'.2 = <[pred_file := ci]> acc.2)
   \/ (~ predicted pred_file locs /\ acc' = acc)).
Proof.
  unfold context_step, has_lines. intros Hs.
  destruct (file_contents !! pred_file) as [content|] eqn:Hc; [|done].
  split; [by eexists|]. simpl in Hs.
  destruct (transfer locs structure pred_file language context_window loc_interval
              fine_grain_loc_only content) as [[line_locs ci]|] eqn:Ht; [|done].
  simpl in Hs. destruct (decide (0 < Py.len line_locs)) as [Hpos|Hzero].
  - destruct (wrap content ci add_space no_line_number sticky_scroll) as [text|]; [|done].
    simpl in Hs. injection Hs as <-. left. split; [|split].
    + exists content, line_locs, ci. split; [done|]. split; [done|].
      intros ->. unfold Py.len in Hpos. simpl in Hpos. lia.
    + simpl. rewrite <- !append_assoc. apply append_nonempty_r. done.
    + by exists ci.
  - injection Hs as <-. right. split; [|done].
    intros (content' & line_locs' & ci' & [= <-] & Ht' & Hne).
    rewrite Ht in Ht'. injection Ht' as <- <-.
    destruct line_locs; [done|]. unfold Py.len in Hzero. simpl in Hzero. lia.
Qed.

Lemma context_loop_spec (items : list (string * Locs)) :
  forall acc acc', loop items acc = Some acc' ->
    (forall f locs, (f, locs) ∈ items -> is_Some (file_contents !! f)) /\
    (forall f, is_Some (acc'.2 !! f)
       <-> is_Some (acc.2 !! f) \/ exists locs, (f, locs) ∈ items /\ predicted f locs) /\
    (acc'.1 = "" <-> acc.1 = "" /\ forall f locs, (f, locs) ∈ items -> ~ predicted f locs) /\
    (acc.1 <> "" -> acc'.1 <> "").
Proof.
  induction items as [|[f0 locs0] items IH]; intros acc acc' Hl.
  { simpl in Hl. injection Hl as <-. split; [by intros f locs ?%elem_of_nil|].
    split; [|split; [|done]].
    - intros f. split; [by left | intros [?|(locs & ?%elem_of_nil & _)]; done].
    - split; [|by intros [? _]]. intros He. split; [done|].
      by intros f locs ?%elem_of_nil. }
  cbn [context_loop] in Hl.
  destruct (step acc (f0, locs0)) as [acc1|] eqn:Hs; [|done]. simpl in Hl.
  destruct (context_step_spec _ _ _ _ Hs) as [Hkey Hcase].
  destruct (IH acc1 acc' Hl) as (Hkeys & Hdom & Hempty & Hmono).
  split; [|split; [|split]].
  - intros f locs [[= -> ->]|Hin]%elem_of_cons; [done | by eapply Hkeys].
  - intros f. rewrite Hdom.
    destruct Hcase as [(Hpred & _ & ci & Hins) | (Hnot & ->)].
    + rewrite Hins. destruct (decide (f = f0)) as [->|Hne].
      * rewrite lookup_insert_eq. split; [|intros _; left; by eexists].
        intros _. right. exists locs0. split; [apply list_elem_of_here | done].
      * rewrite lookup_insert_ne by done. split.
        -- intros [?|(locs & Hin & Hp)]; [by left|]. right. exists locs.
           split; [apply elem_of_cons; by right | done].
        -- intros [?|(locs & [[= -> ->]|Hin]%elem_of_cons & Hp)];
             [by left | done | right; by exists locs].
    + split.
      * intros [?|(locs & Hin & Hp)]; [by left|]. right. exists locs.
        split; [apply elem_of_cons; by right | done].
      * intros [?|(locs & [[= -> ->]|Hin]%elem_of_cons & Hp)];
          [by left | done | right; by exists locs].
  - rewrite Hempty. destruct Hcase as [(Hpred & Hne & _) | (Hnot & ->)].
    + split; [by intros [? _]|]. intros [_ Hnone].
      destruct (Hnone f0 locs0); [apply list_elem_of_here | done].
    + split.
      * intros [He Hnone]. split; [done|].
        intros f locs [[= -> ->]|Hin]%elem_of_cons; [done | by eapply Hnone].
      * intros [He Hnone]. split; [done|]. intros f locs Hin.
        apply Hnone, elem_of_cons. by right.
  - intros Hne. apply Hmono. destruct Hcase as [(_ & Hne1 & _) | (_ & ->)]; done.
Qed.

(** X13: when [construct_topn_file_context] returns, every file of
    [file_to_locs] is a key of [file_contents] (for any other file the
    lookup raises [KeyError]); a file is a key of the intervals returned
    if and only if at least one line was predicted for it; and the
    context returned is empty if and only if no line was predicted for
    any file, that is, if and only if no interval is returned. *)
Theorem context_holds_the_files_with_lines
    (file_to_locs : list (string * Locs)) (pred_files : list string)
    (topn_content : string) (file_loc_intervals : gmap string Intervals) :
  construct_topn_file_context Locs Structure Intervals transfer wrap file_to_locs
    pred_files file_contents language structure context_window loc_interval
    fine_grain_loc_only add_space sticky_scroll no_line_number
    = Some (topn_content, file_loc_intervals) ->
  (forall f locs, (f, locs) ∈ file_to_locs -> is_Some (file_contents !! f)) /\
  (forall f, is_Some (file_loc_intervals !! f)
     <-> exists locs, (f, locs) ∈ file_to_locs /\ predicted f locs) /\
  (topn_content = "" <-> forall f locs, (f, locs) ∈ file_to_locs -> ~ predicted f locs) /\
  (topn_content = "" <-> file_loc_intervals = ∅).
Proof.
  intros Hc. destruct (context_loop_spec file_to_locs ("", ∅) _ Hc)
    as (Hkeys & Hdom & Hempty & _). simpl in *.
  assert (Hdom' : forall f, is_Some (file_loc_intervals !! f)
     <-> exists locs, (f, locs) ∈ file_to_locs /\ predicted f locs).
  { intros f. rewrite Hdom, lookup_empty. split; [intros [[? ?]|?]; done | by right]. }
  assert (Hempty' : topn_content = ""
     <-> forall f locs, (f, locs) ∈ file_to_locs -> ~ predicted f locs).
  { rewrite Hempty. split; [by intros [_ ?] | by split]. }
  split; [done|]. split; [done|]. split; [done|].
  rewrite Hempty'. split.
  - intros Hnone. apply map_empty. intros f.
    destruct (file_loc_intervals !! f) eqn:Hf; [|done].
    destruct (proj1 (Hdom' f)) as (locs & Hin & Hp); [by eexists|].
    by destruct (Hnone f locs).
  - intros -> f locs Hin Hp.
    destruct (proj2 (Hdom' f)) as [x Hx]; [by exists locs|].
    by rewrite lookup_empty in Hx.
Qed.

End topn_context.

Lemma context_holds_the_files_with_lines_witness :
  TopnContext.construct_topn_file_context (list Z) unit (list (Z * Z))
      TopnContext.demo_transfer TopnContext.demo_wrap
      [("a.py", [3]); ("b.py", [])] ["a.py"; "b.py"] Repair.demo_files
      "python" tt 1 true false false false true
    = Some ("### a.py" +:+ Py.LF +:+ "x = 1" +:+ Py.LF +:+ Py.LF +:+ Py.LF +:+ Py.LF,
            {[ "a.py" := [(2, 4)] ]}) /\
  (("### a.py" +:+ Py.LF +:+ "x = 1" +:+ Py.LF +:+ Py.LF +:+ Py.LF +:+ Py.LF) = ""
   <-> ({[ "a.py" := [(2, 4)] ]} : gmap string (list (Z * Z))) = ∅).
Proof.
  assert (Hc : TopnContext.construct_topn_file_context (list Z) unit (list (Z * Z))
      TopnContext.demo_transfer TopnContext.demo_wrap
      [("a.py", [3]); ("b.py", [])] ["a.py"; "b.py"] Repair.demo_files
      "python" tt 1 true false false false true
    = Some ("### a.py" +:+ Py.LF +:+ "x = 1" +:+ Py.LF +:+ Py.LF +:+ Py.LF +:+ Py.LF,
            {[ "a.py" := [(2, 4)] ]})) by (by vm_compute).
  split; [exact Hc|].
  exact (proj2 (proj2 (proj2 (context_holds_the_files_with_lines
    TopnContext.demo_transfer TopnContext.demo_wrap Repair.demo_files "python" tt 1
    true false false false true _ _ _ _ Hc)))).
Defined.

(** ** [get_repo_structure.py]: which names are artifact names *)

Section artifact_names.
Import ArtifactName.

Lemma star_runs_complete (p : ascii -> bool) (caps : Re.captures) (pre : string) :
  forall s', all_in p pre = true -> (s', caps) ∈ Re.star_runs p (pre +:+ s') caps.
Proof.
  induction pre as [|c pre IH]; intros s' Hall.
  - rewrite append_nil_l. destruct s' as [|d s']; simpl.
    + apply list_elem_of_here.
    + destruct (p d); [apply elem_of_app; right|]; apply list_elem_of_here.
  - simpl in Hall. apply andb_true_iff in Hall as [Hc Hall].
    rewrite append_cons. simpl. rewrite Hc. apply elem_of_app. left. by apply IH.
Qed.

Lemma star_runs_sound (p : ascii -> bool) (caps : Re.captures) (s : string) :
  forall s' caps', (s', caps') ∈ Re.star_runs p s caps ->
    exists pre, s = pre +:+ s' /\ all_in p pre = true.
Proof.
  induction s as [|c s IH]; intros s' caps' Hin; simpl in Hin.
  - apply list_elem_of_singleton in Hin as [= -> ->]. by exists "".
  - destruct (p c) eqn:Hc.
    + apply elem_of_app in Hin as [Hin|Hin].
      * destruct (IH _ _ Hin) as (pre & -> & Hall). exists (String c pre).
        split; [by rewrite append_cons|]. simpl. by rewrite Hc.
      * apply list_elem_of_singleton in Hin as [= -> ->]. by exists "".
    + apply list_elem_of_singleton in Hin as [= -> ->]. by exists "".
Qed.

Lemma strip_prefix_app (l s : string) : Re.strip_prefix l (l +:+ s) = Some s.
Proof.
  induction l as [|c l IH]; [by destruct s|].
  rewrite append_cons. simpl. by rewrite decide_True.
Qed.

Lemma strip_prefix_Some (l s s' : string) :
  Re.strip_prefix l s = Some s' -> s = l +:+ s'.
Proof.
  revert s. induction l as [|c l IH]; intros s Hs.
  - destruct s; simpl in Hs; by injection Hs as <-.
  - destruct s as [|d s]; simpl in Hs; [done|].
    destruct (decide (c = d)) as [->|]; [|done].
    rewrite append_cons. f_equal. by apply IH.
Qed.

Lemma consumed_head (d : ascii) (rest : string) :
  Re.consumed (String d rest) rest = String d "".
Proof.
  unfold Re.consumed. cbn [String.length].
  replace (S (String.length rest) - String.length rest)%nat with 1%nat by lia.
  by destruct rest.
Qed.

(** X14: [is_bugswarm_artifact_name] accepts a name exactly when it
    starts with one or more letters, digits, underscores or hyphens
    followed by a hyphen and a digit; what comes after that digit is
    not looked at (the pattern is anchored at the start only). *)
Theorem artifact_name_iff (bugswarm_image : string) :
  is_bugswarm_artifact_name bugswarm_image = true
  <-> exists (c : ascii) (pre : string) (d : ascii) (rest : string),
        bugswarm_image = String c pre +:+ "-" +:+ String d rest /\
        name_char c = true /\ all_in name_char pre = true /\ digit d = true.
Proof.
  unfold is_bugswarm_artifact_name, Re.re_match. split.
  - destruct (Re.run pattern bugswarm_image []) as [|[s' caps'] results] eqn:Hrun; [done|].
    intros _.
    assert (Hin : (s', caps') ∈ Re.run pattern bugswarm_image [])
      by (rewrite Hrun; apply list_elem_of_here).
    unfold pattern, Re.Seqs in Hin. cbn [foldr Re.run] in Hin.
    apply list_elem_of_In, in_flat_map in Hin as ([s1 c1] & H1 & Hin).
    apply in_flat_map in Hin as ([s2 c2] & H2 & Hin).
    apply in_flat_map in Hin as ([s3 c3] & H3 & _).
    apply list_elem_of_In in H1, H2, H3. cbn [Re.run fst snd] in H1, H2, H3.
    destruct bugswarm_image as [|c s0]; [by apply elem_of_nil in H1|].
    destruct (name_char c) eqn:Hc; [|by apply elem_of_nil in H1].
    apply star_runs_sound in H1 as (pre & -> & Hpre).
    destruct (Re.strip_prefix "-" s1) as [s2'|] eqn:Hs; [|by apply elem_of_nil in H2].
    apply list_elem_of_singleton in H2 as [= -> ->].
    apply strip_prefix_Some in Hs as ->.
    apply list_elem_of_fmap in H3 as ([s4 c4] & _ & H4).
    destruct s2' as [|d rest]; [by apply elem_of_nil in H4|].
    destruct (digit d) eqn:Hd; [|by apply elem_of_nil in H4].
    exists c, pre, d, rest. by rewrite append_cons.
  - intros (c & pre & d & rest & -> & Hc & Hpre & Hd).
    destruct (Re.run pattern (String c pre +:+ "-" +:+ String d rest) [])
      as [|r results] eqn:Hrun; [|done].
    exfalso.
    eapply (not_elem_of_nil ((rest, [(1%nat, String d "")]) : string * Re.captures)).
    rewrite <- Hrun. unfold pattern, Re.Seqs. cbn [foldr Re.run].
    apply list_elem_of_In, in_flat_map.
    exists ("-" +:+ String d rest, []). split.
    + apply list_elem_of_In. rewrite (append_cons c). cbn [Re.run]. rewrite Hc.
      by apply star_runs_complete.
    + apply in_flat_map. exists (String d rest, []). split.
      * apply list_elem_of_In. cbn [fst snd Re.run].
        change (Re.strip_prefix "-" ("-" +:+ String d rest)) with (Some (String d rest)).
        apply list_elem_of_here.
      * apply in_flat_map. cbn [fst snd Re.run]. rewrite Hd.
        pose proof (star_runs_complete digit [] "" rest eq_refl) as Hstar.
        rewrite append_nil_l in Hstar.
        exists (rest, [(1%nat, Re.consumed (String d rest) rest)]). split.
        -- apply list_elem_of_In, list_elem_of_fmap. by exists (rest, []).
        -- cbn [fst snd Re.run]. rewrite consumed_head. by left.
Qed.

Example artifact_names :
  is_bugswarm_artifact_name "square-okhttp-95014919" = true /\
  is_bugswarm_artifact_name "square-okhttp-95014919 and more" = true /\
  is_bugswarm_artifact_name "django__django-11099" = true /\
  is_bugswarm_artifact_name "okhttp" = false /\
  is_bugswarm_artifact_name "-1" = false.
Proof. repeat split; reflexivity. Qed.

End artifact_names.


(** ** [parse_java_file] on a small file *)

Section java_sample.
Import RepoStructure JavaRef.

(** The two classes tile the file; the constructor and the method are
    recorded, the statement and the closing braces are not. *)
Example parse_java_file_on_shop :
  (match parse_java_file (fun _ => None) "Shop.java" (ContentList shop_lines) with
   | Some (classes, methods, _) =>
       Some ((fun c => (jc_name c, jc_start_line c, jc_end_line c)) <$> classes,
             (fun m => (jm_name m, jm_start_line m)) <$> methods)
   | None => None
   end)
  = Some ([("Shop", 1, 6); ("Empty", 7, 8)], [(Some "Shop", 2); (Some "size", 5)]).
Proof. by vm_compute. Qed.

End java_sample.


(** ** [compress_file_java.py]: the lines of a class block *)

Section skeleton_lines.
Import CompressJava LogUtils SkeletonLines.

(** Splitting the joined lines gives the lines back. *)
Lemma split_from_join (lines : list string) (tail : string) :
  lines <> [] -> Forall (fun l => no_lf l = true) lines ->
  split_from "" (Py.join Py.LF lines +:+ Py.LF +:+ tail) = lines ++ split_from "" tail.
Proof.
  intros Hne Hall. induction Hall as [|p lines Hp Hall IH]; [done|].
  destruct lines as [|q lines].
  - change (Py.join Py.LF [p]) with p. by rewrite split_from_line.
  - change (Py.join Py.LF (p :: q :: lines))
      with (p +:+ Py.LF +:+ Py.join Py.LF (q :: lines)).
    rewrite !append_assoc, split_from_line by done.
    rewrite append_nil_l. cbn [app]. f_equal. by apply IH.
Qed.

Lemma stub_no_lf (member : jnode) (line : string) :
  stub_of member line ->
  (forall n, stub_name member = Some n -> no_lf n = true) ->
  no_lf line = true.
Proof.
  intros Hstub Hname.
  destruct member as [cn cpre cbody cpost | mn mch | fpre decls | vn vch | och];
    simpl in Hstub; try done.
  - subst line. apply no_lf_app; [done|]. apply no_lf_app; [|done]. by apply Hname.
  - destruct decls as [|[dn dpre dbody dpost | dn dch | dpre decls' | vn vch | och] rest];
      try done.
    subst line. apply no_lf_app; [done|]. apply no_lf_app; [|done]. by apply Hname.
Qed.

Lemma stubs_no_lf (members : list jnode) (stubs : list string) :
  Forall2 stub_of members stubs ->
  Forall (fun member => forall n, stub_name member = Some n -> no_lf n = true) members ->
  Forall (fun l => no_lf l = true) ((fun line => "    " +:+ line) <$> stubs).
Proof.
  induction 1 as [|m line members stubs Hstub _ IH]; intros Hnames; [by apply Forall_nil|].
  apply Forall_cons in Hnames as [Hm Hnames]. rewrite fmap_cons. apply Forall_cons. split.
  - apply no_lf_app; [done|]. by apply (stub_no_lf m).
  - by apply IH.
Qed.

(** C6 (as amended): for a class as the parser gives it, [transform_class]
    returns one stub line per method, of the form [<name>() { ... }], and,
    when constants are kept, one stub line per field declaration, of the
    form [<name> = ...;] with the name of the first variable that the
    declaration declares, in the order of the members and nothing else.
    The lines of the class block are the header line, these stub lines
    behind the indent (one empty line when there is none) and the closing
    brace.  With two methods and one field declaration this makes three
    stub lines in the block. *)
Theorem transform_class_stubs
    (keep_constant : bool) (name : string) (pre body post : list jnode) :
  Forall member_ok body ->
  one_line_names name body ->
  exists stubs,
    transform_class keep_constant (ClassDeclaration name pre body post)
      = Return (name, stubs) /\
    Forall2 stub_of (filter (fun m => has_stub keep_constant m = true) body) stubs /\
    length stubs
      = (length (filter (fun m => is_method m = true) body)
         + if keep_constant
           then length (filter (fun m => is_field m = true) body) else 0)%nat /\
    split_lines (class_code (name, stubs))
      = ("class " +:+ name +:+ " {") :: block_lines stubs ++ ["}"].
Proof.
  intros Hok [Hname Hnames].
  destruct (transform_body_stubs keep_constant body [] Hok) as (stubs & Hb & Hf).
  exists stubs. simpl. rewrite Hb. simpl. split; [done|]. split; [done|]. split.
  { rewrite <- (Forall2_length _ _ _ Hf). apply stub_count. }
  unfold class_code, split_lines. cbn [fst snd].
  transitivity (split_from ""
    (("class " +:+ name +:+ " {") +:+ Py.LF
     +:+ Py.join Py.LF ((fun line => "    " +:+ line) <$> stubs) +:+ Py.LF +:+ "}")).
  { f_equal. by rewrite !append_assoc. }
  rewrite split_from_line
    by (apply no_lf_app; [done|]; by apply no_lf_app).
  rewrite append_nil_l. f_equal.
  destruct stubs as [|line stubs]; [reflexivity|].
  rewrite split_from_join; [done|done|].
  apply (stubs_no_lf _ _ Hf), Forall_forall. intros m Hm.
  apply list_elem_of_filter in Hm as [_ Hm].
  rewrite Forall_forall in Hnames. by apply Hnames.
Qed.

Lemma transform_class_stubs_witness :
  Forall member_ok counter_body /\
  one_line_names "Counter" counter_body /\
  (exists stubs,
    transform_class true (ClassDeclaration "Counter" [] counter_body [])
      = Return ("Counter", stubs) /\
    Forall2 stub_of (filter (fun m => has_stub true m = true) counter_body) stubs /\
    length stubs = (2 + 1)%nat /\
    split_lines (class_code ("Counter", stubs))
      = "class Counter {" :: block_lines stubs ++ ["}"]) /\
  split_lines (class_code ("Counter", ["    total = ...;"; "    add() { ... }";
                                       "    get() { ... }"]))
    = ["class Counter {"; "        total = ...;"; "        add() { ... }";
       "        get() { ... }"; "}"] /\
  transform true demo_parse counter_text
    = Return (Py.join Py.LF
               ["class Counter {"; "        total = ...;"; "        add() { ... }";
                "        get() { ... }"; "}"]).
Proof.
  assert (Hok : Forall member_ok counter_body).
  { repeat (apply List.Forall_cons || apply List.Forall_nil); simpl; eauto. }
  assert (Hnames : one_line_names "Counter" counter_body).
  { split; [reflexivity|].
    repeat (apply List.Forall_cons || apply List.Forall_nil);
      intros n Hn; injection Hn as <-; reflexivity. }
  split; [exact Hok|]. split; [exact Hnames|].
  split; [|split; reflexivity].
  exact (transform_class_stubs true "Counter" [] counter_body [] Hok Hnames).
Defined.

(** C6, counterexample to one stub line per field: the class [Pair] has
    the two fields [a] and [b], declared by one field declaration, no
    method, and constants are kept; [transform_class] returns one stub
    line, for [a], and the skeleton of the text does not mention [b]. *)
Example two_fields_one_stub :
  declared_fields pair_body = [VariableDeclarator "a" []; VariableDeclarator "b" []] /\
  filter (fun m => is_method m = true) pair_body = [] /\
  transform_class true pair_class = Return ("Pair", ["    a = ...;"]) /\
  transform true pair_parse pair_text
    = Return (Py.join Py.LF ["class Pair {"; "        a = ...;"; "}"]).
Proof. repeat split; reflexivity. Qed.

End skeleton_lines.
